(** * Evidence and hook governance API: a shallow embedding

    The development follows the two Express servers of the repository:

    - the V2 API (authenticated routes over [evidence_repository_v2],
      [hook_configurations_v2], [users] and [teams]), in [Module V2];
    - the first API (unauthenticated routes over [evidence_repository]),
      in [Module Legacy];
    - the [project_knowledge_links] bridge table of the V3 migration, in
      [Module Bridge];
    - the routes of the V2 API that read hooks, in [Module HookReads];
      its accounts (tokens, login, roles and the raw query route), in
      [Module Accounts]; its log of tool executions, in [Module Mcp]; its
      search of the knowledge graph, in [Module KnowledgeSearch];
    - the other routes of the first API (evidence by task and by search,
      hook configurations, verification rules), in [Module LegacyRoutes].

    Route handlers are functions from the store and the request to a
    response and a store.  The SQL text a handler sends is kept as data
    (conditions over column names and numbered placeholders) and evaluated
    by a small model of the relational store, [Module SQL]: the tables as
    the migrations declare them, name resolution over the tables of the
    FROM clause, typed parameters, comparison with NULL, ORDER BY, LIMIT
    and OFFSET, constraints at INSERT and UPDATE.  What the store draws
    itself ([gen_random_uuid()], [NOW()]) is an argument of the handler.

    What belongs to the store and to its driver rather than to the
    repository (how a JavaScript value is written as a parameter, how the
    store reads a text as a uuid, a timestamp, a boolean, an integer or a
    JSON document) is the interface [PgEngine]; [Module Sample] is one
    engine, and [Module Scenario] a small installation to run the handlers
    on.  The collation of the store, the token and password libraries, the
    graph store and the texts JavaScript gives numbers are interfaces of
    the same kind ([PgCollation], [AuthEngine], [GraphStore], [JsEngine]),
    with stand-ins in [Module Bench] and more of the installation in
    [Module Installation].

    A request body is a parsed JSON object.  A query string has one string
    per parameter: repeated and bracketed parameters, which Express parses
    to arrays and objects, are not covered.  Nor is a text with a zero
    byte, which the store refuses wherever it reads a text: the texts of a
    request are taken to have none. *)

From Stdlib Require Import ZArith List Ascii String Lia.
From stdpp Require Import base option list gmap strings sorting pretty.

Local Open Scope string_scope.
Local Open Scope Z_scope.

(** ** JavaScript values *)

(** A parsed JSON document.  [undefined] is the absence of a property and is
    written [None] at type [option jsval]. *)
#[warnings="-register-all"]
Inductive jsval : Type :=
| JNull
| JBool (b : bool)
| JNum (n : Z)
| JStr (s : string)
| JArr (items : list jsval)
| JObj (fields : list (string * jsval)).

(** [if (v)] and [!v]: undefined, null, false, 0 and the empty string are
    falsy, every array and object is truthy. *)
Definition truthy (v : option jsval) : bool :=
  match v with
  | None | Some JNull => false
  | Some (JBool b) => b
  | Some (JNum n) => negb (n =? 0)
  | Some (JStr s) => negb (String.eqb s "")
  | Some (JArr _) | Some (JObj _) => true
  end.

(** Destructuring with a default, [{ k = d } = obj]: the default stands in
    only for an undefined property. *)
Definition with_default {A} (d : A) (v : option A) : A :=
  match v with
  | Some a => a
  | None => d
  end.

(** ** [parseInt] *)

Module JS.

Definition code (c : ascii) : N := N_of_ascii c.

(** Leading white space as [parseInt] strips it.  The string is a UTF-8
    byte sequence: the one-byte cases are TAB, LF, VT, FF, CR and SP, the
    others are U+00A0, U+1680, U+2000..U+200A, U+2028, U+2029, U+202F,
    U+205F, U+3000 and U+FEFF. *)
Fixpoint trim_start (s : string) : string :=
  match s with
  | String c rest =>
      let n := code c in
      if ((9 <=? n) && (n <=? 13) || (n =? 32))%N then trim_start rest
      else
        match rest with
        | String c2 rest2 =>
            let n2 := code c2 in
            if ((n =? 194) && (n2 =? 160))%N then trim_start rest2
            else
              match rest2 with
              | String c3 rest3 =>
                  let n3 := code c3 in
                  if ((n =? 225) && (n2 =? 154) && (n3 =? 128)
                      || (n =? 226) && (n2 =? 128)
                         && ((128 <=? n3) && (n3 <=? 138)
                             || (n3 =? 168) || (n3 =? 169) || (n3 =? 175))
                      || (n =? 226) && (n2 =? 129) && (n3 =? 159)
                      || (n =? 227) && (n2 =? 128) && (n3 =? 128)
                      || (n =? 239) && (n2 =? 187) && (n3 =? 191))%N
                  then trim_start rest3
                  else s
              | EmptyString => s
              end
        | EmptyString => s
        end
  | EmptyString => s
  end.

(** The value of a digit in the given radix (10 or 16). *)
Definition digit (radix : Z) (c : ascii) : option Z :=
  let n := Z.of_N (code c) in
  let d :=
    if (48 <=? n) && (n <=? 57) then Some (n - 48)
    else if (97 <=? n) && (n <=? 102) then Some (n - 87)
    else if (65 <=? n) && (n <=? 70) then Some (n - 55)
    else None in
  match d with
  | Some v => if v <? radix then Some v else None
  | None => None
  end.

(** The longest prefix of digits, read left to right; [None] when the
    first character is not a digit. *)
Fixpoint digits (radix : Z) (acc : option Z) (s : string) : option Z :=
  match s with
  | String c rest =>
      match digit radix c with
      | Some d => digits radix (Some (with_default 0 acc * radix + d)) rest
      | None => acc
      end
  | EmptyString => acc
  end.

(** Nearest double, ties to even, of a non-negative integer: integers
    below 2^53 are exact. *)
Definition round53 (z : Z) : Z :=
  if z <? 2 ^ 53 then z
  else
    let e := Z.log2 z - 52 in
    let q := Z.shiftr z e in
    let r := Z.land z (Z.ones e) in
    let half := Z.shiftl 1 (e - 1) in
    let q' := if (half <? r) || ((r =? half) && Z.odd q) then q + 1 else q in
    Z.shiftl q' e.

(** [parseInt(s)] with no radix argument; [None] is NaN. *)
Definition parseInt (s : string) : option Z :=
  let s1 := trim_start s in
  let '(sign, s2) :=
    match s1 with
    | String "-" rest => (-1, rest)
    | String "+" rest => (1, rest)
    | _ => (1, s1)
    end in
  let '(radix, s3) :=
    match s2 with
    | String "0" (String "x" rest) | String "0" (String "X" rest) => (16, rest)
    | _ => (10, s2)
    end in
  match digits radix None s3 with
  | Some v => Some (sign * round53 v)
  | None => None
  end.

End JS.

(** ** The relational store *)

(** A uuid in its canonical text form, a timestamp as a point on the store's
    clock. *)
Abbreviation uuid := string (only parsing).
Abbreviation timestamp := Z (only parsing).

(** The type input functions of the store and the parameter output function
    of its driver.  [pg_text v] is the text the driver sends for a value
    that is neither null nor undefined; the other functions are the store
    reading a value for a column of that type, [None] when it raises. *)
Class PgEngine := {
  pg_text : jsval → string;
  pg_text_str : ∀ s, pg_text (JStr s) = s;
  pg_uuid : string → option uuid;
  pg_timestamp : string → option timestamp;
  pg_boolean : jsval → option bool;
  pg_integer : string → option Z;
  pg_jsonb : jsval → option jsval
}.

(** *** Rows *)

(** [teams] (V2 migration). *)
Record Team := {
  t_id : uuid;
  t_name : string;
  t_organization : option string
}.

(** [users] (V2 migration). *)
Record User := {
  u_id : uuid;
  u_username : string;
  u_email : string;
  u_password_hash : string;
  u_full_name : option string;
  u_team_id : option uuid;
  u_role : option string;
  u_created_at : option timestamp;
  u_last_login : option timestamp
}.

(** [evidence_repository_v2] (V2 migration, with the columns the V3
    migration adds). *)
Record Evidence := {
  e_id : uuid;
  e_task_id : option uuid;
  e_user_id : option uuid;
  e_team_id : option uuid;
  e_task_category : option string;
  e_evidence_type : option string;
  e_evidence_data : option jsval;
  e_prompt_text : option string;
  e_completion_text : option string;
  e_conversation_id : option uuid;
  e_knowledge_pattern_id : option string;
  e_coding_standard_id : option string;
  e_requirement_id : option string;
  e_created_at : option timestamp;
  e_visibility : option string;
  e_project_id : option uuid;
  e_environment_id : option uuid;
  e_repo_branch : option string;
  e_commit_sha : option string;
  e_git_remote : option string
}.

(** [hook_configurations_v2] (V2 migration, with the V3 columns). *)
Record Hook := {
  h_id : uuid;
  h_name : string;
  h_category : option string;
  h_hook_type : string;
  h_script_content : string;
  h_enabled : option bool;
  h_team_id : option uuid;
  h_version : option Z;
  h_created_by : option uuid;
  h_created_at : option timestamp;
  h_updated_at : option timestamp;
  h_project_id : option uuid;
  h_scope : option string
}.

(** [evidence_repository] (init.sql). *)
Record LegacyEvidence := {
  le_id : Z;
  le_task_id : option string;
  le_task_category : string;
  le_evidence_type : string;
  le_evidence_data : jsval;
  le_user_id : option string;
  le_project_id : option string;
  le_created_at : option timestamp;
  le_metadata : option jsval
}.

(** [projects] (V3 migration). *)
Record Project := {
  p_id : uuid;
  p_name : string;
  p_repo_url : option string;
  p_team_id : option uuid
}.

(** [project_knowledge_links] (V3 migration). *)
Record KnowledgeLink := {
  kl_id : uuid;
  kl_project_id : option uuid;
  kl_knowledge_type : string;
  kl_knowledge_id : string;
  kl_scope : option string;
  kl_created_at : option timestamp;
  kl_created_by : option uuid
}.

(** The tables, each in its physical order, and the next value of the
    sequence behind [evidence_repository.id]. *)
Record Store := {
  teams : list Team;
  users : list User;
  evidence_repository_v2 : list Evidence;
  hook_configurations_v2 : list Hook;
  evidence_repository : list LegacyEvidence;
  evidence_repository_id_seq : Z;
  projects : list Project;
  project_knowledge_links : list KnowledgeLink
}.

Definition set_evidence_repository_v2 (rows : list Evidence) (st : Store) : Store :=
  {| teams := teams st; users := users st;
     evidence_repository_v2 := rows;
     hook_configurations_v2 := hook_configurations_v2 st;
     evidence_repository := evidence_repository st;
     evidence_repository_id_seq := evidence_repository_id_seq st;
     projects := projects st;
     project_knowledge_links := project_knowledge_links st |}.

Definition set_hook_configurations_v2 (rows : list Hook) (st : Store) : Store :=
  {| teams := teams st; users := users st;
     evidence_repository_v2 := evidence_repository_v2 st;
     hook_configurations_v2 := rows;
     evidence_repository := evidence_repository st;
     evidence_repository_id_seq := evidence_repository_id_seq st;
     projects := projects st;
     project_knowledge_links := project_knowledge_links st |}.

Definition set_evidence_repository (rows : list LegacyEvidence) (seq : Z)
    (st : Store) : Store :=
  {| teams := teams st; users := users st;
     evidence_repository_v2 := evidence_repository_v2 st;
     hook_configurations_v2 := hook_configurations_v2 st;
     evidence_repository := rows;
     evidence_repository_id_seq := seq;
     projects := projects st;
     project_knowledge_links := project_knowledge_links st |}.

Definition set_project_knowledge_links (rows : list KnowledgeLink) (st : Store) : Store :=
  {| teams := teams st; users := users st;
     evidence_repository_v2 := evidence_repository_v2 st;
     hook_configurations_v2 := hook_configurations_v2 st;
     evidence_repository := evidence_repository st;
     evidence_repository_id_seq := evidence_repository_id_seq st;
     projects := projects st;
     project_knowledge_links := rows |}.

(** *** Statements *)

Module SQL.

Inductive sqltype :=
| TText
| TVarchar (n : nat)
| TUuid
| TTimestamp
| TBoolean
| TInteger
| TJsonb.

Inductive sqlval :=
| VNull
| VText (s : string)
| VUuid (u : uuid)
| VTime (t : timestamp)
| VBool (b : bool)
| VInt (n : Z)
| VJson (j : jsval).

Definition nullable {A} (inj : A → sqlval) (o : option A) : sqlval :=
  match o with
  | Some a => inj a
  | None => VNull
  end.

(** The columns of a table: name, type, and the value in a row. *)
Definition table (R : Type) : Type := list (string * (sqltype * (R → sqlval))).

Definition teams_columns : table Team :=
  [ ("id", (TUuid, λ t, VUuid (t_id t)));
    ("name", (TVarchar 255, λ t, VText (t_name t)));
    ("organization", (TVarchar 255, λ t, nullable VText (t_organization t))) ].

Definition users_columns : table User :=
  [ ("id", (TUuid, λ u, VUuid (u_id u)));
    ("username", (TVarchar 255, λ u, VText (u_username u)));
    ("email", (TVarchar 255, λ u, VText (u_email u)));
    ("password_hash", (TVarchar 255, λ u, VText (u_password_hash u)));
    ("full_name", (TVarchar 255, λ u, nullable VText (u_full_name u)));
    ("team_id", (TUuid, λ u, nullable VUuid (u_team_id u)));
    ("role", (TVarchar 50, λ u, nullable VText (u_role u)));
    ("created_at", (TTimestamp, λ u, nullable VTime (u_created_at u)));
    ("last_login", (TTimestamp, λ u, nullable VTime (u_last_login u))) ].

Definition evidence_repository_v2_columns : table Evidence :=
  [ ("id", (TUuid, λ e, VUuid (e_id e)));
    ("task_id", (TUuid, λ e, nullable VUuid (e_task_id e)));
    ("user_id", (TUuid, λ e, nullable VUuid (e_user_id e)));
    ("team_id", (TUuid, λ e, nullable VUuid (e_team_id e)));
    ("task_category", (TVarchar 50, λ e, nullable VText (e_task_category e)));
    ("evidence_type", (TVarchar 100, λ e, nullable VText (e_evidence_type e)));
    ("evidence_data", (TJsonb, λ e, nullable VJson (e_evidence_data e)));
    ("prompt_text", (TText, λ e, nullable VText (e_prompt_text e)));
    ("completion_text", (TText, λ e, nullable VText (e_completion_text e)));
    ("conversation_id", (TUuid, λ e, nullable VUuid (e_conversation_id e)));
    ("knowledge_pattern_id", (TVarchar 255, λ e, nullable VText (e_knowledge_pattern_id e)));
    ("coding_standard_id", (TVarchar 255, λ e, nullable VText (e_coding_standard_id e)));
    ("requirement_id", (TVarchar 255, λ e, nullable VText (e_requirement_id e)));
    ("created_at", (TTimestamp, λ e, nullable VTime (e_created_at e)));
    ("visibility", (TVarchar 20, λ e, nullable VText (e_visibility e)));
    ("project_id", (TUuid, λ e, nullable VUuid (e_project_id e)));
    ("environment_id", (TUuid, λ e, nullable VUuid (e_environment_id e)));
    ("repo_branch", (TVarchar 255, λ e, nullable VText (e_repo_branch e)));
    ("commit_sha", (TVarchar 40, λ e, nullable VText (e_commit_sha e)));
    ("git_remote", (TVarchar 500, λ e, nullable VText (e_git_remote e))) ].

Definition hook_configurations_v2_columns : table Hook :=
  [ ("id", (TUuid, λ h, VUuid (h_id h)));
    ("name", (TVarchar 255, λ h, VText (h_name h)));
    ("category", (TVarchar 50, λ h, nullable VText (h_category h)));
    ("hook_type", (TVarchar 50, λ h, VText (h_hook_type h)));
    ("script_content", (TText, λ h, VText (h_script_content h)));
    ("enabled", (TBoolean, λ h, nullable VBool (h_enabled h)));
    ("team_id", (TUuid, λ h, nullable VUuid (h_team_id h)));
    ("version", (TInteger, λ h, nullable VInt (h_version h)));
    ("created_by", (TUuid, λ h, nullable VUuid (h_created_by h)));
    ("created_at", (TTimestamp, λ h, nullable VTime (h_created_at h)));
    ("updated_at", (TTimestamp, λ h, nullable VTime (h_updated_at h)));
    ("project_id", (TUuid, λ h, nullable VUuid (h_project_id h)));
    ("scope", (TVarchar 50, λ h, nullable VText (h_scope h))) ].

(** The columns in scope of a FROM clause, each under the name or alias of
    its table. *)
Definition schema (R : Type) : Type :=
  list ((string * string) * (sqltype * (R → sqlval))).

(** [FROM t alias] (or [FROM t], the alias being the table's name). *)
Definition from {R} (alias : string) (t : table R) : schema R :=
  map (λ c, ((alias, c.1), c.2)) t.

(** [a LEFT JOIN b]: the columns of both sides; the right side is all
    NULL in a row that found no partner. *)
Definition left_join_columns {A B} (sa : schema A) (sb : schema B)
    : schema (A * option B) :=
  app (map (λ c, (c.1, (c.2.1, λ r : A * option B, c.2.2 r.1))) sa)
      (map (λ c, (c.1, (c.2.1, λ r : A * option B,
                         match r.2 with
                         | Some b => c.2.2 b
                         | None => VNull
                         end))) sb).

(** The rows of [a LEFT JOIN b ON on]. *)
Definition left_join {A B} (on : A → B → bool) (ra : list A) (rb : list B)
    : list (A * option B) :=
  flat_map (λ a,
    match List.filter (on a) rb with
    | [] => [(a, None)]
    | bs => map (λ b, (a, Some b)) bs
    end) ra.

(** A column reference, [name] or [qualifier.name]. *)
Record colref := {
  col_qualifier : option string;
  col_name : string
}.

Definition col (name : string) : colref :=
  {| col_qualifier := None; col_name := name |}.

Definition qcol (qualifier name : string) : colref :=
  {| col_qualifier := Some qualifier; col_name := name |}.

Definition refers (r : colref) (c : string * string) : bool :=
  String.eqb c.2 (col_name r) &&
  match col_qualifier r with
  | Some q => String.eqb c.1 q
  | None => true
  end.

(** The one column a reference denotes; a reference that no column or
    more than one column answers is an error (unknown or ambiguous). *)
Definition resolve {R} (sch : schema R) (r : colref)
    : option (sqltype * (R → sqlval)) :=
  match List.filter (λ c, refers r c.1) sch with
  | [c] => Some c.2
  | _ => None
  end.

(** A value of the parameter array: null or undefined, a string of the
    request, a uuid read from the store earlier (its text reads back as the
    same uuid), or another value of a parsed body. *)
Inductive param :=
| PNull
| PText (s : string)
| PUuid (u : uuid)
| PValue (v : jsval).

(** A property of a parsed body as a parameter. *)
Definition param_of_js (v : option jsval) : param :=
  match v with
  | None | Some JNull => PNull
  | Some (JStr s) => PText s
  | Some v => PValue v
  end.

Definition param_of_uuid (u : option uuid) : param :=
  match u with
  | Some u => PUuid u
  | None => PNull
  end.

Inductive cmp := CmpEq | CmpGe | CmpLe.

(** The comparison as WHERE sees it: true, or else not true (false or
    unknown; a NULL on either side is unknown).  Ordering is by value for
    timestamps and integers and bytewise for texts and uuids; an ordering
    of booleans or JSON documents is never asked for and is left not
    true. *)
Definition compare (op : cmp) (a b : sqlval) : bool :=
  match op, a, b with
  | CmpEq, VText x, VText y => String.eqb x y
  | CmpEq, VUuid x, VUuid y => String.eqb x y
  | CmpEq, VTime x, VTime y => x =? y
  | CmpEq, VInt x, VInt y => x =? y
  | CmpEq, VBool x, VBool y => Bool.eqb x y
  | CmpGe, VTime x, VTime y | CmpGe, VInt x, VInt y => y <=? x
  | CmpLe, VTime x, VTime y | CmpLe, VInt x, VInt y => x <=? y
  | CmpGe, VText x, VText y | CmpGe, VUuid x, VUuid y => String.leb y x
  | CmpLe, VText x, VText y | CmpLe, VUuid x, VUuid y => String.leb x y
  | _, _, _ => false
  end.

(** A condition [column op $n] of a WHERE clause. *)
Record cond := Cond {
  cond_column : colref;
  cond_cmp : cmp;
  cond_param : nat
}.

(** [varchar(n)] on assignment: a longer text is refused, unless what
    exceeds is spaces, which are cut. *)
Definition varchar (n : nat) (s : string) : option string :=
  if (String.length s <=? n)%nat then Some s
  else if forallb (λ c, Ascii.eqb c " ")
            (list_ascii_of_string (String.substring n (String.length s - n) s))
       then Some (String.substring 0 n s)
       else None.

(** A number sent for LIMIT or OFFSET: NaN is not a bigint, and a
    negative or too large value is refused. *)
Definition row_count (n : option Z) : option nat :=
  match n with
  | Some z => if (0 <=? z) && (z <? 2 ^ 63) then Some (Z.to_nat z) else None
  | None => None
  end.

(** [created_at DESC]: NULLs sort first. *)
Definition created_desc (a b : option timestamp) : bool :=
  match a, b with
  | None, _ => true
  | Some _, None => false
  | Some x, Some y => y <=? x
  end.

Section Engine.
Context `{PgEngine}.

(** A parameter read at a type; the outer [None] is the store refusing
    the value, the inner one is NULL.  A text is read as it is: a
    text with a zero byte, which the store refuses, is not among the
    texts of a request here. *)
Definition as_text (p : param) : option (option string) :=
  match p with
  | PNull => Some None
  | PText s | PUuid s => Some (Some s)
  | PValue v => Some (Some (pg_text v))
  end.

Definition as_uuid (p : param) : option (option uuid) :=
  match p with
  | PNull => Some None
  | PUuid u => Some (Some u)
  | PText s => Some <$> pg_uuid s
  | PValue v => Some <$> pg_uuid (pg_text v)
  end.

Definition as_timestamp (p : param) : option (option timestamp) :=
  match p with
  | PNull => Some None
  | PText s | PUuid s => Some <$> pg_timestamp s
  | PValue v => Some <$> pg_timestamp (pg_text v)
  end.

Definition as_boolean (p : param) : option (option bool) :=
  match p with
  | PNull => Some None
  | PText s | PUuid s => Some <$> pg_boolean (JStr s)
  | PValue v => Some <$> pg_boolean v
  end.

Definition as_jsonb (p : param) : option (option jsval) :=
  match p with
  | PNull => Some None
  | PText s | PUuid s => Some <$> pg_jsonb (JStr s)
  | PValue v => Some <$> pg_jsonb v
  end.

Definition as_integer (p : param) : option (option Z) :=
  match p with
  | PNull => Some None
  | PText s | PUuid s => Some <$> pg_integer s
  | PValue v => Some <$> pg_integer (pg_text v)
  end.

(** A parameter assigned to a [varchar(n)] column. *)
Definition as_varchar (n : nat) (p : param) : option (option string) :=
  s ← as_text p;
  match s with
  | Some s => Some <$> varchar n s
  | None => Some None
  end.

(** The parameter read at the type of the column it is compared with. *)
Definition cast (ty : sqltype) (p : param) : option sqlval :=
  match ty with
  | TText | TVarchar _ => nullable VText <$> as_text p
  | TUuid => nullable VUuid <$> as_uuid p
  | TTimestamp => nullable VTime <$> as_timestamp p
  | TBoolean => nullable VBool <$> as_boolean p
  | TInteger => nullable VInt <$> as_integer p
  | TJsonb => nullable VJson <$> as_jsonb p
  end.

(** Analysis and binding of one condition; placeholders count from 1. *)
Definition prepare {R} (sch : schema R) (params : list param) (c : cond)
    : option (R → bool) :=
  column ← resolve sch (cond_column c);
  p ← match cond_param c with
       | O => None
       | S n => params !! n
       end;
  v ← cast column.1 p;
  Some (λ r, compare (cond_cmp c) (column.2 r) v).

(** The conditions joined by AND; an empty list is no WHERE clause. *)
Definition where_clause {R} (sch : schema R) (params : list param)
    (conds : list cond) : option (R → bool) :=
  ps ← mapM (prepare sch params) conds;
  Some (λ r, forallb (λ p, p r) ps).

End Engine.

End SQL.

(** ** Responses *)

(** What a handler answers: the status and, for 200 and 201, the JSON
    payload.  Every branch of a handler that catches an exception answers
    500. *)
Inductive response (A : Type) : Type :=
| OK (payload : A)
| Created (payload : A)
| BadRequest
| Unauthorized
| NotFound
| InternalServerError.
Arguments OK {A} payload.
Arguments Created {A} payload.
Arguments BadRequest {A}.
Arguments Unauthorized {A}.
Arguments NotFound {A}.
Arguments InternalServerError {A}.

(** ** The V2 API *)

Module V2.
Import SQL.

(** [req.user]: the row [authMiddleware] selects for the bearer of the
    token, [u.*] with the name and organization of the team. *)
Record ReqUser := {
  ru_id : uuid;
  ru_username : string;
  ru_email : string;
  ru_full_name : option string;
  ru_role : option string;
  ru_team_id : option uuid;
  ru_team_name : option string;
  ru_organization : option string
}.

(** A row of [SELECT e.*, u.username, u.full_name]. *)
Record EvidenceRow := {
  er_evidence : Evidence;
  er_username : option string;
  er_full_name : option string
}.

Definition select_evidence_row (r : Evidence * option User) : EvidenceRow :=
  {| er_evidence := r.1;
     er_username := u_username <$> r.2;
     er_full_name := r.2 ≫= u_full_name |}.

(** The payload of the search. *)
Record SearchResult := {
  evidence : list EvidenceRow;
  count : Z;
  limit : option Z;
  offset : option Z
}.

(** A fixed-point decimal, [numeric_digits * 10 ^ - numeric_scale]. *)
Record numeric := {
  numeric_digits : Z;
  numeric_scale : nat
}.

(** A row of the compliance metrics. *)
Record MetricRow := {
  task_category : option string;
  total_verifications : nat;
  unique_users : nat;
  pass_rate : numeric
}.

(** The three locals a handler grows while it composes a WHERE clause. *)
Record QueryBuilder := {
  whereConditions : list cond;
  params : list param;
  paramIndex : nat
}.

(** [whereConditions.push(`column op $${paramIndex++}`); params.push(v)] *)
Definition push (column : string) (op : cmp) (v : param) (qb : QueryBuilder)
    : QueryBuilder :=
  {| whereConditions := app (whereConditions qb) [Cond (col column) op (paramIndex qb)];
     params := app (params qb) [v];
     paramIndex := S (paramIndex qb) |}.

(** [if (v) { push ... v ... }] for a query-string parameter [v], which
    is a string when it is present: the empty string is falsy. *)
Definition if_truthy (v : option string)
    (f : string → QueryBuilder → QueryBuilder) (qb : QueryBuilder)
    : QueryBuilder :=
  match v with
  | Some s => if String.eqb s "" then qb else f s qb
  | None => qb
  end.

(** [e.user_id = u.id] *)
Definition on_user (e : Evidence) (u : User) : bool :=
  match e_user_id e with
  | Some x => String.eqb x (u_id u)
  | None => false
  end.

(** [u.team_id = t.id] *)
Definition on_team (u : User) (t : Team) : bool :=
  match u_team_id u with
  | Some x => String.eqb x (t_id t)
  | None => false
  end.

(** [ORDER BY e.created_at DESC]; the order among equal keys is the
    store's choice, here the one a stable sort of the scan gives. *)
Definition by_created_desc (a b : Evidence * option User) : Prop :=
  Is_true (created_desc (e_created_at a.1) (e_created_at b.1)).

#[export] Instance by_created_desc_dec : RelDecision by_created_desc.
Proof. intros a b. unfold by_created_desc. apply _. Defined.

(** [ORDER BY total_verifications DESC] *)
Definition by_total_desc (a b : MetricRow) : Prop :=
  (total_verifications b ≤ total_verifications a)%nat.

#[export] Instance by_total_desc_dec : RelDecision by_total_desc.
Proof. intros a b. unfold by_total_desc. apply _. Defined.

(** [FROM evidence_repository_v2 e] *)
Definition evidence_scope : schema Evidence :=
  from "e" evidence_repository_v2_columns.

(** [FROM evidence_repository_v2 e LEFT JOIN users u ON e.user_id = u.id]:
    an unqualified name in a clause of this query is looked up in the
    columns of both tables. *)
Definition evidence_users_scope : schema (Evidence * option User) :=
  left_join_columns evidence_scope (from "u" users_columns).

(** [FROM evidence_repository_v2] *)
Definition metrics_scope : schema Evidence :=
  from "evidence_repository_v2" evidence_repository_v2_columns.

(** [FROM users u LEFT JOIN teams t ON u.team_id = t.id] *)
Definition users_teams_scope : schema (User * option Team) :=
  left_join_columns (from "u" users_columns) (from "t" teams_columns).

(** [FROM hook_configurations_v2] *)
Definition hooks_scope : schema Hook :=
  from "hook_configurations_v2" hook_configurations_v2_columns.

#[global] Arguments evidence_scope : simpl never.
#[global] Arguments evidence_users_scope : simpl never.
#[global] Arguments metrics_scope : simpl never.
#[global] Arguments users_teams_scope : simpl never.
#[global] Arguments hooks_scope : simpl never.

(** The visibility branch and the filters of the evidence search, in the
    order the handler pushes them.  [project_id] is read from the query
    and not used. *)
Definition search_conditions (user : ReqUser) (query : gmap string string)
    : QueryBuilder :=
  let category := query !! "category" in
  let user_id := query !! "user_id" in
  let from_date := query !! "from_date" in
  let to_date := query !! "to_date" in
  let visibility := with_default "team" (query !! "visibility") in
  let qb := {| whereConditions := []; params := []; paramIndex := 1 |} in
  let qb :=
    if String.eqb visibility "private" then
      push "user_id" CmpEq (PUuid (ru_id user)) qb
    else if String.eqb visibility "team" then
      push "team_id" CmpEq (param_of_uuid (ru_team_id user)) qb
    else qb in
  let qb := if_truthy category (λ v, push "task_category" CmpEq (PText v)) qb in
  let qb := if_truthy user_id (λ v, push "user_id" CmpEq (PText v)) qb in
  let qb := if_truthy from_date (λ v, push "created_at" CmpGe (PText v)) qb in
  let qb := if_truthy to_date (λ v, push "created_at" CmpLe (PText v)) qb in
  qb.

(** [team_id = $1] and the date filters of the compliance metrics;
    [team_id] is the query parameter and, when it is undefined, the
    caller's team. *)
Definition metrics_conditions (user : ReqUser) (query : gmap string string)
    : QueryBuilder :=
  let from_date := query !! "from_date" in
  let to_date := query !! "to_date" in
  let team_id :=
    match query !! "team_id" with
    | Some s => PText s
    | None => param_of_uuid (ru_team_id user)
    end in
  let qb := {| whereConditions := [Cond (col "team_id") CmpEq 1];
               params := [team_id];
               paramIndex := 2 |} in
  let qb := if_truthy from_date (λ v, push "created_at" CmpGe (PText v)) qb in
  let qb := if_truthy to_date (λ v, push "created_at" CmpLe (PText v)) qb in
  qb.

(** [parseInt(limit)] with [limit = 100] when the query has none, and
    [parseInt(offset)] with [offset = 0]. *)
Definition search_limit (query : gmap string string) : option Z :=
  match query !! "limit" with
  | Some s => JS.parseInt s
  | None => Some 100
  end.

Definition search_offset (query : gmap string string) : option Z :=
  match query !! "offset" with
  | Some s => JS.parseInt s
  | None => Some 0
  end.

(** [GROUP BY task_category] with the four selected expressions. *)
Definition group_by_task_category (rows : list Evidence) : list MetricRow :=
  map (λ c,
    let members := List.filter (λ e, bool_decide (e_task_category e = c)) rows in
    {| task_category := c;
       total_verifications := length members;
       unique_users := length (remove_dups (omap e_user_id members));
       pass_rate := {| numeric_digits := 87; numeric_scale := 2 |} |})
    (remove_dups (e_task_category <$> rows)).

Section Handlers.
Context `{PgEngine}.

(** [authMiddleware] past the verification of the token: the user row
    of the decoded id, joined with its team. *)
Definition authMiddleware (st : Store) (decoded_id : string) : response ReqUser :=
  match
    w ← where_clause users_teams_scope
          [PText decoded_id] [Cond (qcol "u" "id") CmpEq 1];
    Some (List.filter w (left_join on_team (users st) (teams st)))
  with
  | Some (r :: _) =>
      OK {| ru_id := u_id r.1;
            ru_username := u_username r.1;
            ru_email := u_email r.1;
            ru_full_name := u_full_name r.1;
            ru_role := u_role r.1;
            ru_team_id := u_team_id r.1;
            ru_team_name := t_name <$> r.2;
            ru_organization := r.2 ≫= t_organization |}
  | _ => Unauthorized
  end.

(** The first query of the search: evidence joined with users, under
    the WHERE clause, newest first, one page.  [limit] and [offset] stand
    for the two values the handler appends to the parameters, which the
    last two placeholders name. *)
Definition select_evidence_page (st : Store) (qb : QueryBuilder)
    (limit offset : option Z) : option (list EvidenceRow) :=
  w ← where_clause evidence_users_scope (params qb) (whereConditions qb);
  l ← row_count limit;
  o ← row_count offset;
  Some (select_evidence_row <$>
          take l (drop o (merge_sort by_created_desc
            (List.filter w
               (left_join on_user (evidence_repository_v2 st) (users st)))))).

(** The rows of [evidence_repository_v2 e] under the WHERE clause: what
    the second query of the search counts. *)
Definition select_evidence_matching (st : Store) (qb : QueryBuilder)
    : option (list Evidence) :=
  w ← where_clause evidence_scope (params qb) (whereConditions qb);
  Some (List.filter w (evidence_repository_v2 st)).

(** GET /api/evidence/search *)
Definition get_api_evidence_search (st : Store) (user : ReqUser)
    (query : gmap string string) : response SearchResult :=
  let qb := search_conditions user query in
  match
    rows ← select_evidence_page st qb (search_limit query) (search_offset query);
    matching ← select_evidence_matching st qb;
    Some (rows, matching)
  with
  | Some (rows, matching) =>
      OK {| evidence := rows;
            count := JS.round53 (Z.of_nat (length matching));
            limit := search_limit query;
            offset := search_offset query |}
  | None => InternalServerError
  end.

(** The rows of [evidence_repository_v2] under the WHERE clause of the
    compliance metrics: what the query groups. *)
Definition select_metrics_matching (st : Store) (qb : QueryBuilder)
    : option (list Evidence) :=
  w ← where_clause metrics_scope (params qb) (whereConditions qb);
  Some (List.filter w (evidence_repository_v2 st)).

(** GET /api/metrics/compliance *)
Definition get_api_metrics_compliance (st : Store) (user : ReqUser)
    (query : gmap string string) : response (list MetricRow) :=
  let qb := metrics_conditions user query in
  match select_metrics_matching st qb with
  | Some rows =>
      OK (merge_sort by_total_desc (group_by_task_category rows))
  | None => InternalServerError
  end.

(** [INSERT INTO evidence_repository_v2 (user_id, team_id,
    task_category, evidence_type, evidence_data, prompt_text,
    completion_text, conversation_id, knowledge_pattern_id,
    coding_standard_id, visibility) VALUES ($1, ..., $11) RETURNING *]:
    the eleven values are read at the types of their columns, the
    columns left out take their defaults ([gen_random_uuid()], [NOW()],
    NULL), and the primary key and the two foreign keys are checked. *)
Definition insert_evidence_repository_v2 (st : Store)
    (gen_random_uuid : uuid) (now : timestamp) (values : list param)
    : option (Evidence * Store) :=
  match values with
  | [p1; p2; p3; p4; p5; p6; p7; p8; p9; p10; p11] =>
      user_id ← as_uuid p1;
      team_id ← as_uuid p2;
      task_category ← as_varchar 50 p3;
      evidence_type ← as_varchar 100 p4;
      evidence_data ← as_jsonb p5;
      prompt_text ← as_text p6;
      completion_text ← as_text p7;
      conversation_id ← as_uuid p8;
      knowledge_pattern_id ← as_varchar 255 p9;
      coding_standard_id ← as_varchar 255 p10;
      visibility ← as_varchar 20 p11;
      let row :=
        {| e_id := gen_random_uuid;
           e_task_id := None;
           e_user_id := user_id;
           e_team_id := team_id;
           e_task_category := task_category;
           e_evidence_type := evidence_type;
           e_evidence_data := evidence_data;
           e_prompt_text := prompt_text;
           e_completion_text := completion_text;
           e_conversation_id := conversation_id;
           e_knowledge_pattern_id := knowledge_pattern_id;
           e_coding_standard_id := coding_standard_id;
           e_requirement_id := None;
           e_created_at := Some now;
           e_visibility := visibility;
           e_project_id := None;
           e_environment_id := None;
           e_repo_branch := None;
           e_commit_sha := None;
           e_git_remote := None |} in
      if existsb (λ e, String.eqb (e_id e) gen_random_uuid)
           (evidence_repository_v2 st)
      then None
      else if negb (match user_id with
                    | Some u => existsb (λ x, String.eqb (u_id x) u) (users st)
                    | None => true
                    end)
      then None
      else if negb (match team_id with
                    | Some t => existsb (λ x, String.eqb (t_id x) t) (teams st)
                    | None => true
                    end)
      then None
      else Some (row,
                 set_evidence_repository_v2
                   (app (evidence_repository_v2 st) [row]) st)
  | _ => None
  end.

(** POST /api/evidence *)
Definition post_api_evidence (st : Store) (user : ReqUser)
    (body : gmap string jsval) (gen_random_uuid : uuid) (now : timestamp)
    : response Evidence * Store :=
  let task_category := body !! "task_category" in
  let evidence_type := body !! "evidence_type" in
  let evidence_data := body !! "evidence_data" in
  let prompt_text := body !! "prompt_text" in
  let completion_text := body !! "completion_text" in
  let conversation_id := body !! "conversation_id" in
  let knowledge_pattern_id := body !! "knowledge_pattern_id" in
  let coding_standard_id := body !! "coding_standard_id" in
  let visibility :=
    match body !! "visibility" with
    | None => Some (JStr "team")
    | v => v
    end in
  if negb (truthy task_category) || negb (truthy evidence_type)
     || negb (truthy evidence_data)
  then (BadRequest, st)
  else
    match
      insert_evidence_repository_v2 st gen_random_uuid now
        [ PUuid (ru_id user);
          param_of_uuid (ru_team_id user);
          param_of_js task_category;
          param_of_js evidence_type;
          param_of_js evidence_data;
          param_of_js prompt_text;
          param_of_js completion_text;
          param_of_js conversation_id;
          param_of_js knowledge_pattern_id;
          param_of_js coding_standard_id;
          param_of_js visibility ]
    with
    | Some (row, st') => (Created row, st')
    | None => (InternalServerError, st)
    end.

(** GET /api/evidence/:id/context *)
Definition get_api_evidence_context (st : Store) (user : ReqUser)
    (id : string) : response EvidenceRow :=
  match
    w ← where_clause evidence_users_scope
          [PText id; param_of_uuid (ru_team_id user)]
          [Cond (qcol "e" "id") CmpEq 1; Cond (qcol "e" "team_id") CmpEq 2];
    Some (select_evidence_row <$>
            List.filter w
              (left_join on_user (evidence_repository_v2 st) (users st)))
  with
  | Some [] => NotFound
  | Some (row :: _) => OK row
  | None => InternalServerError
  end.

(** [UPDATE hook_configurations_v2 SET script_content = $1, enabled = $2,
    updated_at = NOW() WHERE id = $3 AND team_id = $4 RETURNING *]:
    the rows under the WHERE clause get the three assignments, the
    others stay; [script_content] is NOT NULL, so a NULL assigned to a
    row fails the statement. *)
Definition update_hook_configurations_v2 (st : Store) (now : timestamp)
    (values : list param) : option (list Hook * Store) :=
  match values with
  | [p1; p2; p3; p4] =>
      w ← where_clause hooks_scope values
            [Cond (col "id") CmpEq 3; Cond (col "team_id") CmpEq 4];
      script_content ← as_text p1;
      enabled ← as_boolean p2;
      match List.filter w (hook_configurations_v2 st), script_content with
      | [], _ => Some ([], st)
      | _ :: _, None => None
      | _ :: _, Some script =>
          let assign h :=
            {| h_id := h_id h;
               h_name := h_name h;
               h_category := h_category h;
               h_hook_type := h_hook_type h;
               h_script_content := script;
               h_enabled := enabled;
               h_team_id := h_team_id h;
               h_version := h_version h;
               h_created_by := h_created_by h;
               h_created_at := h_created_at h;
               h_updated_at := Some now;
               h_project_id := h_project_id h;
               h_scope := h_scope h |} in
          Some (assign <$> List.filter w (hook_configurations_v2 st),
                set_hook_configurations_v2
                  (map (λ h, if w h then assign h else h)
                     (hook_configurations_v2 st)) st)
      end
  | _ => None
  end.

(** PUT /api/hooks/:id *)
Definition put_api_hooks (st : Store) (user : ReqUser) (id : string)
    (body : gmap string jsval) (now : timestamp) : response Hook * Store :=
  let script_content := body !! "script_content" in
  let enabled := body !! "enabled" in
  match
    update_hook_configurations_v2 st now
      [ param_of_js script_content;
        param_of_js enabled;
        PText id;
        param_of_uuid (ru_team_id user) ]
  with
  | Some ([], st') => (NotFound, st')
  | Some (row :: _, st') => (OK row, st')
  | None => (InternalServerError, st)
  end.

End Handlers.

End V2.

(** ** The first API *)

Module Legacy.
Import SQL.

Section Handlers.
Context `{PgEngine}.

(** [INSERT INTO evidence_repository (task_id, task_category,
    evidence_type, evidence_data, user_id, project_id, created_at)
    VALUES ($1, ..., $6, NOW()) RETURNING *].  The six values are read at
    the types of their columns before the statement runs: a value the
    store cannot read stops it there ([None]).  The statement then draws
    the next value of the sequence for [id], and the value stays drawn
    also when a NOT NULL column or the primary key refuses the row
    ([Some (None, _)]); [metadata] is NULL. *)
Definition insert_evidence_repository (st : Store) (now : timestamp)
    (values : list param) : option (option LegacyEvidence * Store) :=
  match values with
  | [p1; p2; p3; p4; p5; p6] =>
      task_id ← as_varchar 255 p1;
      task_category ← as_varchar 100 p2;
      evidence_type ← as_varchar 100 p3;
      evidence_data ← as_jsonb p4;
      user_id ← as_varchar 255 p5;
      project_id ← as_varchar 255 p6;
      let drawn :=
        set_evidence_repository (evidence_repository st)
          (evidence_repository_id_seq st + 1) st in
      match task_category, evidence_type, evidence_data with
      | Some task_category, Some evidence_type, Some evidence_data =>
          let row :=
            {| le_id := evidence_repository_id_seq st;
               le_task_id := task_id;
               le_task_category := task_category;
               le_evidence_type := evidence_type;
               le_evidence_data := evidence_data;
               le_user_id := user_id;
               le_project_id := project_id;
               le_created_at := Some now;
               le_metadata := None |} in
          if existsb (λ e, le_id e =? evidence_repository_id_seq st)
               (evidence_repository st)
          then Some (None, drawn)
          else Some (Some row,
                     set_evidence_repository
                       (app (evidence_repository st) [row])
                       (evidence_repository_id_seq st + 1) st)
      | _, _, _ => Some (None, drawn)
      end
  | _ => None
  end.

(** POST /api/evidence *)
Definition post_api_evidence (st : Store) (body : gmap string jsval)
    (now : timestamp) : response LegacyEvidence * Store :=
  let task_id := body !! "task_id" in
  let task_category := body !! "task_category" in
  let evidence_type := body !! "evidence_type" in
  let evidence_data := body !! "evidence_data" in
  let user_id := body !! "user_id" in
  let project_id := body !! "project_id" in
  if negb (truthy task_category) || negb (truthy evidence_type)
     || negb (truthy evidence_data)
  then (BadRequest, st)
  else
    match
      insert_evidence_repository st now
        [ param_of_js task_id;
          param_of_js task_category;
          param_of_js evidence_type;
          param_of_js evidence_data;
          param_of_js user_id;
          param_of_js project_id ]
    with
    | Some (Some row, st') => (Created row, st')
    | Some (None, st') => (InternalServerError, st')
    | None => (InternalServerError, st)
    end.

End Handlers.

End Legacy.

(** ** The knowledge bridge *)

Module Bridge.
Import SQL.

(** What an INSERT into [project_knowledge_links] comes to. *)
Inductive inserted :=
| Inserted (row : KnowledgeLink) (st : Store)
| UniqueViolation
| Refused.

(** [UNIQUE(project_id, knowledge_type, knowledge_id)]: a row stands in
    the way of another with the same three values, none of them NULL. *)
Definition same_link (project_id : option uuid) (knowledge_type knowledge_id : string)
    (l : KnowledgeLink) : bool :=
  match project_id, kl_project_id l with
  | Some p, Some q =>
      String.eqb p q && String.eqb knowledge_type (kl_knowledge_type l)
      && String.eqb knowledge_id (kl_knowledge_id l)
  | _, _ => false
  end.

(** [INSERT INTO project_knowledge_links (project_id, knowledge_type,
    knowledge_id, scope, created_by) VALUES (...) RETURNING *] under the
    declaration of the table: the varchar lengths, the unique triple, the
    primary key, and the references to [projects] and [users]. *)
Definition insert_project_knowledge_links (st : Store)
    (gen_random_uuid : uuid) (now : timestamp)
    (project_id : option uuid) (knowledge_type knowledge_id : string)
    (scope : option string) (created_by : option uuid) : inserted :=
  match varchar 50 knowledge_type, varchar 255 knowledge_id,
        (match scope with
         | Some s => Some <$> varchar 50 s
         | None => Some None
         end) with
  | Some knowledge_type, Some knowledge_id, Some scope =>
      let row :=
        {| kl_id := gen_random_uuid;
           kl_project_id := project_id;
           kl_knowledge_type := knowledge_type;
           kl_knowledge_id := knowledge_id;
           kl_scope := scope;
           kl_created_at := Some now;
           kl_created_by := created_by |} in
      if existsb (same_link project_id knowledge_type knowledge_id)
           (project_knowledge_links st)
      then UniqueViolation
      else if existsb (λ l, String.eqb (kl_id l) gen_random_uuid)
                (project_knowledge_links st)
      then Refused
      else if negb (match project_id with
                    | Some p => existsb (λ x, String.eqb (p_id x) p) (projects st)
                    | None => true
                    end)
      then Refused
      else if negb (match created_by with
                    | Some u => existsb (λ x, String.eqb (u_id x) u) (users st)
                    | None => true
                    end)
      then Refused
      else Inserted row
             (set_project_knowledge_links
                (app (project_knowledge_links st) [row]) st)
  | _, _, _ => Refused
  end.

(** Modelled from the spec: the [link] operation of the knowledge bridge.
    The repository declares the table [project_knowledge_links] and has no
    route or function that writes to it.  By the spec, [link] inserts the
    row, and a violation of the unique triple is caught and answered with
    the row that is already there; [scope] defaults to ['project'] as the
    column does.  Any other failure of the store is an error. *)
Definition link (st : Store) (gen_random_uuid : uuid) (now : timestamp)
    (project_id : uuid) (knowledge_type knowledge_id : string)
    (scope : option string) (created_by : uuid)
    : option KnowledgeLink * Store :=
  match
    insert_project_knowledge_links st gen_random_uuid now
      (Some project_id) knowledge_type knowledge_id
      (Some (with_default "project" scope)) (Some created_by)
  with
  | Inserted row st' => (Some row, st')
  | UniqueViolation =>
      (match varchar 50 knowledge_type, varchar 255 knowledge_id with
       | Some t, Some k =>
           List.find (same_link (Some project_id) t k)
             (project_knowledge_links st)
       | _, _ => None
       end, st)
  | Refused => (None, st)
  end.

End Bridge.

(** ** A store engine to run the handlers on *)

Module Sample.

Definition is_digit (c : ascii) : bool :=
  let n := Z.of_N (JS.code c) in (48 <=? n) && (n <=? 57).

(** A decimal number: digits and nothing else. *)
Definition natural (s : string) : option Z :=
  if forallb is_digit (list_ascii_of_string s) then JS.digits 10 None s
  else None.

(** The text of a four-byte integer: decimal digits with an optional
    sign, in range. *)
Definition integer (s : string) : option Z :=
  n ← match s with
       | String "-" rest => Z.opp <$> natural rest
       | String "+" rest => natural rest
       | _ => natural s
       end;
  if (- 2 ^ 31 <=? n) && (n <? 2 ^ 31) then Some n else None.

(** The days from 1970-01-01 to a day of the Gregorian calendar. *)
Definition days_from_civil (y m d : Z) : Z :=
  let y := if m <=? 2 then y - 1 else y in
  let era := y / 400 in
  let yoe := y - era * 400 in
  let doy := (153 * (if 2 <? m then m - 3 else m + 9) + 2) / 5 + d - 1 in
  let doe := yoe * 365 + yoe / 4 - yoe / 100 + doy in
  era * 146097 + doe - 719468.

Definition days_in_month (y m : Z) : Z :=
  if m =? 2 then
    if ((y mod 4 =? 0) && negb (y mod 100 =? 0)) || (y mod 400 =? 0)
    then 29 else 28
  else if (m =? 4) || (m =? 6) || (m =? 9) || (m =? 11) then 30
  else 31.

(** [YYYY-MM-DD] as the seconds from 1970-01-01 00:00:00 to its
    midnight. *)
Definition date (s : string) : option Z :=
  match list_ascii_of_string s with
  | [y1; y2; y3; y4; "-"; m1; m2; "-"; d1; d2]%char =>
      y ← natural (string_of_list_ascii [y1; y2; y3; y4]);
      m ← natural (string_of_list_ascii [m1; m2]);
      d ← natural (string_of_list_ascii [d1; d2]);
      if (1 <=? y) && (1 <=? m) && (m <=? 12) && (1 <=? d)
         && (d <=? days_in_month y m)
      then Some (days_from_civil y m d * 86400)
      else None
  | _ => None
  end.

(** [HH:MM:SS] as the seconds of a day. *)
Definition time_of_day (s : string) : option Z :=
  match list_ascii_of_string s with
  | [h1; h2; ":"; m1; m2; ":"; s1; s2]%char =>
      h ← natural (string_of_list_ascii [h1; h2]);
      m ← natural (string_of_list_ascii [m1; m2]);
      sec ← natural (string_of_list_ascii [s1; s2]);
      if (h <=? 23) && (m <=? 59) && (sec <=? 59)
      then Some (h * 3600 + m * 60 + sec)
      else None
  | _ => None
  end.

(** A timestamp in the form [YYYY-MM-DD] or [YYYY-MM-DD HH:MM:SS] (also
    with [T] between the two): the seconds from 1970-01-01 00:00:00. *)
Definition timestamp_of_text (s : string) : option Z :=
  if (String.length s =? 10)%nat then date s
  else if (String.length s =? 19)%nat then
    match String.get 10 s with
    | Some " "%char | Some "T"%char =>
        d ← date (String.substring 0 10 s);
        t ← time_of_day (String.substring 11 8 s);
        Some (d + t)
    | _ => None
    end
  else None.

(** Thirty-six characters, hyphens at the four places and lower-case
    hexadecimal digits elsewhere. *)
Definition canonical_uuid (s : string) : bool :=
  (String.length s =? 36)%nat &&
  forallb (λ ic : nat * ascii,
             if bool_decide (ic.1 ∈ [8; 13; 18; 23]%nat)
             then Ascii.eqb ic.2 "-"
             else let n := Z.of_N (JS.code ic.2) in
                  (48 <=? n) && (n <=? 57) || (97 <=? n) && (n <=? 102))
          (imap (λ i c, (i, c)) (list_ascii_of_string s)).

(** The spellings of a boolean the store reads, in lower case. *)
Definition boolean_of_text (s : string) : option bool :=
  if bool_decide (s ∈ ["t"; "tr"; "tru"; "true"; "y"; "ye"; "yes"; "on"; "1"])
  then Some true
  else if bool_decide
            (s ∈ ["f"; "fa"; "fal"; "fals"; "false"; "n"; "no"; "of"; "off"; "0"])
  then Some false
  else None.

(** An engine for a store whose timestamps are the seconds from
    1970-01-01 00:00:00.  It sends strings as they are, integers in
    decimal and, of arrays and objects, the empty ones, as [{}]; reads
    uuids in canonical form, timestamps in the two forms
    of [timestamp_of_text], booleans in their lower-case spellings and
    integers in decimal; and reads as JSON an object (as it is), an
    integer, a boolean, the empty array (which the driver sends as [{}])
    and the texts of an integer, a boolean and null.  What it does not
    read it refuses: a store reads more forms than these. *)
#[export] Instance engine : PgEngine.
Proof.
  refine
    {| pg_text v :=
         match v with
         | JStr s => s
         | JNum n => pretty n
         | JBool true => "true"
         | JBool false => "false"
         | JNull => "null"
         | JArr _ => "{}"
         | JObj _ => "{}"
         end;
       pg_uuid s := if canonical_uuid s then Some s else None;
       pg_timestamp := timestamp_of_text;
       pg_boolean v :=
         match v with
         | JBool b => Some b
         | JStr s => boolean_of_text s
         | JNum n => boolean_of_text (pretty n)
         | _ => None
         end;
       pg_integer := integer;
       pg_jsonb v :=
         match v with
         | JObj _ | JNum _ | JBool _ => Some v
         | JArr [] => Some (JObj [])
         | JStr "true" => Some (JBool true)
         | JStr "false" => Some (JBool false)
         | JStr "null" => Some JNull
         | JStr s => JNum <$> integer s
         | _ => None
         end |}.
  reflexivity.
Defined.

End Sample.

(** ** Vocabulary of the properties *)

Section Vocabulary.
Context `{PgEngine}.
Import SQL V2.

(** The evidence a search hands to its caller: the page of a 200, and
    nothing otherwise. *)
Definition search_rows (r : response SearchResult) : list EvidenceRow :=
  match r with
  | OK p => evidence p
  | _ => []
  end.

(** The metrics a caller receives. *)
Definition metrics_rows (r : response (list MetricRow)) : list MetricRow :=
  match r with
  | OK rows => rows
  | _ => []
  end.

(** The rows of [evidence_repository_v2] a composed WHERE clause keeps,
    LIMIT and OFFSET aside; none when the store refuses the clause. *)
Definition matching (st : Store) (qb : QueryBuilder) : list Evidence :=
  default [] (select_evidence_matching st qb).

Definition metrics_matching (st : Store) (qb : QueryBuilder) : list Evidence :=
  default [] (select_metrics_matching st qb).

(** One condition [column op v] on its own. *)
Definition condition {R} (sch : schema R) (column : string) (op : cmp)
    (v : param) : option (R → bool) :=
  c ← resolve sch (col column);
  x ← cast c.1 v;
  Some (λ r, compare op (c.2 r) x).

(** The rows a builder keeps of a list of rows, in a FROM scope. *)
Definition select {R} (sch : schema R) (qb : QueryBuilder) (rows : list R)
    : option (list R) :=
  w ← where_clause sch (params qb) (whereConditions qb);
  Some (List.filter w rows).

(** Placeholders and parameters agree: the next index is one past the
    parameters, and every condition points at one of them. *)
Definition well_formed (qb : QueryBuilder) : Prop :=
  paramIndex qb = S (length (params qb)) ∧
  Forall (λ c, (0 < cond_param c ≤ length (params qb))%nat) (whereConditions qb).

(** The builder of the search as the visibility branch leaves it. *)
Definition visibility_conditions (user : ReqUser) (query : gmap string string)
    : QueryBuilder :=
  let visibility := with_default "team" (query !! "visibility") in
  let qb := {| whereConditions := []; params := []; paramIndex := 1 |} in
  if String.eqb visibility "private" then
    push "user_id" CmpEq (PUuid (ru_id user)) qb
  else if String.eqb visibility "team" then
    push "team_id" CmpEq (param_of_uuid (ru_team_id user)) qb
  else qb.

(** One filter of a request on rows already selected: [if (v)] keeps of
    them the rows under [column op v]. *)
Definition narrow {R} (sch : schema R) (v : option string) (column : string)
    (op : cmp) (rs : option (list R)) : option (list R) :=
  match v with
  | Some s =>
      if String.eqb s "" then rs
      else r ← rs; c ← condition sch column op (PText s); Some (List.filter c r)
  | None => rs
  end.

(** One selection is narrower than another: it fails where the other
    fails, and keeps a sublist of what the other keeps. *)
Definition narrower {R} (a b : option (list R)) : Prop :=
  (b = None → a = None) ∧ default [] a `sublist_of` default [] b.

End Vocabulary.

(** The query reduced to its visibility. *)
Definition visibility_only (query : gmap string string) : gmap string string :=
  match query !! "visibility" with
  | Some v => {[ "visibility" := v ]}
  | None => ∅
  end.

(** The query reduced to its team. *)
Definition team_only (query : gmap string string) : gmap string string :=
  match query !! "team_id" with
  | Some v => {[ "team_id" := v ]}
  | None => ∅
  end.

(** The organization of the team that owns a row, and whether it is the
    caller's. *)
Definition team_organization (st : Store) (team_id : option uuid) : option string :=
  t ← team_id;
  team ← List.find (λ x, String.eqb (t_id x) t) (teams st);
  t_organization team.

Definition shares_organization (st : Store) (user : V2.ReqUser) (e : Evidence) : bool :=
  match team_organization st (e_team_id e), V2.ru_organization user with
  | Some a, Some b => String.eqb a b
  | _, _ => false
  end.

(** [user_id = $n] with the caller's id, and [team_id = $n] with the
    caller's team, as predicates on a row: a NULL on either side is not a
    match. *)
Definition private_predicate (user : V2.ReqUser) (e : Evidence) : bool :=
  match e_user_id e with
  | Some u => String.eqb u (V2.ru_id user)
  | None => false
  end.

Definition team_predicate (user : V2.ReqUser) (e : Evidence) : bool :=
  match e_team_id e, V2.ru_team_id user with
  | Some a, Some b => String.eqb a b
  | _, _ => false
  end.

(** Two versions of a hook row that differ at most in [script_content],
    [enabled] and [updated_at]. *)
Definition hook_frame (h h' : Hook) : Prop :=
  h_id h' = h_id h ∧
  h_name h' = h_name h ∧
  h_category h' = h_category h ∧
  h_hook_type h' = h_hook_type h ∧
  h_team_id h' = h_team_id h ∧
  h_version h' = h_version h ∧
  h_created_by h' = h_created_by h ∧
  h_created_at h' = h_created_at h ∧
  h_project_id h' = h_project_id h ∧
  h_scope h' = h_scope h.

Section Hook_vocabulary.
Context `{PgEngine}.

(** What an update leaves and what it returns: row for row the table is
    framed, a row that changed is one the WHERE clause addresses, and the
    rows returned are rows of the new table. *)
Definition updated_in_place (st st' : Store) (id : string) (team : option uuid)
    (now : timestamp) (rows : list Hook) : Prop :=
  Forall2 hook_frame (hook_configurations_v2 st) (hook_configurations_v2 st') ∧
  st' = set_hook_configurations_v2 (hook_configurations_v2 st') st ∧
  (∀ i h h',
     hook_configurations_v2 st !! i = Some h →
     hook_configurations_v2 st' !! i = Some h' →
     h' ≠ h →
     pg_uuid id = Some (h_id h) ∧ h_team_id h = team ∧
     h_updated_at h' = Some now) ∧
  (∀ row, row ∈ rows →
     row ∈ hook_configurations_v2 st' ∧
     ∃ h, h ∈ hook_configurations_v2 st ∧ hook_frame h row).

End Hook_vocabulary.

(** ** A small installation *)

(** Two teams of different organizations, a user in each and a user whose
    team is gone, three evidence rows, and one hook.  The third evidence
    row is alice's from the time she was in the second team. *)
Module Scenario.
Import V2.

Definition team1_id : uuid := "00000000-0000-0000-0000-0000000000a1".
Definition team2_id : uuid := "00000000-0000-0000-0000-0000000000a2".
Definition alice_id : uuid := "00000000-0000-0000-0000-0000000000b1".
Definition bob_id : uuid := "00000000-0000-0000-0000-0000000000b2".
Definition carol_id : uuid := "00000000-0000-0000-0000-0000000000b3".
Definition hook1_id : uuid := "00000000-0000-0000-0000-0000000000c1".
Definition fresh_id : uuid := "00000000-0000-0000-0000-0000000000ff".
Definition another_fresh_id : uuid := "00000000-0000-0000-0000-0000000000fe".
Definition project1_id : uuid := "00000000-0000-0000-0000-0000000000d1".

Definition team1 : Team :=
  {| t_id := team1_id; t_name := "Platform"; t_organization := Some "Acme" |}.

Definition team2 : Team :=
  {| t_id := team2_id; t_name := "Payments"; t_organization := Some "Globex" |}.

Definition user_row (id : uuid) (name : string) (team : option uuid) : User :=
  {| u_id := id;
     u_username := name;
     u_email := name +:+ "@example.org";
     u_password_hash := "$2b$10$";
     u_full_name := None;
     u_team_id := team;
     u_role := Some "developer";
     u_created_at := Some 1;
     u_last_login := None |}.

Definition evidence_row (id : uuid) (user team : option uuid)
    (category : string) (at_ : timestamp) : Evidence :=
  {| e_id := id;
     e_task_id := None;
     e_user_id := user;
     e_team_id := team;
     e_task_category := Some category;
     e_evidence_type := Some "verification_failed";
     e_evidence_data := Some (JObj [("rating", JNum 8)]);
     e_prompt_text := None;
     e_completion_text := None;
     e_conversation_id := None;
     e_knowledge_pattern_id := None;
     e_coding_standard_id := None;
     e_requirement_id := None;
     e_created_at := Some at_;
     e_visibility := Some "team";
     e_project_id := None;
     e_environment_id := None;
     e_repo_branch := None;
     e_commit_sha := None;
     e_git_remote := None |}.

Definition evidence1 : Evidence :=
  evidence_row "00000000-0000-0000-0000-0000000000e1"
    (Some alice_id) (Some team1_id) "web" 10.

Definition evidence2 : Evidence :=
  evidence_row "00000000-0000-0000-0000-0000000000e2"
    (Some bob_id) (Some team2_id) "api" 20.

Definition evidence3 : Evidence :=
  evidence_row "00000000-0000-0000-0000-0000000000e3"
    (Some alice_id) (Some team2_id) "web" 30.

Definition hook1 : Hook :=
  {| h_id := hook1_id;
     h_name := "mock_zero_tolerance";
     h_category := Some "all";
     h_hook_type := "pre-completion";
     h_script_content := "exit 10";
     h_enabled := Some true;
     h_team_id := Some team1_id;
     h_version := Some 3;
     h_created_by := Some alice_id;
     h_created_at := Some 5;
     h_updated_at := Some 5;
     h_project_id := None;
     h_scope := Some "team" |}.

Definition store : Store :=
  {| teams := [team1; team2];
     users := [ user_row alice_id "alice" (Some team1_id);
                user_row bob_id "bob" (Some team2_id);
                user_row carol_id "carol" None ];
     evidence_repository_v2 := [evidence1; evidence2; evidence3];
     hook_configurations_v2 := [hook1];
     evidence_repository := [];
     evidence_repository_id_seq := 1;
     projects := [ {| p_id := project1_id;
                      p_name := "Legacy Project";
                      p_repo_url := None;
                      p_team_id := Some team1_id |} ];
     project_knowledge_links := [] |}.

Definition req_user (id : uuid) (name : string) (team : option Team) : ReqUser :=
  {| ru_id := id;
     ru_username := name;
     ru_email := name +:+ "@example.org";
     ru_full_name := None;
     ru_role := Some "developer";
     ru_team_id := t_id <$> team;
     ru_team_name := t_name <$> team;
     ru_organization := team ≫= t_organization |}.

Definition alice : ReqUser := req_user alice_id "alice" (Some team1).
Definition bob : ReqUser := req_user bob_id "bob" (Some team2).
Definition carol : ReqUser := req_user carol_id "carol" None.

(** A store with [n] evidence rows of alice's in the first team, the
    oldest of the category [api] and the others of the category [web]. *)
Definition crowd_id (i : nat) : uuid :=
  "00000000-0000-0000-0000-000000000" +:+
  pretty (Nat.div i 100) +:+ pretty (Nat.modulo (Nat.div i 10) 10)
  +:+ pretty (Nat.modulo i 10).

Definition crowded (n : nat) : Store :=
  set_evidence_repository_v2
    (map (λ i, evidence_row (crowd_id i) (Some alice_id) (Some team1_id)
                 (if Nat.eqb i 0 then "api" else "web") (Z.of_nat i))
         (seq 0 n))
    store.

(** The report of a hook client, as the installation guide writes it,
    with the context the V3 migration has columns for. *)
Definition report : gmap string jsval :=
  {[ "task_id" := JStr "00000000-0000-0000-0000-0000000000f1";
     "task_category" := JStr "web";
     "evidence_type" := JStr "puppeteer_test";
     "evidence_data" := JObj [("rating", JNum 8); ("console_errors", JNum 0)];
     "user_id" := JStr "dev@hcb.com";
     "project_id" := JStr project1_id ]}.

Definition organization_query : gmap string string :=
  {[ "visibility" := "organization" ]}.

Definition everyone_query : gmap string string :=
  {[ "visibility" := "everyone" ]}.

Definition private_query : gmap string string :=
  {[ "visibility" := "private" ]}.

Definition team_query : gmap string string :=
  {[ "visibility" := "team" ]}.

Definition public_query : gmap string string :=
  {[ "visibility" := "public" ]}.

Definition large_page_query : gmap string string :=
  {[ "visibility" := "public"; "limit" := "101" ]}.

Definition private_api_query : gmap string string :=
  {[ "visibility" := "private"; "category" := "api" ]}.

Definition private_first_query : gmap string string :=
  {[ "visibility" := "private"; "limit" := "1" ]}.

Definition public_first_query : gmap string string :=
  {[ "visibility" := "public"; "limit" := "1" ]}.

Definition other_team_query : gmap string string :=
  {[ "team_id" := team2_id ]}.

Definition other_team_recent_query : gmap string string :=
  {[ "team_id" := team2_id; "from_date" := "1970-01-01 00:00:25" ]}.

Definition hook_patch : gmap string jsval :=
  {[ "script_content" := JStr "exit 11"; "enabled" := JBool false;
     "version" := JNum 9; "name" := JStr "renamed" ]}.

Definition joined (e : Evidence) (name : string) : EvidenceRow :=
  {| er_evidence := e; er_username := Some name; er_full_name := None |}.

Definition metric (category : string) (total users : nat) : MetricRow :=
  {| task_category := Some category;
     total_verifications := total;
     unique_users := users;
     pass_rate := {| numeric_digits := 87; numeric_scale := 2 |} |}.

End Scenario.

(** ** The hook routes that read *)

(** The collation of the database: whether one text sorts no later than
    another under ORDER BY. *)
Class PgCollation := {
  pg_text_le : string → string → bool;
  pg_text_le_total : ∀ a b, pg_text_le a b = true ∨ pg_text_le b a = true
}.

Definition set_users (rows : list User) (st : Store) : Store :=
  {| teams := teams st; users := rows;
     evidence_repository_v2 := evidence_repository_v2 st;
     hook_configurations_v2 := hook_configurations_v2 st;
     evidence_repository := evidence_repository st;
     evidence_repository_id_seq := evidence_repository_id_seq st;
     projects := projects st;
     project_knowledge_links := project_knowledge_links st |}.

Module HookReads.
Import SQL V2.

(** A row of [SELECT h.*, u.username as created_by_name]. *)
Record HookRow := {
  hr_hook : Hook;
  hr_created_by_name : option string
}.

Definition select_hook_row (r : Hook * option User) : HookRow :=
  {| hr_hook := r.1;
     hr_created_by_name := u_username <$> r.2 |}.

(** The payload of the list. *)
Record HookList := {
  hooks : list HookRow;
  count : nat
}.

(** [h.created_by = u.id] *)
Definition on_creator (h : Hook) (u : User) : bool :=
  match h_created_by h with
  | Some x => String.eqb x (u_id u)
  | None => false
  end.

(** [FROM hook_configurations_v2 h LEFT JOIN users u ON h.created_by = u.id] *)
Definition hooks_users_scope : schema (Hook * option User) :=
  left_join_columns (from "h" hook_configurations_v2_columns)
                    (from "u" users_columns).

#[global] Arguments hooks_users_scope : simpl never.

(** [version DESC]: NULLs sort first. *)
Definition version_desc (a b : option Z) : bool :=
  match a, b with
  | None, _ => true
  | Some _, None => false
  | Some x, Some y => y <=? x
  end.

Section Ordering.
Context `{PgCollation}.

(** [ORDER BY h.name, h.version DESC]: the name decides, and among rows
    of one name the version. *)
Definition name_then_version_desc (a b : Hook) : bool :=
  if negb (pg_text_le (h_name b) (h_name a)) then true
  else if negb (pg_text_le (h_name a) (h_name b)) then false
  else version_desc (h_version a) (h_version b).

Definition by_name_version_desc (a b : Hook * option User) : Prop :=
  Is_true (name_then_version_desc a.1 b.1).

#[export] Instance by_name_version_desc_dec : RelDecision by_name_version_desc.
Proof. intros a b. unfold by_name_version_desc. apply _. Defined.

End Ordering.

Section Handlers.
Context `{PgEngine} `{PgCollation}.

(** GET /api/hooks *)
Definition get_api_hooks (st : Store) (user : ReqUser) : response HookList :=
  match
    w ← where_clause hooks_users_scope
          [param_of_uuid (ru_team_id user)]
          [Cond (qcol "h" "team_id") CmpEq 1];
    Some (select_hook_row <$>
            merge_sort by_name_version_desc
              (List.filter w
                 (left_join on_creator (hook_configurations_v2 st) (users st))))
  with
  | Some rows => OK {| hooks := rows; count := length rows |}
  | None => InternalServerError
  end.

(** GET /api/hooks/:id *)
Definition get_api_hooks_id (st : Store) (user : ReqUser) (id : string)
    : response HookRow :=
  match
    w ← where_clause hooks_users_scope
          [PText id; param_of_uuid (ru_team_id user)]
          [Cond (qcol "h" "id") CmpEq 1; Cond (qcol "h" "team_id") CmpEq 2];
    Some (select_hook_row <$>
            List.filter w
              (left_join on_creator (hook_configurations_v2 st) (users st)))
  with
  | Some [] => NotFound
  | Some (row :: _) => OK row
  | None => InternalServerError
  end.

End Handlers.

End HookReads.

(** ** Accounts: tokens, login and roles *)

(** The payload [generateToken] signs. *)
Record TokenPayload := {
  tp_id : uuid;
  tp_username : string;
  tp_email : string;
  tp_role : option string;
  tp_team_id : option uuid
}.

(** What belongs to [jsonwebtoken] and [bcrypt] rather than to the
    repository.  [jwt_sign p iat] is [jwt.sign(p, JWT_SECRET, { expiresIn:
    '24h' })] at the second [iat] of the server's clock;
    [jwt_decoded_id token clock] is [jwt.verify(token, JWT_SECRET).id] at
    the second [clock], [None] when the verification throws: the tokens
    that verify are those signed with the secret, and a token is good
    until its 24 hours are over.  [bcrypt_compare v hash] is
    [bcrypt.compare(v, hash)], [None] when it throws. *)
Class AuthEngine := {
  jwt_sign : TokenPayload → Z → string;
  jwt_decoded_id : string → Z → option string;
  jwt_decoded_id_sign : ∀ p iat clock,
    clock < iat + 86400 → jwt_decoded_id (jwt_sign p iat) clock = Some (tp_id p);
  bcrypt_compare : jsval → string → option bool
}.

(** What belongs to ArangoDB: [aqlQuery(aql, bindVars)], [None] when it
    throws. *)
Class GraphStore := {
  aqlQuery : jsval → jsval → option (list jsval)
}.

Module Accounts.
Import SQL V2.

(** The [user] of a login answer. *)
Record LoginUser := {
  lu_id : uuid;
  lu_username : string;
  lu_email : string;
  lu_full_name : option string;
  lu_role : option string;
  lu_team_id : option uuid;
  lu_team_name : option string
}.

Record LoginResult := {
  token : string;
  user : LoginUser
}.

(** The payload of the raw query route. *)
Record QueryResult := {
  results : list jsval;
  count : nat
}.

(** What a middleware does with a request: hand it on, or answer it. *)
Inductive verdict :=
| Next
| NotAuthenticated
| InsufficientPermissions.

(** The answer of a route behind [requireRole]: 403, or what the rest of
    the chain answers. *)
Inductive guarded (A : Type) : Type :=
| Forbidden
| Answer (r : response A).
Arguments Forbidden {A}.
Arguments Answer {A} r.

(** [UPDATE users] *)
Definition users_scope : schema User := from "users" users_columns.

#[global] Arguments users_scope : simpl never.

(** [requireRole(...roles)]: [roles.includes(req.user.role)], which a
    NULL role never satisfies. *)
Definition requireRole (roles : list string) (user : option ReqUser) : verdict :=
  match user with
  | None => NotAuthenticated
  | Some u =>
      match ru_role u with
      | Some r => if existsb (String.eqb r) roles then Next
                  else InsufficientPermissions
      | None => InsufficientPermissions
      end
  end.

Section Handlers.
Context `{PgEngine} `{AuthEngine}.

(** [generateToken(user)] at the second [clock]. *)
Definition generateToken (r : User * option Team) (clock : Z) : string :=
  jwt_sign {| tp_id := u_id r.1;
              tp_username := u_username r.1;
              tp_email := u_email r.1;
              tp_role := u_role r.1;
              tp_team_id := u_team_id r.1 |} clock.

(** [authMiddleware], from the Authorization header on. *)
Definition authMiddleware (st : Store) (authorization : option string)
    (clock : Z) : response ReqUser :=
  match authorization with
  | Some header =>
      if String.prefix "Bearer " header then
        match
          jwt_decoded_id
            (String.substring 7 (String.length header - 7)%nat header) clock
        with
        | Some id => V2.authMiddleware st id
        | None => Unauthorized
        end
      else Unauthorized
  | None => Unauthorized
  end.

(** [UPDATE users SET last_login = NOW() WHERE id = $1] *)
Definition update_users_last_login (st : Store) (now : timestamp)
    (values : list param) : option Store :=
  match where_clause users_scope values [Cond (col "id") CmpEq 1] with
  | Some w =>
      Some (set_users
              (map (λ u, if w u then
                           {| u_id := u_id u;
                              u_username := u_username u;
                              u_email := u_email u;
                              u_password_hash := u_password_hash u;
                              u_full_name := u_full_name u;
                              u_team_id := u_team_id u;
                              u_role := u_role u;
                              u_created_at := u_created_at u;
                              u_last_login := Some now |}
                         else u)
                 (users st)) st)
  | None => None
  end.

(** POST /api/auth/login; [now] is the store's clock and [clock] the
    server's. *)
Definition post_api_auth_login (st : Store) (body : gmap string jsval)
    (now : timestamp) (clock : Z) : response LoginResult * Store :=
  let username := body !! "username" in
  let password := body !! "password" in
  if negb (truthy username) || negb (truthy password)
  then (BadRequest, st)
  else
    match
      w ← where_clause users_teams_scope
            [param_of_js username] [Cond (qcol "u" "username") CmpEq 1];
      Some (List.filter w (left_join on_team (users st) (teams st)))
    with
    | Some [] => (Unauthorized, st)
    | Some (r :: _) =>
        match password ≫= λ v, bcrypt_compare v (u_password_hash r.1) with
        | Some true =>
            match update_users_last_login st now [PUuid (u_id r.1)] with
            | Some st' =>
                (OK {| token := generateToken r clock;
                       user := {| lu_id := u_id r.1;
                                  lu_username := u_username r.1;
                                  lu_email := u_email r.1;
                                  lu_full_name := u_full_name r.1;
                                  lu_role := u_role r.1;
                                  lu_team_id := u_team_id r.1;
                                  lu_team_name := t_name <$> r.2 |} |}, st')
            | None => (InternalServerError, st)
            end
        | Some false => (Unauthorized, st)
        | None => (InternalServerError, st)
        end
    | None => (InternalServerError, st)
    end.

(** GET /api/auth/me: the eight fields of [req.user] the answer lists are
    the eight of [ReqUser]. *)
Definition get_api_auth_me (st : Store) (authorization : option string)
    (clock : Z) : response ReqUser :=
  authMiddleware st authorization clock.

Section Graph.
Context `{GraphStore}.

(** The handler of POST /api/knowledge/query, behind the two
    middlewares. *)
Definition knowledge_query (body : gmap string jsval) : response QueryResult :=
  let aql := body !! "aql" in
  let bindVars := with_default (JObj []) (body !! "bindVars") in
  if negb (truthy aql) then BadRequest
  else
    match aql ≫= λ q, aqlQuery q bindVars with
    | Some rows => OK {| results := rows; count := length rows |}
    | None => InternalServerError
    end.

(** POST /api/knowledge/query: [authMiddleware], then
    [requireRole('admin', 'lead')], then the handler. *)
Definition post_api_knowledge_query (st : Store) (authorization : option string)
    (clock : Z) (body : gmap string jsval) : guarded QueryResult :=
  match authMiddleware st authorization clock with
  | OK u =>
      match requireRole ["admin"; "lead"] (Some u) with
      | Next => Answer (knowledge_query body)
      | NotAuthenticated => Answer Unauthorized
      | InsufficientPermissions => Forbidden
      end
  | _ => Answer Unauthorized
  end.

End Graph.

End Handlers.

End Accounts.

(** ** The other routes of the first API *)

(** [hook_configurations] (init.sql). *)
Record HookConfiguration := {
  hc_id : Z;
  hc_name : string;
  hc_category : string;
  hc_description : option string;
  hc_enabled : option bool;
  hc_config : jsval;
  hc_created_at : option timestamp;
  hc_updated_at : option timestamp
}.

(** [verification_rules] (init.sql). *)
Record VerificationRule := {
  vr_id : Z;
  vr_category : string;
  vr_rule_name : string;
  vr_rule_type : string;
  vr_priority : option Z;
  vr_enabled : option bool;
  vr_rule_config : jsval;
  vr_created_at : option timestamp;
  vr_updated_at : option timestamp
}.

(** The two configuration tables of the first API.  No statement of the
    repository reads or writes them together with a table of [Store]. *)
Record Settings := {
  hook_configurations : list HookConfiguration;
  verification_rules : list VerificationRule
}.

Module LegacyRoutes.
Import SQL.

Definition evidence_repository_columns : table LegacyEvidence :=
  [ ("id", (TInteger, λ e, VInt (le_id e)));
    ("task_id", (TVarchar 255, λ e, nullable VText (le_task_id e)));
    ("task_category", (TVarchar 100, λ e, VText (le_task_category e)));
    ("evidence_type", (TVarchar 100, λ e, VText (le_evidence_type e)));
    ("evidence_data", (TJsonb, λ e, VJson (le_evidence_data e)));
    ("user_id", (TVarchar 255, λ e, nullable VText (le_user_id e)));
    ("project_id", (TVarchar 255, λ e, nullable VText (le_project_id e)));
    ("created_at", (TTimestamp, λ e, nullable VTime (le_created_at e)));
    ("metadata", (TJsonb, λ e, nullable VJson (le_metadata e))) ].

Definition hook_configurations_columns : table HookConfiguration :=
  [ ("id", (TInteger, λ h, VInt (hc_id h)));
    ("name", (TVarchar 255, λ h, VText (hc_name h)));
    ("category", (TVarchar 100, λ h, VText (hc_category h)));
    ("description", (TText, λ h, nullable VText (hc_description h)));
    ("enabled", (TBoolean, λ h, nullable VBool (hc_enabled h)));
    ("config", (TJsonb, λ h, VJson (hc_config h)));
    ("created_at", (TTimestamp, λ h, nullable VTime (hc_created_at h)));
    ("updated_at", (TTimestamp, λ h, nullable VTime (hc_updated_at h))) ].

Definition verification_rules_columns : table VerificationRule :=
  [ ("id", (TInteger, λ r, VInt (vr_id r)));
    ("category", (TVarchar 100, λ r, VText (vr_category r)));
    ("rule_name", (TVarchar 255, λ r, VText (vr_rule_name r)));
    ("rule_type", (TVarchar 100, λ r, VText (vr_rule_type r)));
    ("priority", (TInteger, λ r, nullable VInt (vr_priority r)));
    ("enabled", (TBoolean, λ r, nullable VBool (vr_enabled r)));
    ("rule_config", (TJsonb, λ r, VJson (vr_rule_config r)));
    ("created_at", (TTimestamp, λ r, nullable VTime (vr_created_at r)));
    ("updated_at", (TTimestamp, λ r, nullable VTime (vr_updated_at r))) ].

(** [FROM evidence_repository] *)
Definition evidence_scope : schema LegacyEvidence :=
  from "evidence_repository" evidence_repository_columns.

(** [UPDATE hook_configurations] *)
Definition hooks_scope : schema HookConfiguration :=
  from "hook_configurations" hook_configurations_columns.

(** [FROM verification_rules] *)
Definition rules_scope : schema VerificationRule :=
  from "verification_rules" verification_rules_columns.

#[global] Arguments evidence_scope : simpl never.
#[global] Arguments hooks_scope : simpl never.
#[global] Arguments rules_scope : simpl never.

(** The payload of the search. *)
Record EvidencePage := {
  evidence : list LegacyEvidence;
  count : nat
}.

(** [typeof v === 'boolean'] *)
Definition is_boolean (v : option jsval) : bool :=
  match v with
  | Some (JBool _) => true
  | _ => false
  end.

(** [ORDER BY created_at DESC] *)
Definition by_created_desc (a b : LegacyEvidence) : Prop :=
  Is_true (created_desc (le_created_at a) (le_created_at b)).

#[export] Instance by_created_desc_dec : RelDecision by_created_desc.
Proof. intros a b. unfold by_created_desc. apply _. Defined.

(** [ORDER BY priority DESC]: NULLs sort first. *)
Definition by_priority_desc (a b : VerificationRule) : Prop :=
  Is_true (match vr_priority a, vr_priority b with
           | None, _ => true
           | Some _, None => false
           | Some x, Some y => y <=? x
           end).

#[export] Instance by_priority_desc_dec : RelDecision by_priority_desc.
Proof. intros a b. unfold by_priority_desc. apply _. Defined.

(** The query of the search after [WHERE 1=1], in the order the handler
    appends to it. *)
Definition search_conditions (query : gmap string string) : V2.QueryBuilder :=
  let category := query !! "category" in
  let type := query !! "type" in
  let project_id := query !! "project_id" in
  let from_date := query !! "from_date" in
  let to_date := query !! "to_date" in
  let qb := {| V2.whereConditions := []; V2.params := []; V2.paramIndex := 1 |} in
  let qb := V2.if_truthy category (λ v, V2.push "task_category" CmpEq (PText v)) qb in
  let qb := V2.if_truthy type (λ v, V2.push "evidence_type" CmpEq (PText v)) qb in
  let qb := V2.if_truthy project_id (λ v, V2.push "project_id" CmpEq (PText v)) qb in
  let qb := V2.if_truthy from_date (λ v, V2.push "created_at" CmpGe (PText v)) qb in
  let qb := V2.if_truthy to_date (λ v, V2.push "created_at" CmpLe (PText v)) qb in
  qb.

Section Handlers.
Context `{PgEngine}.


(** GET /api/evidence/search *)
Definition get_api_evidence_search (st : Store) (query : gmap string string)
    : response EvidencePage :=
  let qb := search_conditions query in
  match
    w ← where_clause evidence_scope (V2.params qb) (V2.whereConditions qb);
    Some (take 100 (merge_sort by_created_desc
                      (List.filter w (evidence_repository st))))
  with
  | Some rows => OK {| evidence := rows; count := length rows |}
  | None => InternalServerError
  end.

(** [UPDATE hook_configurations SET enabled = $1, config = $2,
    updated_at = NOW() WHERE id = $3 RETURNING *]; [config] is NOT
    NULL. *)
Definition update_hook_configurations (cfg : Settings) (now : timestamp)
    (values : list param) : option (list HookConfiguration * Settings) :=
  match values with
  | [p1; p2; p3] =>
      w ← where_clause hooks_scope values [Cond (col "id") CmpEq 3];
      enabled ← as_boolean p1;
      config ← as_jsonb p2;
      match List.filter w (hook_configurations cfg), config with
      | [], _ => Some ([], cfg)
      | _ :: _, None => None
      | _ :: _, Some config =>
          let assign h :=
            {| hc_id := hc_id h;
               hc_name := hc_name h;
               hc_category := hc_category h;
               hc_description := hc_description h;
               hc_enabled := enabled;
               hc_config := config;
               hc_created_at := hc_created_at h;
               hc_updated_at := Some now |} in
          Some (assign <$> List.filter w (hook_configurations cfg),
                {| hook_configurations :=
                     map (λ h, if w h then assign h else h)
                       (hook_configurations cfg);
                   verification_rules := verification_rules cfg |})
      end
  | _ => None
  end.

(** PUT /api/hooks/config/:id *)
Definition put_api_hooks_config (cfg : Settings) (id : string)
    (body : gmap string jsval) (now : timestamp)
    : response HookConfiguration * Settings :=
  let enabled := body !! "enabled" in
  let config := body !! "config" in
  if negb (is_boolean enabled) || negb (truthy config)
  then (BadRequest, cfg)
  else
    match
      update_hook_configurations cfg now
        [param_of_js enabled; param_of_js config; PText id]
    with
    | Some ([], cfg') => (NotFound, cfg')
    | Some (row :: _, cfg') => (OK row, cfg')
    | None => (InternalServerError, cfg)
    end.

(** GET /api/rules/:category: [WHERE category = $1 AND enabled = true
    ORDER BY priority DESC]. *)
Definition get_api_rules (cfg : Settings) (category : string)
    : response (list VerificationRule) :=
  match
    w ← where_clause rules_scope [PText category] [Cond (col "category") CmpEq 1];
    Some (merge_sort by_priority_desc
            (List.filter
               (λ r, w r && compare CmpEq (nullable VBool (vr_enabled r)) (VBool true))
               (verification_rules cfg)))
  with
  | Some rows => OK rows
  | None => InternalServerError
  end.



End Handlers.

End LegacyRoutes.

(** ** The log of tool executions *)

(** [mcp_servers_registry] (V2 migration). *)
Record McpServer := {
  ms_id : uuid;
  ms_name : string;
  ms_command : option string;
  ms_args : option jsval;
  ms_env : option jsval;
  ms_status : option string;
  ms_last_heartbeat : option timestamp;
  ms_tools_discovered : option jsval;
  ms_metadata : option jsval;
  ms_created_at : option timestamp;
  ms_updated_at : option timestamp
}.

(** [mcp_tool_executions] (V2 migration). *)
Record ToolExecution := {
  te_id : uuid;
  te_server_id : option uuid;
  te_user_id : option uuid;
  te_tool_name : string;
  te_input_params : option jsval;
  te_output_result : option jsval;
  te_execution_time_ms : option Z;
  te_status : option string;
  te_error_message : option string;
  te_created_at : option timestamp
}.

(** The two tables of the registry the log works on, beside [users]. *)
Record Registry := {
  mcp_servers_registry : list McpServer;
  mcp_tool_executions : list ToolExecution
}.

Module Mcp.
Import SQL V2.

Section Handlers.
Context `{PgEngine}.

(** [INSERT INTO mcp_tool_executions (server_id, user_id, tool_name,
    input_params, output_result, execution_time_ms, status,
    error_message) VALUES ($1, ..., $8) RETURNING *]: [tool_name] is NOT
    NULL, [id] and [created_at] take their defaults, and the primary key
    and the two foreign keys are checked. *)
Definition insert_mcp_tool_executions (st : Store) (reg : Registry)
    (gen_random_uuid : uuid) (now : timestamp) (values : list param)
    : option (ToolExecution * Registry) :=
  match values with
  | [p1; p2; p3; p4; p5; p6; p7; p8] =>
      server_id ← as_uuid p1;
      user_id ← as_uuid p2;
      tool_name ← as_varchar 255 p3 ≫= id;
      input_params ← as_jsonb p4;
      output_result ← as_jsonb p5;
      execution_time_ms ← as_integer p6;
      status ← as_varchar 50 p7;
      error_message ← as_text p8;
      let row :=
        {| te_id := gen_random_uuid;
           te_server_id := server_id;
           te_user_id := user_id;
           te_tool_name := tool_name;
           te_input_params := input_params;
           te_output_result := output_result;
           te_execution_time_ms := execution_time_ms;
           te_status := status;
           te_error_message := error_message;
           te_created_at := Some now |} in
      if existsb (λ e, String.eqb (te_id e) gen_random_uuid)
           (mcp_tool_executions reg)
      then None
      else if negb (match server_id with
                    | Some s => existsb (λ x, String.eqb (ms_id x) s)
                                  (mcp_servers_registry reg)
                    | None => true
                    end)
      then None
      else if negb (match user_id with
                    | Some u => existsb (λ x, String.eqb (u_id x) u) (users st)
                    | None => true
                    end)
      then None
      else Some (row,
                 {| mcp_servers_registry := mcp_servers_registry reg;
                    mcp_tool_executions :=
                      app (mcp_tool_executions reg) [row] |})
  | _ => None
  end.

(** POST /api/mcp/tool-execution *)
Definition post_api_mcp_tool_execution (st : Store) (reg : Registry)
    (user : ReqUser) (body : gmap string jsval) (gen_random_uuid : uuid)
    (now : timestamp) : response ToolExecution * Registry :=
  let server_id := body !! "server_id" in
  let tool_name := body !! "tool_name" in
  let input_params := body !! "input_params" in
  let output_result := body !! "output_result" in
  let execution_time_ms := body !! "execution_time_ms" in
  let status := body !! "status" in
  let error_message := body !! "error_message" in
  match
    insert_mcp_tool_executions st reg gen_random_uuid now
      [ param_of_js server_id;
        PUuid (ru_id user);
        param_of_js tool_name;
        param_of_js input_params;
        param_of_js output_result;
        param_of_js execution_time_ms;
        param_of_js status;
        param_of_js error_message ]
  with
  | Some (row, reg') => (OK row, reg')
  | None => (InternalServerError, reg)
  end.

End Handlers.

End Mcp.

(** ** The search of the knowledge graph *)

(** What belongs to JavaScript: [js_number_string n] is the text of a
    number, and [js_code_points s] the strings [for ... of] draws from a
    string. *)
Class JsEngine := {
  js_number_string : Z → string;
  js_code_points : string → list string
}.

(** [String(v)], the text a template literal and a property key make of a
    value of a parsed body; [None] when the conversion throws.  An array
    joins the texts of its elements with commas, null giving the empty
    text.  An object of a parsed body has the prototype of all objects,
    whose [toString] gives [[object Object]], unless it has a property
    [toString] of its own: that property is no function, nor is what
    [valueOf] returns a primitive, and the conversion throws a
    TypeError. *)
Fixpoint js_string `{JsEngine} (v : jsval) : option string :=
  match v with
  | JStr s => Some s
  | JNum n => Some (js_number_string n)
  | JBool true => Some "true"
  | JBool false => Some "false"
  | JNull => Some "null"
  | JArr items =>
      String.concat "," <$>
        (fix join (items : list jsval) : option (list string) :=
           match items with
           | [] => Some []
           | x :: items =>
               text ← match x with
                      | JNull => Some EmptyString
                      | _ => js_string x
                      end;
               texts ← join items;
               Some (text :: texts)
           end) items
  | JObj fields =>
      if existsb (λ field, String.eqb field.1 "toString") fields then None
      else Some "[object Object]"
  end.

Module KnowledgeSearch.

(** The payload of the search: [results] has one property for each
    collection searched. *)
Record SearchAnswer := {
  results : gmap string (list jsval);
  query : jsval
}.

Definition nl : string := String (ascii_of_nat 10) EmptyString.

(** The text of the query for one collection, as the template literal
    lays it out. *)
Definition aql (collectionName : string) : string :=
  nl +:+ "          FOR doc IN " +:+ collectionName +:+ nl +:+
  "          FILTER CONTAINS(LOWER(TO_STRING(doc)), LOWER(@query))" +:+ nl +:+
  "          LIMIT 20" +:+ nl +:+
  "          RETURN doc" +:+ nl +:+
  "        ".

(** [collections = [...]] when the body has none. *)
Definition default_collections : jsval :=
  JArr [JStr "knowledge_patterns"; JStr "agent_guidance";
        JStr "learning_instructions"].

Section Handlers.
Context `{PgEngine} `{AuthEngine} `{GraphStore} `{JsEngine}.

(** What [for (const x of v)] iterates over; [None] when [v] is not
    iterable and the loop throws. *)
Definition iterate (v : jsval) : option (list jsval) :=
  match v with
  | JArr items => Some items
  | JStr s => Some (JStr <$> js_code_points s)
  | _ => None
  end.

(** One turn of the loop: [results[collectionName] = await aqlQuery(...)],
    and [results[collectionName] = []] when the graph store throws.  The
    template literal throws when [collectionName] has no text, and so
    does the one of the warning in the [catch]: the turn then throws
    ([None]).  The assignment to the key [__proto__] sets the prototype
    of [results] and adds no property. *)
Definition search_collection (searchQuery : jsval)
    (results : gmap string (list jsval)) (collectionName : jsval)
    : option (gmap string (list jsval)) :=
  name ← js_string collectionName;
  let rows :=
    default [] (aqlQuery (JStr (aql name)) (JObj [("query", searchQuery)])) in
  if String.eqb name "__proto__" then Some results
  else Some (<[name := rows]> results).

(** [for (const collectionName of collections) { ... }]: the turns one
    after the other, up to the first that throws. *)
Fixpoint search_collections (searchQuery : jsval)
    (results : gmap string (list jsval)) (names : list jsval)
    : option (gmap string (list jsval)) :=
  match names with
  | [] => Some results
  | collectionName :: names =>
      results ← search_collection searchQuery results collectionName;
      search_collections searchQuery results names
  end.

(** The handler of POST /api/knowledge/search: what the loop throws, as
    what [for ... of] throws, is caught at the end and answered 500. *)
Definition knowledge_search (body : gmap string jsval) : response SearchAnswer :=
  let searchQuery := body !! "query" in
  let collections := with_default default_collections (body !! "collections") in
  if negb (truthy searchQuery) then BadRequest
  else
    match searchQuery, iterate collections with
    | Some q, Some names =>
        match search_collections q ∅ names with
        | Some results => OK {| results := results; query := q |}
        | None => InternalServerError
        end
    | _, _ => InternalServerError
    end.

(** POST /api/knowledge/search, behind [authMiddleware]. *)
Definition post_api_knowledge_search (st : Store)
    (authorization : option string) (clock : Z) (body : gmap string jsval)
    : response SearchAnswer :=
  match Accounts.authMiddleware st authorization clock with
  | OK _ => knowledge_search body
  | _ => Unauthorized
  end.

End Handlers.

End KnowledgeSearch.

(** ** Stand-ins for the libraries and the other stores *)

Module Bench.

(** The collation that compares byte by byte. *)
#[export] Instance collation : PgCollation.
Proof.
  refine {| pg_text_le := String.leb |}.
  exact String.leb_total.
Defined.

(** A token is [v1.] and the id of its payload, and does not expire; a
    hash is [$2b$10$] and the password. *)
#[export] Instance auth : AuthEngine.
Proof.
  refine
    {| jwt_sign p iat := String "v" (String "1" (String "." (tp_id p)));
       jwt_decoded_id token clock :=
         match token with
         | String "v" (String "1" (String "." id)) => Some id
         | _ => None
         end;
       bcrypt_compare v hash :=
         match v with
         | JStr password => Some (String.eqb hash ("$2b$10$" +:+ password))
         | _ => None
         end |}.
  reflexivity.
Defined.

(** A graph with the one collection [agent_guidance], which answers
    every search with its one document; any other query throws. *)
#[export] Instance graph : GraphStore :=
  {| aqlQuery q bindVars :=
       match q with
       | JStr text =>
           if String.eqb text (KnowledgeSearch.aql "agent_guidance")
           then Some [JObj [("_key", JStr "zero-trust")]]
           else None
       | _ => None
       end |}.

(** The text of an integer below 10^21 is its decimal digits; a string
    is iterated byte by byte, as an ASCII string is. *)
#[export] Instance javascript : JsEngine :=
  {| js_number_string := pretty;
     js_code_points s :=
       map (λ c, String c EmptyString) (list_ascii_of_string s) |}.

End Bench.

(** ** Vocabulary of the properties of the other routes *)

(** [h.team_id = $n] with a team, as a predicate on a hook: a NULL on
    either side is not a match. *)
Definition in_team (team : option uuid) (h : Hook) : bool :=
  match h_team_id h, team with
  | Some a, Some b => String.eqb a b
  | _, _ => false
  end.

(** The store without the hooks, or without the evidence, of the teams
    other than the given one. *)
Definition only_hooks_of (team : option uuid) (st : Store) : Store :=
  set_hook_configurations_v2
    (List.filter (in_team team) (hook_configurations_v2 st)) st.

Definition only_evidence_of (user : V2.ReqUser) (st : Store) : Store :=
  set_evidence_repository_v2
    (List.filter (team_predicate user) (evidence_repository_v2 st)) st.

(** A user row after a login at the time [now]. *)
Definition logged_in (now : timestamp) (u : User) : User :=
  {| u_id := u_id u;
     u_username := u_username u;
     u_email := u_email u;
     u_password_hash := u_password_hash u;
     u_full_name := u_full_name u;
     u_team_id := u_team_id u;
     u_role := u_role u;
     u_created_at := u_created_at u;
     u_last_login := Some now |}.

(** [req.user] is the user row [u] joined with its team: the name and the
    organization are those of a team row with the id the user has as
    [team_id], and NULL when there is none. *)
Definition is_user_row (st : Store) (u : User) (ru : V2.ReqUser) : Prop :=
  V2.ru_id ru = u_id u ∧
  V2.ru_username ru = u_username u ∧
  V2.ru_email ru = u_email u ∧
  V2.ru_full_name ru = u_full_name u ∧
  V2.ru_role ru = u_role u ∧
  V2.ru_team_id ru = u_team_id u ∧
  match V2.ru_team_name ru with
  | Some name =>
      ∃ t, t ∈ teams st ∧ u_team_id u = Some (t_id t) ∧ t_name t = name ∧
           t_organization t = V2.ru_organization ru
  | None => V2.ru_organization ru = None
  end.

(** ** The installation, with accounts, settings and a registry *)

Module Installation.
Import V2 Scenario.

Definition account (id : uuid) (name : string) (team : option uuid)
    (role password : string) : User :=
  {| u_id := id;
     u_username := name;
     u_email := name +:+ "@example.org";
     u_password_hash := "$2b$10$" +:+ password;
     u_full_name := None;
     u_team_id := team;
     u_role := Some role;
     u_created_at := Some 1;
     u_last_login := None |}.

(** The store of the scenario, with alice a lead and bob a developer. *)
Definition accounts : Store :=
  set_users
    [ account alice_id "alice" (Some team1_id) "lead" "wonderland";
      account bob_id "bob" (Some team2_id) "developer" "builder" ]
    store.

Definition alice_login : gmap string jsval :=
  {[ "username" := JStr "alice"; "password" := JStr "wonderland" ]}.

Definition alice_wrong_login : gmap string jsval :=
  {[ "username" := JStr "alice"; "password" := JStr "looking-glass" ]}.

Definition alice_token : string := "Bearer v1." +:+ alice_id.

Definition bob_token : string := "Bearer v1." +:+ bob_id.

Definition raw_query : gmap string jsval :=
  {[ "aql" := JStr (KnowledgeSearch.aql "agent_guidance");
     "bindVars" := JObj [("query", JStr "trust")] ]}.

Definition graph_search : gmap string jsval :=
  {[ "query" := JStr "trust";
     "collections" := JArr [JStr "agent_guidance"; JStr "missing";
                            JStr "__proto__"] ]}.

(** A search whose one collection is an object with a property
    [toString]. *)
Definition graph_search_object : gmap string jsval :=
  {[ "query" := JStr "trust";
     "collections" := JArr [JObj [("toString", JNum 1)]] ]}.

(** A second hook of the first team, and one of the second. *)
Definition hook2 : Hook :=
  {| h_id := "00000000-0000-0000-0000-0000000000c2";
     h_name := "forbidden_phrases";
     h_category := Some "all";
     h_hook_type := "pre-completion";
     h_script_content := "exit 11";
     h_enabled := Some true;
     h_team_id := Some team1_id;
     h_version := Some 1;
     h_created_by := None;
     h_created_at := Some 6;
     h_updated_at := Some 6;
     h_project_id := None;
     h_scope := Some "team" |}.

Definition hook3 : Hook :=
  {| h_id := "00000000-0000-0000-0000-0000000000c3";
     h_name := "mock_zero_tolerance";
     h_category := Some "all";
     h_hook_type := "pre-completion";
     h_script_content := "exit 10";
     h_enabled := Some true;
     h_team_id := Some team2_id;
     h_version := Some 1;
     h_created_by := Some bob_id;
     h_created_at := Some 6;
     h_updated_at := Some 6;
     h_project_id := None;
     h_scope := Some "team" |}.

Definition hooked : Store :=
  set_hook_configurations_v2 [hook1; hook2; hook3] store.

Definition uploaded (h : Hook) (name : option string) : HookReads.HookRow :=
  {| HookReads.hr_hook := h; HookReads.hr_created_by_name := name |}.

(** Two hook configurations and three rules of the first API, as its
    seed data has them. *)
Definition settings : Settings :=
  {| hook_configurations :=
       [ {| hc_id := 1;
            hc_name := "web_puppeteer_required";
            hc_category := "web";
            hc_description := Some "Require Puppeteer for web UI verification";
            hc_enabled := Some true;
            hc_config := JObj [("min_quality_rating", JNum 7)];
            hc_created_at := Some 1;
            hc_updated_at := Some 1 |};
         {| hc_id := 2;
            hc_name := "mock_zero_tolerance";
            hc_category := "all";
            hc_description := None;
            hc_enabled := Some true;
            hc_config := JObj [("exit_code", JNum 10)];
            hc_created_at := Some 1;
            hc_updated_at := Some 1 |} ];
     verification_rules :=
       [ {| vr_id := 1;
            vr_category := "web";
            vr_rule_name := "Screenshot Required";
            vr_rule_type := "evidence_requirement";
            vr_priority := Some 90;
            vr_enabled := Some true;
            vr_rule_config := JObj [("evidence_type", JStr "screenshot")];
            vr_created_at := Some 1;
            vr_updated_at := Some 1 |};
         {| vr_id := 2;
            vr_category := "web";
            vr_rule_name := "Puppeteer Mandatory";
            vr_rule_type := "tool_requirement";
            vr_priority := Some 100;
            vr_enabled := Some true;
            vr_rule_config := JObj [("required_tool", JStr "puppeteer")];
            vr_created_at := Some 1;
            vr_updated_at := Some 1 |};
         {| vr_id := 3;
            vr_category := "api";
            vr_rule_name := "Response Data Required";
            vr_rule_type := "evidence_requirement";
            vr_priority := Some 100;
            vr_enabled := Some true;
            vr_rule_config := JObj [("not_just_status", JBool true)];
            vr_created_at := Some 1;
            vr_updated_at := Some 1 |} ] |}.


Definition config_patch : gmap string jsval :=
  {[ "enabled" := JBool false; "config" := JObj [("exit_code", JNum 12)] ]}.

Definition config_patch_text : gmap string jsval :=
  {[ "enabled" := JStr "false"; "config" := JObj [("exit_code", JNum 12)] ]}.

Definition registry : Registry :=
  {| mcp_servers_registry :=
       [ {| ms_id := "00000000-0000-0000-0000-0000000000a9";
            ms_name := "filesystem";
            ms_command := Some "npx";
            ms_args := None;
            ms_env := None;
            ms_status := Some "active";
            ms_last_heartbeat := None;
            ms_tools_discovered := None;
            ms_metadata := None;
            ms_created_at := Some 1;
            ms_updated_at := Some 1 |} ];
     mcp_tool_executions := [] |}.

Definition execution : gmap string jsval :=
  {[ "server_id" := JStr "00000000-0000-0000-0000-0000000000a9";
     "user_id" := JStr bob_id;
     "tool_name" := JStr "read_file";
     "execution_time_ms" := JNum 12;
     "status" := JStr "success" ]}.

(** A report of the first API in the category [web]. *)
Definition first_report (task : string) (at_ : timestamp) (id : Z)
    : LegacyEvidence :=
  {| le_id := id;
     le_task_id := Some task;
     le_task_category := "web";
     le_evidence_type := "passed";
     le_evidence_data := JObj [("rating", JNum 8)];
     le_user_id := Some "dev@hcb.com";
     le_project_id := Some "governance";
     le_created_at := Some at_;
     le_metadata := None |}.

Definition reported : Store :=
  set_evidence_repository
    [first_report "T-1" 10 1; first_report "T-2" 30 2; first_report "T-1" 20 3]
    4 store.

Definition web_query : gmap string string :=
  {[ "category" := "web"; "project_id" := "governance" ]}.

End Installation.

(** * Properties *)

Local Open Scope list_scope.

(** ** Lists and options *)

Lemma elem_of_bfilter {A} (f : A → bool) (l : list A) (x : A) :
  x ∈ List.filter f l ↔ x ∈ l ∧ f x = true.
Proof. rewrite !list_elem_of_In. apply filter_In. Qed.

Lemma bfilter_sublist {A} (f : A → bool) (l : list A) :
  List.filter f l `sublist_of` l.
Proof.
  induction l as [|a l IH]; simpl; [constructor |].
  destruct (f a); by constructor.
Qed.

Lemma bfilter_sublist_mono {A} (f : A → bool) (l k : list A) :
  l `sublist_of` k → List.filter f l `sublist_of` List.filter f k.
Proof.
  induction 1 as [|a l k _ IH|a l k _ IH]; simpl.
  - constructor.
  - destruct (f a); [by constructor | done].
  - destruct (f a); [by constructor | done].
Qed.

Lemma bfilter_and {A} (f g : A → bool) (l : list A) :
  List.filter (λ x, f x && g x) l = List.filter g (List.filter f l).
Proof.
  induction l as [|a l IH]; simpl; [done |].
  destruct (f a); simpl; [destruct (g a) |]; by rewrite IH.
Qed.

Lemma bfilter_ext {A} (f g : A → bool) (l : list A) :
  (∀ x, f x = g x) → List.filter f l = List.filter g l.
Proof. intros Hfg. induction l as [|a l IH]; simpl; [done |]. by rewrite Hfg, IH. Qed.

Lemma mapM_snoc {A B} (f : A → option B) (l : list A) (x : A) :
  mapM f (l ++ [x]) = ys ← mapM f l; y ← f x; Some (ys ++ [y]).
Proof.
  induction l as [|a l IH]; simpl.
  - by destruct (f x).
  - destruct (f a) as [b|]; simpl; [| done].
    rewrite IH. destruct (mapM f l) as [ys|]; simpl; [| done].
    by destruct (f x).
Qed.

(** ** The store model *)

Section SQL_facts.
Context `{PgEngine}.
Import SQL V2.

(** A condition whose placeholder is among the parameters reads the same
    when more parameters follow. *)
Lemma prepare_more_params {R} (sch : schema R) ps v c :
  (0 < cond_param c ≤ length ps)%nat →
  prepare sch (ps ++ [v]) c = prepare sch ps c.
Proof.
  intros [Hpos Hle]. unfold prepare.
  destruct (cond_param c) as [|n]; [lia |].
  rewrite lookup_app_l by lia. done.
Qed.

(** The condition a push adds is the condition on its own. *)
Lemma prepare_pushed {R} (sch : schema R) ps v column op :
  prepare sch (ps ++ [v]) (Cond (col column) op (S (length ps))) =
  condition sch column op v.
Proof.
  unfold prepare, condition. simpl.
  rewrite list_lookup_middle by done. done.
Qed.

Lemma well_formed_empty :
  well_formed {| whereConditions := []; params := []; paramIndex := 1 |}.
Proof. split; [done | constructor]. Qed.

Lemma well_formed_push column op v qb :
  well_formed qb → well_formed (push column op v qb).
Proof.
  intros [Hidx Hcs]. split; simpl.
  - rewrite length_app. simpl. lia.
  - rewrite length_app. simpl. apply Forall_app. split.
    + eapply Forall_impl; [exact Hcs |]. intros c ?. simpl in *. lia.
    + constructor; [| constructor]. simpl. lia.
Qed.

Lemma well_formed_if_truthy v f qb :
  (∀ s qb, well_formed qb → well_formed (f s qb)) →
  well_formed qb → well_formed (if_truthy v f qb).
Proof.
  intros Hf Hqb. unfold if_truthy.
  destruct v as [s|]; [| done]. destruct (String.eqb s ""); auto.
Qed.

(** A push narrows: the rows kept after it are the rows kept before it
    that satisfy the pushed condition. *)
Lemma select_push {R} (sch : schema R) column op v qb (rows : list R) :
  well_formed qb →
  select sch (push column op v qb) rows =
  rs ← select sch qb rows; c ← condition sch column op v; Some (List.filter c rs).
Proof.
  intros [Hidx Hcs]. unfold select, where_clause, push. simpl.
  rewrite mapM_snoc, Hidx, prepare_pushed.
  replace (mapM (prepare sch (params qb ++ [v])) (whereConditions qb))
    with (mapM (prepare sch (params qb)) (whereConditions qb)).
  2:{ apply Forall_mapM_ext. eapply Forall_impl; [exact Hcs |].
      intros c Hc. symmetry. by apply prepare_more_params. }
  destruct (mapM (prepare sch (params qb)) (whereConditions qb)) as [ps|]; simpl; [| done].
  destruct (condition sch column op v) as [c|]; simpl; [| done].
  f_equal. rewrite <- bfilter_and. apply bfilter_ext. intros r.
  by rewrite forallb_app; simpl; rewrite andb_true_r.
Qed.

End SQL_facts.

(** ** The composed WHERE clauses *)

Section Composition.
Context `{PgEngine}.
Import SQL V2.

Lemma narrower_refl {R} (a : option (list R)) : narrower a a.
Proof. split; [done | reflexivity]. Qed.

Lemma narrower_trans {R} (a b c : option (list R)) :
  narrower a b → narrower b c → narrower a c.
Proof. intros [? ?] [? ?]. split; [auto | by etrans]. Qed.

Lemma narrower_subseteq {R} (a b : option (list R)) :
  narrower a b → default [] a ⊆ default [] b.
Proof. intros [_ Hs] x Hx. by eapply elem_of_sublist. Qed.

Lemma narrow_narrower {R} (sch : schema R) v column op (a b : option (list R)) :
  narrower a b → narrower (narrow sch v column op a) (narrow sch v column op b).
Proof.
  intros [Hnone Hsub]. unfold narrow.
  destruct v as [s|]; [| done]. destruct (String.eqb s ""); [done |].
  destruct b as [rb|]; [| rewrite Hnone by done; apply narrower_refl].
  destruct a as [ra|]; simpl in *.
  - destruct (condition sch column op (PText s)) as [c|]; simpl.
    + split; [done |]. simpl. by apply bfilter_sublist_mono.
    + apply narrower_refl.
  - split; [| apply sublist_nil_l].
    by destruct (condition sch column op (PText s)).
Qed.

Lemma narrow_below {R} (sch : schema R) v column op (a : option (list R)) :
  narrower (narrow sch v column op a) a.
Proof.
  unfold narrow. destruct v as [s|]; [| apply narrower_refl].
  destruct (String.eqb s ""); [apply narrower_refl |].
  destruct a as [ra|]; [| apply narrower_refl].
  split; [done |]. simpl.
  destruct (condition sch column op (PText s)) as [c|]; simpl.
  - apply bfilter_sublist.
  - apply sublist_nil_l.
Qed.

Lemma select_if_truthy {R} (sch : schema R) v column op qb (rows : list R) :
  well_formed qb →
  select sch (if_truthy v (λ s, push column op (PText s)) qb) rows =
  narrow sch v column op (select sch qb rows).
Proof.
  intros Hqb. unfold if_truthy, narrow.
  destruct v as [s|]; [| done]. destruct (String.eqb s ""); [done |].
  by apply select_push.
Qed.

Lemma well_formed_filter v column op qb :
  well_formed qb → well_formed (if_truthy v (λ s, push column op (PText s)) qb).
Proof.
  intros. apply well_formed_if_truthy; [| done].
  intros. by apply well_formed_push.
Qed.

Lemma well_formed_visibility user query :
  well_formed (visibility_conditions user query).
Proof.
  unfold visibility_conditions.
  repeat case_match; auto using well_formed_push, well_formed_empty.
Qed.

(** The search clause is the visibility branch, then the four filters. *)
Lemma select_search_conditions {R} (sch : schema R) user query (rows : list R) :
  select sch (search_conditions user query) rows =
  narrow sch (query !! "to_date") "created_at" CmpLe
    (narrow sch (query !! "from_date") "created_at" CmpGe
       (narrow sch (query !! "user_id") "user_id" CmpEq
          (narrow sch (query !! "category") "task_category" CmpEq
             (select sch (visibility_conditions user query) rows)))).
Proof.
  unfold search_conditions. fold (visibility_conditions user query).
  pose proof (well_formed_visibility user query) as Hv.
  rewrite !select_if_truthy; auto using well_formed_filter.
Qed.

(** The filters act alike on every starting selection. *)
Lemma select_search_narrower {R} (sch : schema R) user1 query1 user2 query2
    (rows : list R) :
  query1 !! "category" = query2 !! "category" →
  query1 !! "user_id" = query2 !! "user_id" →
  query1 !! "from_date" = query2 !! "from_date" →
  query1 !! "to_date" = query2 !! "to_date" →
  narrower (select sch (visibility_conditions user1 query1) rows)
           (select sch (visibility_conditions user2 query2) rows) →
  narrower (select sch (search_conditions user1 query1) rows)
           (select sch (search_conditions user2 query2) rows).
Proof.
  intros Hc Hu Hf Ht Hv. rewrite !select_search_conditions, Hc, Hu, Hf, Ht.
  by repeat apply narrow_narrower.
Qed.

(** The filters only take rows away from what the visibility branch
    keeps. *)
Lemma select_search_below {R} (sch : schema R) user query (rows : list R) :
  narrower (select sch (search_conditions user query) rows)
           (select sch (visibility_conditions user query) rows).
Proof.
  rewrite select_search_conditions.
  repeat (eapply narrower_trans; [apply narrow_below |]).
  apply narrower_refl.
Qed.

(** With no filter, the search composes what its visibility branch leaves. *)
Lemma visibility_only_lookup query k :
  k ≠ "visibility" → visibility_only query !! k = None.
Proof.
  intros Hk. unfold visibility_only.
  destruct (query !! "visibility"); [by rewrite lookup_singleton_ne | done].
Qed.

Lemma search_conditions_visibility_only user query :
  search_conditions user (visibility_only query) = visibility_conditions user query.
Proof.
  unfold search_conditions. rewrite !visibility_only_lookup by done. simpl.
  unfold visibility_conditions, visibility_only.
  destruct (query !! "visibility"); [by rewrite lookup_singleton_eq | done].
Qed.

Lemma visibility_conditions_only user query :
  visibility_conditions user (visibility_only query) = visibility_conditions user query.
Proof.
  unfold visibility_conditions, visibility_only.
  destruct (query !! "visibility"); [by rewrite lookup_singleton_eq | done].
Qed.

End Composition.

(** ** The evidence search *)

Section Search.
Context `{PgEngine}.
Import SQL V2.

Lemma bfilter_true {A} (l : list A) : List.filter (λ _, true) l = l.
Proof. induction l as [|a l IH]; simpl; [done | by rewrite IH]. Qed.

Lemma select_nothing {R} (sch : schema R) (rows : list R) :
  select sch {| whereConditions := []; params := []; paramIndex := 1 |} rows
  = Some rows.
Proof. unfold select, where_clause. simpl. by rewrite bfilter_true. Qed.

Lemma matching_select st qb :
  matching st qb = default [] (select evidence_scope qb (evidence_repository_v2 st)).
Proof. reflexivity. Qed.

(** In the scope of the count, the visibility branch keeps: for
    [private] the caller's own rows, for [team] (and for no visibility
    given) the rows of the caller's team, for anything else every row. *)
Lemma select_visibility (user : ReqUser) (query : gmap string string)
    (rows : list Evidence) :
  select evidence_scope (visibility_conditions user query) rows =
  Some (let v := with_default "team" (query !! "visibility") in
        if String.eqb v "private" then List.filter (private_predicate user) rows
        else if String.eqb v "team" then List.filter (team_predicate user) rows
        else rows).
Proof.
  unfold visibility_conditions. simpl.
  destruct (String.eqb _ "private").
  - rewrite select_push by apply well_formed_empty.
    rewrite select_nothing. unfold evidence_scope. simpl. f_equal. apply bfilter_ext.
    intros e. unfold private_predicate. by destruct (e_user_id e).
  - destruct (String.eqb _ "team"); [| apply select_nothing].
    rewrite select_push by apply well_formed_empty.
    rewrite select_nothing. unfold evidence_scope. simpl.
    unfold team_predicate. destruct (ru_team_id user) as [t|]; simpl; f_equal.
    + apply bfilter_ext. intros e. by destruct (e_team_id e).
    + apply bfilter_ext. intros e. by destruct (e_team_id e).
Qed.

(** *** The joined query against the count *)

Lemma bfilter_map_key {K V W} (p : K → bool) (g : K * V → W) (l : list (K * V)) :
  List.filter (λ c, p c.1) (map (λ c, (c.1, g c)) l) =
  map (λ c, (c.1, g c)) (List.filter (λ c, p c.1) l).
Proof.
  induction l as [|a l IH]; simpl; [done |].
  destruct (p a.1); simpl; by rewrite IH.
Qed.

(** A name that the join resolves and the left table resolves too is the
    left table's column. *)
Lemma resolve_left_join {A B} (sa : schema A) (sb : schema B) c x y :
  resolve (left_join_columns sa sb) c = Some x →
  resolve sa c = Some y →
  x.1 = y.1 ∧ ∀ r, x.2 r = y.2 r.1.
Proof.
  unfold resolve, left_join_columns. rewrite List.filter_app.
  rewrite (bfilter_map_key (refers c)
             (λ c0 : (string * string) * (sqltype * (A → sqlval)),
                (c0.2.1, λ r : A * option B, c0.2.2 r.1))).
  rewrite (bfilter_map_key (refers c)
             (λ c0 : (string * string) * (sqltype * (B → sqlval)),
                (c0.2.1, λ r : A * option B,
                           match r.2 with
                           | Some b => c0.2.2 b
                           | None => VNull
                           end))).
  destruct (List.filter (λ c0, refers c c0.1) sa) as [|ca [|? ?]]; try done.
  intros Hx [= <-]. simpl in Hx.
  destruct (List.filter (λ c0, refers c c0.1) sb); simpl in Hx; [| done].
  by injection Hx as <-.
Qed.

Lemma prepare_left_join {A B} (sa : schema A) (sb : schema B) ps c pj pa :
  prepare (left_join_columns sa sb) ps c = Some pj →
  prepare sa ps c = Some pa →
  ∀ r, pj r = pa r.1.
Proof.
  unfold prepare. intros Hj Ha r.
  destruct (resolve (left_join_columns sa sb) (cond_column c)) as [x|] eqn:Hx; [| done].
  destruct (resolve sa (cond_column c)) as [y|] eqn:Hy; [| done].
  destruct (resolve_left_join _ _ _ _ _ Hx Hy) as [Hty Hget].
  simpl in *. rewrite Hty in Hj.
  destruct (match cond_param c with O => None | S n => ps !! n end); [| done].
  simpl in *. destruct (cast y.1 p); [| done]. simpl in *.
  injection Hj as <-. injection Ha as <-. by rewrite Hget.
Qed.

Lemma where_clause_left_join {A B} (sa : schema A) (sb : schema B) ps cs wj wa :
  where_clause (left_join_columns sa sb) ps cs = Some wj →
  where_clause sa ps cs = Some wa →
  ∀ r, wj r = wa r.1.
Proof.
  unfold where_clause. intros Hj Ha r.
  destruct (mapM (prepare (left_join_columns sa sb) ps) cs) as [pjs|] eqn:Hpj; [| done].
  destruct (mapM (prepare sa ps) cs) as [pas|] eqn:Hpa; [| done].
  simpl in *. injection Hj as <-. injection Ha as <-.
  apply mapM_Some in Hpj. apply mapM_Some in Hpa.
  revert pas Hpa. induction Hpj as [|c pj cs pjs Hc _ IH]; intros pas Hpa.
  - by inversion Hpa.
  - inversion Hpa as [|? pa ? pas' Hc' Hpa']; subst. simpl.
    by rewrite (prepare_left_join _ _ _ _ _ _ Hc Hc'), (IH _ Hpa').
Qed.

Lemma elem_of_left_join {A B} (on : A → B → bool) ra rb (a : A) (b : option B) :
  (a, b) ∈ left_join on ra rb → a ∈ ra.
Proof.
  unfold left_join. rewrite !list_elem_of_In, in_flat_map.
  intros (a' & Ha' & Hin).
  destruct (List.filter (on a') rb) as [|b0 bs].
  - destruct Hin as [[= -> _] | []]. done.
  - apply in_map_iff in Hin as (? & [= -> _] & _). done.
Qed.

(** Every row of a page is a row the count counts. *)
Lemma page_rows_matching st user query p row :
  get_api_evidence_search st user query = OK p →
  row ∈ evidence p →
  er_evidence row ∈ matching st (search_conditions user query).
Proof.
  unfold get_api_evidence_search, select_evidence_page, matching,
    select_evidence_matching.
  set (qb := search_conditions user query).
  destruct (where_clause evidence_users_scope (params qb) (whereConditions qb))
    as [wj|] eqn:Hwj; simpl; [| done].
  destruct (row_count (search_limit query)) as [l|]; simpl; [| done].
  destruct (row_count (search_offset query)) as [o|]; simpl; [| done].
  destruct (where_clause evidence_scope (params qb) (whereConditions qb))
    as [we|] eqn:Hwe; simpl; [| done].
  intros [= <-]. simpl. intros Hrow.
  apply list_elem_of_fmap in Hrow as ([e u] & -> & Hin). simpl.
  eapply elem_of_sublist in Hin; [| apply sublist_take].
  eapply elem_of_sublist in Hin; [| apply sublist_drop].
  rewrite merge_sort_Permutation in Hin.
  apply elem_of_bfilter in Hin as [Hin Hw].
  apply elem_of_bfilter. split.
  - by eapply elem_of_left_join.
  - by rewrite (where_clause_left_join _ _ _ _ _ _ Hwj Hwe (e, u)) in Hw.
Qed.

(** Every row of an answer is a row the count counts. *)
Lemma search_rows_matching st user query row :
  row ∈ search_rows (get_api_evidence_search st user query) →
  er_evidence row ∈ matching st (search_conditions user query).
Proof.
  destruct (get_api_evidence_search st user query) as [p| | | | |] eqn:Hs;
    simpl; try by intros ?%elem_of_nil.
  by apply page_rows_matching.
Qed.

(** A page is no longer than the limit sent. *)
Lemma page_length st user query p :
  get_api_evidence_search st user query = OK p →
  ∃ l : Z, search_limit query = Some l ∧ 0 ≤ l ∧
           Z.of_nat (length (evidence p)) ≤ l.
Proof.
  unfold get_api_evidence_search, select_evidence_page.
  destruct (where_clause evidence_users_scope _ _) as [wj|]; simpl; [| done].
  destruct (search_limit query) as [l|] eqn:Hl; simpl; [| done].
  destruct ((0 <=? l) && (l <? 2 ^ 63)) eqn:Hrange; simpl; [| done].
  destruct (row_count (search_offset query)) as [o|]; simpl; [| done].
  destruct (select_evidence_matching _ _); simpl; [| done].
  intros [= <-]. simpl. exists l. split; [done |].
  apply andb_true_iff in Hrange as [Hl0 _]. apply Z.leb_le in Hl0.
  split; [done |]. rewrite length_fmap, length_take. lia.
Qed.

End Search.

(** ** Visibility values the search does not restrict *)

Section Open_visibility.
Context `{PgEngine}.
Import SQL V2.

(** Any visibility other than [private] and [team] leaves the builder as
    the filters alone make it, whoever asks. *)
Lemma search_conditions_open user user' query v :
  query !! "visibility" = Some v →
  v ≠ "private" → v ≠ "team" →
  search_conditions user query =
  search_conditions user' (<["visibility" := "public"]> query).
Proof.
  intros Hv Hp Ht. unfold search_conditions.
  rewrite lookup_insert_eq, !lookup_insert_ne, Hv by done. simpl.
  apply String.eqb_neq in Hp, Ht. by rewrite Hp, Ht.
Qed.

Lemma search_open user user' query v :
  query !! "visibility" = Some v →
  v ≠ "private" → v ≠ "team" →
  ∀ st, get_api_evidence_search st user query =
        get_api_evidence_search st user' (<["visibility" := "public"]> query).
Proof.
  intros Hv Hp Ht st. unfold get_api_evidence_search, search_limit, search_offset.
  rewrite !lookup_insert_ne by done.
  by rewrite (search_conditions_open user user' query v).
Qed.

Lemma search_public_any_caller user user' query st :
  get_api_evidence_search st user (<["visibility" := "public"]> query) =
  get_api_evidence_search st user' (<["visibility" := "public"]> query).
Proof.
  rewrite (search_open user user' (<["visibility" := "public"]> query) "public");
    [| by rewrite lookup_insert_eq | done | done].
  by rewrite insert_insert_eq.
Qed.

(** C1 (amended).  A search with visibility [organization] composes no
    visibility predicate: with no filter its WHERE clause is empty, the
    answer is the answer to the same request with visibility [public], and
    it is the same for every caller, whatever the caller's team and
    organization. *)
Theorem search_organization_is_public st user user' query :
  query !! "visibility" = Some "organization" →
  whereConditions (search_conditions user (visibility_only query)) = [] ∧
  get_api_evidence_search st user query =
    get_api_evidence_search st user (<["visibility" := "public"]> query) ∧
  get_api_evidence_search st user query =
    get_api_evidence_search st user' query.
Proof.
  intros Hv. split; [| split].
  - rewrite search_conditions_visibility_only.
    unfold visibility_conditions. by rewrite Hv.
  - by apply (search_open user user query "organization").
  - rewrite (search_open user user query "organization") by done.
    rewrite (search_open user' user' query "organization") by done.
    apply search_public_any_caller.
Qed.

(** C2 (amended).  A visibility that is neither [private] nor [team],
    recognized or not, gets no visibility predicate: with no filter the
    WHERE clause is empty, and the answer is the answer for [public], the
    same for every caller.  A request that names no visibility is answered
    as one that names [team]. *)
Theorem search_unknown_visibility_is_public st user user' query v :
  query !! "visibility" = Some v →
  v ≠ "private" → v ≠ "team" →
  whereConditions (search_conditions user (visibility_only query)) = [] ∧
  get_api_evidence_search st user query =
    get_api_evidence_search st user (<["visibility" := "public"]> query) ∧
  get_api_evidence_search st user query =
    get_api_evidence_search st user' query ∧
  get_api_evidence_search st user (delete "visibility" query) =
    get_api_evidence_search st user (<["visibility" := "team"]> query).
Proof.
  intros Hv Hp Ht. split; [| split; [| split]].
  - rewrite search_conditions_visibility_only.
    unfold visibility_conditions. rewrite Hv. simpl.
    apply String.eqb_neq in Hp, Ht. by rewrite Hp, Ht.
  - by apply (search_open user user query v).
  - rewrite (search_open user user query v) by done.
    rewrite (search_open user' user' query v) by done.
    apply search_public_any_caller.
  - unfold get_api_evidence_search, search_conditions, search_limit, search_offset.
    rewrite lookup_delete_eq, lookup_insert_eq.
    by rewrite !lookup_delete_ne, !lookup_insert_ne by done.
Qed.

End Open_visibility.

(** ** Narrowing *)

Section Narrowing.
Context `{PgEngine}.
Import SQL V2.

Lemma bfilter_sublist_impl {A} (f g : A → bool) (l : list A) :
  (∀ x, x ∈ l → f x = true → g x = true) →
  List.filter f l `sublist_of` List.filter g l.
Proof.
  induction l as [|a l IH]; intros Hfg; simpl; [constructor |].
  assert (List.filter f l `sublist_of` List.filter g l) as Hl
    by (apply IH; intros x Hx; apply Hfg; by right).
  destruct (f a) eqn:Hfa.
  - rewrite (Hfg a) by (done || left). by constructor.
  - destruct (g a); [by constructor | done].
Qed.

(** The filters of a search take rows away from what its visibility alone
    keeps. *)
Lemma search_filters_narrow st user query :
  matching st (search_conditions user query) ⊆
  matching st (search_conditions user (visibility_only query)).
Proof.
  rewrite !matching_select. apply narrower_subseteq.
  eapply narrower_trans; [apply select_search_below |].
  rewrite select_search_conditions, !visibility_only_lookup by done. simpl.
  rewrite visibility_conditions_only. apply narrower_refl.
Qed.

(** The same filters on two visibilities. *)
Lemma search_visibility_narrower st user query v1 v2 :
  narrower
    (select evidence_scope
       (visibility_conditions user (<["visibility" := v1]> query))
       (evidence_repository_v2 st))
    (select evidence_scope
       (visibility_conditions user (<["visibility" := v2]> query))
       (evidence_repository_v2 st)) →
  matching st (search_conditions user (<["visibility" := v1]> query)) ⊆
  matching st (search_conditions user (<["visibility" := v2]> query)).
Proof.
  intros Hv. rewrite !matching_select. apply narrower_subseteq.
  apply select_search_narrower; [by rewrite !lookup_insert_ne by done .. | done].
Qed.

Lemma select_visibility_of st user query v :
  select evidence_scope
    (visibility_conditions user (<["visibility" := v]> query))
    (evidence_repository_v2 st) =
  Some (if String.eqb v "private"
        then List.filter (private_predicate user) (evidence_repository_v2 st)
        else if String.eqb v "team"
        then List.filter (team_predicate user) (evidence_repository_v2 st)
        else evidence_repository_v2 st).
Proof. rewrite select_visibility. by rewrite lookup_insert_eq. Qed.

(** C4 (amended).  For one caller and the same other options, the rows
    the composed WHERE clause keeps of [evidence_repository_v2] (the rows
    the search counts, LIMIT and OFFSET aside) are ordered so: the rows
    for [team] are among those for [organization], which are those for
    [public]; the rows for [private] are among those for [public]; and
    the rows for [private] are among those for [team] in a store where
    every row of the caller's carries the caller's team.  Every row of an
    answer is among the rows kept for its visibility. *)
Theorem visibility_chain st user query :
  let rows v :=
    matching st (search_conditions user (<["visibility" := v]> query)) in
  rows "team" ⊆ rows "organization" ∧
  rows "organization" = rows "public" ∧
  rows "private" ⊆ rows "public" ∧
  ((∀ e, e ∈ evidence_repository_v2 st →
         private_predicate user e = true → team_predicate user e = true) →
   rows "private" ⊆ rows "team") ∧
  (∀ v row,
     row ∈ search_rows
             (get_api_evidence_search st user (<["visibility" := v]> query)) →
     er_evidence row ∈ rows v).
Proof.
  intros rows. subst rows. split; [| split; [| split; [| split]]].
  - apply search_visibility_narrower. rewrite !select_visibility_of. simpl.
    split; [done |]. simpl. apply bfilter_sublist.
  - rewrite (search_conditions_open user user
               (<["visibility" := "organization"]> query) "organization");
      [| by rewrite lookup_insert_eq | done | done].
    by rewrite insert_insert_eq.
  - apply search_visibility_narrower. rewrite !select_visibility_of. simpl.
    split; [done |]. simpl. apply bfilter_sublist.
  - intros Hteam. apply search_visibility_narrower.
    rewrite !select_visibility_of. simpl.
    split; [done |]. simpl. by apply bfilter_sublist_impl.
  - intros v row. apply search_rows_matching.
Qed.

End Narrowing.

(** ** The compliance metrics *)

Section Metrics.
Context `{PgEngine}.
Import SQL V2.

(** The builder of the metrics before the date filters: one push on the
    empty builder. *)
Lemma metrics_conditions_team_only user query :
  metrics_conditions user (team_only query) =
  push "team_id" CmpEq
    match query !! "team_id" with
    | Some s => PText s
    | None => param_of_uuid (ru_team_id user)
    end
    {| whereConditions := []; params := []; paramIndex := 1 |}.
Proof.
  unfold metrics_conditions, team_only.
  destruct (query !! "team_id") as [s|].
  - by rewrite lookup_singleton_eq, !lookup_singleton_ne by done.
  - by rewrite !lookup_empty.
Qed.

Lemma well_formed_metrics_team_only user query :
  well_formed (metrics_conditions user (team_only query)).
Proof.
  rewrite metrics_conditions_team_only.
  apply well_formed_push, well_formed_empty.
Qed.

Lemma metrics_conditions_split user query :
  metrics_conditions user query =
  if_truthy (query !! "to_date") (λ v, push "created_at" CmpLe (PText v))
    (if_truthy (query !! "from_date") (λ v, push "created_at" CmpGe (PText v))
       (metrics_conditions user (team_only query))).
Proof. by rewrite metrics_conditions_team_only. Qed.

(** The date filters take rows away from what the team condition keeps. *)
Lemma select_metrics_below {R} (sch : schema R) user query (rows : list R) :
  narrower (select sch (metrics_conditions user query) rows)
           (select sch (metrics_conditions user (team_only query)) rows).
Proof.
  pose proof (well_formed_metrics_team_only user query) as Hwf.
  rewrite (metrics_conditions_split user query).
  rewrite !select_if_truthy; auto using well_formed_filter.
  repeat (eapply narrower_trans; [apply narrow_below |]).
  apply narrower_refl.
Qed.

Lemma metrics_matching_select st qb :
  metrics_matching st qb =
  default [] (select metrics_scope qb (evidence_repository_v2 st)).
Proof. reflexivity. Qed.

(** The team condition on its own: the rows of the team the request
    names and, when it names none, of the caller's team. *)
Lemma select_metrics_team st user query rows :
  select metrics_scope (metrics_conditions user (team_only query))
    (evidence_repository_v2 st) = Some rows →
  match query !! "team_id" with
  | Some s => ∃ t, pg_uuid s = Some t ∧
                   ∀ e, e ∈ rows → e_team_id e = Some t
  | None => ∀ e, e ∈ rows → team_predicate user e = true
  end.
Proof.
  rewrite metrics_conditions_team_only.
  rewrite select_push, select_nothing by apply well_formed_empty.
  unfold condition, metrics_scope. simpl.
  destruct (query !! "team_id") as [s|]; simpl.
  - destruct (pg_uuid s) as [t|]; simpl; [| done].
    intros [= <-]. exists t. split; [done |].
    intros e He. apply elem_of_bfilter in He as [_ He].
    destruct (e_team_id e) as [x|]; simpl in He; [| done].
    by apply String.eqb_eq in He as ->.
  - intros Hrows e He. unfold team_predicate.
    destruct (ru_team_id user) as [t|]; simpl in Hrows;
      injection Hrows as <-; apply elem_of_bfilter in He as [_ He];
      destruct (e_team_id e); simpl in He; done.
Qed.

(** Fewer rows give, for every category that remains, a group that is no
    larger. *)
Lemma group_by_task_category_sublist rows rows0 m :
  rows `sublist_of` rows0 →
  m ∈ group_by_task_category rows →
  ∃ m0, m0 ∈ group_by_task_category rows0 ∧
        task_category m0 = task_category m ∧
        (total_verifications m ≤ total_verifications m0)%nat ∧
        (unique_users m ≤ unique_users m0)%nat.
Proof.
  intros Hsub Hm. unfold group_by_task_category in *.
  apply list_elem_of_fmap in Hm as (c & -> & Hc).
  apply elem_of_remove_dups, list_elem_of_fmap in Hc as (e & -> & He).
  eexists. split.
  - apply list_elem_of_fmap. eexists. split; [reflexivity |].
    apply elem_of_remove_dups, list_elem_of_fmap.
    exists e. split; [done | by eapply elem_of_sublist].
  - simpl. split; [done |].
    set (f := λ e0, bool_decide (e_task_category e0 = e_task_category e)).
    assert (List.filter f rows `sublist_of` List.filter f rows0) as Hf
      by by apply bfilter_sublist_mono.
    split; [by apply sublist_length |].
    apply submseteq_length, NoDup_submseteq; [apply NoDup_remove_dups |].
    intros u Hu. rewrite elem_of_remove_dups in Hu |- *.
    apply list_elem_of_omap in Hu as (x & Hx & Hxu).
    apply list_elem_of_omap. exists x. split; [| done].
    by eapply elem_of_sublist.
Qed.

Lemma metrics_rows_elem_of st user query m :
  m ∈ metrics_rows (get_api_metrics_compliance st user query) ↔
  ∃ rows, select metrics_scope (metrics_conditions user query)
            (evidence_repository_v2 st) = Some rows ∧
          m ∈ group_by_task_category rows.
Proof.
  unfold get_api_metrics_compliance, select_metrics_matching, select.
  destruct (where_clause metrics_scope _ _) as [w|]; simpl.
  - rewrite merge_sort_Permutation. split; [eauto |].
    by intros (rows & [= <-] & Hm).
  - split; [by intros ?%elem_of_nil | by intros (? & ? & _)].
Qed.

(** C10.  Whatever the store holds and whatever team and dates the
    request names, every row of the compliance metrics carries the
    pass rate 0.87. *)
Theorem metrics_pass_rate_constant st user query m :
  m ∈ metrics_rows (get_api_metrics_compliance st user query) →
  pass_rate m = {| numeric_digits := 87; numeric_scale := 2 |}.
Proof.
  intros (rows & _ & Hm)%metrics_rows_elem_of.
  unfold group_by_task_category in Hm.
  by apply list_elem_of_fmap in Hm as (c & -> & _).
Qed.

End Metrics.

(** ** Filters and pages *)

Section Filters.
Context `{PgEngine}.
Import SQL V2.

Lemma metrics_filters_narrow st user query m :
  m ∈ metrics_rows (get_api_metrics_compliance st user query) →
  ∃ m0, m0 ∈ metrics_rows (get_api_metrics_compliance st user (team_only query)) ∧
        task_category m0 = task_category m ∧
        (total_verifications m ≤ total_verifications m0)%nat ∧
        (unique_users m ≤ unique_users m0)%nat.
Proof.
  intros (rows & Hrows & Hm)%metrics_rows_elem_of.
  pose proof (select_metrics_below metrics_scope user query
                (evidence_repository_v2 st)) as [Hnone Hsub].
  rewrite Hrows in Hnone, Hsub.
  destruct (select metrics_scope (metrics_conditions user (team_only query))
              (evidence_repository_v2 st)) as [rows0|] eqn:Hrows0;
    [| by specialize (Hnone eq_refl)].
  simpl in Hsub.
  destruct (group_by_task_category_sublist rows rows0 m Hsub Hm)
    as (m0 & Hm0 & Hrest).
  exists m0. split; [| done].
  apply metrics_rows_elem_of. eauto.
Qed.

Lemma metrics_scope_of_request st user query e :
  e ∈ metrics_matching st (metrics_conditions user query) →
  match query !! "team_id" with
  | Some s => ∃ t, pg_uuid s = Some t ∧ e_team_id e = Some t
  | None => team_predicate user e = true
  end.
Proof.
  intros He. rewrite metrics_matching_select in He.
  apply (narrower_subseteq _ _ (select_metrics_below _ user query _)) in He.
  destruct (select metrics_scope (metrics_conditions user (team_only query))
              (evidence_repository_v2 st)) as [rows0|] eqn:Hrows0;
    [| by apply elem_of_nil in He].
  pose proof (select_metrics_team st user query rows0 Hrows0) as Hteam.
  simpl in He. destruct (query !! "team_id") as [s|].
  - destruct Hteam as (t & Ht & Hall). eauto.
  - auto.
Qed.

(** C3 (amended).  In the evidence search, the filters [category],
    [user_id], [from_date] and [to_date] only narrow: every row of an
    answer is kept by the composed WHERE clause, and the rows that clause
    keeps are among those kept for the same visibility and no filter.  In
    the compliance metrics, [from_date] and [to_date] only narrow the rows
    grouped for the selected team, and every row of the metrics has a
    counterpart of the same category, with counts no smaller, in the
    answer without dates.  The team is the caller's when the request names
    none; a [team_id] of the request takes the place of the caller's team
    in the scope predicate. *)
Theorem filters_only_narrow st user query :
  (∀ row, row ∈ search_rows (get_api_evidence_search st user query) →
          er_evidence row ∈ matching st (search_conditions user query)) ∧
  matching st (search_conditions user query) ⊆
    matching st (search_conditions user (visibility_only query)) ∧
  metrics_matching st (metrics_conditions user query) ⊆
    metrics_matching st (metrics_conditions user (team_only query)) ∧
  (∀ m, m ∈ metrics_rows (get_api_metrics_compliance st user query) →
        ∃ m0, m0 ∈ metrics_rows
                     (get_api_metrics_compliance st user (team_only query)) ∧
              task_category m0 = task_category m ∧
              (total_verifications m ≤ total_verifications m0)%nat ∧
              (unique_users m ≤ unique_users m0)%nat) ∧
  (∀ e, e ∈ metrics_matching st (metrics_conditions user query) →
        match query !! "team_id" with
        | Some s => ∃ t, pg_uuid s = Some t ∧ e_team_id e = Some t
        | None => team_predicate user e = true
        end).
Proof.
  split; [| split; [| split; [| split]]].
  - apply search_rows_matching.
  - apply search_filters_narrow.
  - rewrite !metrics_matching_select.
    apply narrower_subseteq, select_metrics_below.
  - apply metrics_filters_narrow.
  - apply metrics_scope_of_request.
Qed.

(** C6 (amended).  The search sends [parseInt(limit)] and
    [parseInt(offset)] to the store as they are, with [limit = 100] and
    [offset = 0] when the request has none.  An answer holds no more rows
    than that limit, so no more than 100 when the caller names no limit;
    a larger limit of the caller's is not capped. *)
Theorem search_page_within_limit st user query p :
  get_api_evidence_search st user query = OK p →
  limit p = search_limit query ∧
  offset p = search_offset query ∧
  (∃ l : Z, limit p = Some l ∧ 0 ≤ l ∧ Z.of_nat (length (evidence p)) ≤ l) ∧
  (query !! "limit" = None →
   limit p = Some 100 ∧ (length (evidence p) ≤ 100)%nat) ∧
  (query !! "offset" = None → offset p = Some 0).
Proof.
  intros Hs. destruct (page_length st user query p Hs) as (l & Hl & Hl0 & Hlen).
  assert (limit p = search_limit query ∧ offset p = search_offset query)
    as [Hlimit Hoffset].
  { unfold get_api_evidence_search in Hs.
    destruct (select_evidence_page _ _ _ _ ≫= _) as [[rows matching]|];
      [| done].
    by injection Hs as <-. }
  split; [done |]. split; [done |]. split; [| split].
  - exists l. by rewrite Hlimit.
  - intros Hnone. unfold search_limit in *. rewrite Hnone in *.
    injection Hl as <-. split; [done | lia].
  - intros Hnone. rewrite Hoffset. unfold search_offset. by rewrite Hnone.
Qed.

End Filters.

(** ** Submission *)

Section Submission.
Context `{PgEngine}.
Import SQL V2.

Lemma as_uuid_param_of_uuid (u : option uuid) : as_uuid (param_of_uuid u) = Some u.
Proof. by destruct u. Qed.

(** What an accepted INSERT stores: the caller's identity in the first two
    columns, the nine values of the body as the store reads them, and the
    defaults elsewhere. *)
Lemma insert_evidence_repository_v2_Some st id now user_id team_id
    p3 p4 p5 p6 p7 p8 p9 p10 p11 row st' :
  insert_evidence_repository_v2 st id now
    [PUuid user_id; param_of_uuid team_id; p3; p4; p5; p6; p7; p8; p9; p10; p11]
  = Some (row, st') →
  row = {| e_id := id;
           e_task_id := None;
           e_user_id := Some user_id;
           e_team_id := team_id;
           e_task_category := e_task_category row;
           e_evidence_type := e_evidence_type row;
           e_evidence_data := e_evidence_data row;
           e_prompt_text := e_prompt_text row;
           e_completion_text := e_completion_text row;
           e_conversation_id := e_conversation_id row;
           e_knowledge_pattern_id := e_knowledge_pattern_id row;
           e_coding_standard_id := e_coding_standard_id row;
           e_requirement_id := None;
           e_created_at := Some now;
           e_visibility := e_visibility row;
           e_project_id := None;
           e_environment_id := None;
           e_repo_branch := None;
           e_commit_sha := None;
           e_git_remote := None |} ∧
  as_varchar 50 p3 = Some (e_task_category row) ∧
  as_varchar 100 p4 = Some (e_evidence_type row) ∧
  as_jsonb p5 = Some (e_evidence_data row) ∧
  as_text p6 = Some (e_prompt_text row) ∧
  as_text p7 = Some (e_completion_text row) ∧
  as_uuid p8 = Some (e_conversation_id row) ∧
  as_varchar 255 p9 = Some (e_knowledge_pattern_id row) ∧
  as_varchar 255 p10 = Some (e_coding_standard_id row) ∧
  as_varchar 20 p11 = Some (e_visibility row) ∧
  existsb (λ e, String.eqb (e_id e) id) (evidence_repository_v2 st) = false ∧
  existsb (λ x, String.eqb (u_id x) user_id) (users st) = true ∧
  st' = set_evidence_repository_v2 (evidence_repository_v2 st ++ [row]) st.
Proof.
  unfold insert_evidence_repository_v2.
  rewrite as_uuid_param_of_uuid. simpl.
  destruct (as_varchar 50 p3) as [c3|]; simpl; [| done].
  destruct (as_varchar 100 p4) as [c4|]; simpl; [| done].
  destruct (as_jsonb p5) as [c5|]; simpl; [| done].
  destruct (as_text p6) as [c6|]; simpl; [| done].
  destruct (as_text p7) as [c7|]; simpl; [| done].
  destruct (as_uuid p8) as [c8|]; simpl; [| done].
  destruct (as_varchar 255 p9) as [c9|]; simpl; [| done].
  destruct (as_varchar 255 p10) as [c10|]; simpl; [| done].
  destruct (as_varchar 20 p11) as [c11|]; simpl; [| done].
  destruct (existsb _ (evidence_repository_v2 st)) eqn:Hpk; [done |].
  destruct (existsb _ (users st)) eqn:Hfk; simpl; [| done].
  destruct (negb _); [done |].
  intros [= <- <-]. simpl. done.
Qed.

(** The answers of the authenticated submission, case by case. *)
Lemma post_api_evidence_cases st user body id now :
  match post_api_evidence st user body id now with
  | (Created row, st') =>
      e_user_id row = Some (ru_id user) ∧
      e_team_id row = ru_team_id user ∧
      e_id row = id ∧
      e_created_at row = Some now ∧
      st' = set_evidence_repository_v2 (evidence_repository_v2 st ++ [row]) st
  | (OK _, _) => False
  | (_, st') => st' = st
  end.
Proof.
  unfold post_api_evidence.
  destruct (negb _ || negb _ || negb _); [done |].
  destruct (insert_evidence_repository_v2 _ _ _ _) as [[row st']|] eqn:Hins;
    [| done].
  apply insert_evidence_repository_v2_Some in Hins as (Hrow & Hrest).
  rewrite Hrow. simpl. repeat split; try done.
  rewrite <- Hrow. apply Hrest.
Qed.






End Submission.

(** ** Submission, then context *)

Section Round_trip.
Context `{PgEngine}.
Import SQL V2.

Lemma existsb_true_bfilter {A} (f : A → bool) (l : list A) :
  existsb f l = true → ∃ a k, List.filter f l = a :: k ∧ f a = true.
Proof.
  induction l as [|a l IH]; simpl; [done |].
  destruct (f a) eqn:Hfa; simpl; eauto.
Qed.


Lemma left_join_snoc {A B} (on : A → B → bool) a ra rb :
  left_join on (ra ++ [a]) rb =
  left_join on ra rb ++
  match List.filter (on a) rb with
  | [] => [(a, None)]
  | bs => map (λ b, (a, Some b)) bs
  end.
Proof. unfold left_join. rewrite flat_map_app. simpl. by rewrite app_nil_r. Qed.

Lemma bfilter_none {A} (f : A → bool) (l : list A) :
  (∀ x, x ∈ l → f x = false) → List.filter f l = [].
Proof.
  induction l as [|a l IH]; intros Hall; simpl; [done |].
  rewrite (Hall a) by left. apply IH. intros x Hx. apply Hall. by right.
Qed.


(** A row whose user exists finds a partner in the join. *)
Lemma on_user_partner row uid us :
  e_user_id row = Some uid →
  existsb (λ x, String.eqb (u_id x) uid) us = true →
  ∃ u k, List.filter (on_user row) us = u :: k ∧ u ∈ us ∧ u_id u = uid.
Proof.
  intros Hrow Hfk.
  assert (existsb (on_user row) us = true) as Hex.
  { apply existsb_exists in Hfk as (x & Hx & Hxu).
    apply existsb_exists. exists x. split; [done |].
    unfold on_user. rewrite Hrow. by rewrite String.eqb_sym. }
  apply existsb_true_bfilter in Hex as (u & k & Hf & Hu).
  exists u, k. split; [done |].
  assert (u ∈ List.filter (on_user row) us) as Hin by (rewrite Hf; left).
  apply elem_of_bfilter in Hin as [Hin _]. split; [done |].
  unfold on_user in Hu. rewrite Hrow in Hu. by apply String.eqb_eq in Hu.
Qed.


End Round_trip.

(** ** The update of a hook in place *)

Section Hooks.
Context `{PgEngine}.
Import SQL V2.

Lemma hook_frame_refl h : hook_frame h h.
Proof. by repeat split. Qed.

(** The WHERE clause of the update, when the store accepts it: the id
    reads as a uuid, and the rows kept have that id and the caller's
    team. *)
Lemma hooks_where p1 p2 id team w :
  where_clause hooks_scope [p1; p2; PText id; param_of_uuid team]
    [Cond (col "id") CmpEq 3; Cond (col "team_id") CmpEq 4] = Some w →
  ∀ h, w h = true → pg_uuid id = Some (h_id h) ∧ h_team_id h = team.
Proof.
  unfold where_clause, prepare, hooks_scope. simpl.
  destruct (pg_uuid id) as [i|]; simpl; [| done].
  destruct team as [t|]; simpl; intros [= <-] h Hh;
    rewrite andb_true_r in Hh; apply andb_true_iff in Hh as [Hi Ht].
  - apply String.eqb_eq in Hi as ->.
    destruct (h_team_id h) as [x|]; simpl in Ht; [| done].
    by apply String.eqb_eq in Ht as ->.
  - by destruct (h_team_id h).
Qed.

Lemma set_hook_configurations_v2_same st :
  st = set_hook_configurations_v2 (hook_configurations_v2 st) st.
Proof. by destruct st. Qed.

Lemma updated_in_place_nothing st id team now :
  updated_in_place st st id team now [].
Proof.
  split; [| split; [| split]].
  - apply Forall_Forall2_diag, Forall_forall. intros. apply hook_frame_refl.
  - apply set_hook_configurations_v2_same.
  - intros i h h' Hh Hh' Hne. congruence.
  - by intros row ?%elem_of_nil.
Qed.

(** The statement of the update, when the store carries it out. *)
Lemma update_hook_configurations_v2_Some st now p1 p2 id team rows st' :
  update_hook_configurations_v2 st now [p1; p2; PText id; param_of_uuid team]
  = Some (rows, st') →
  updated_in_place st st' id team now rows.
Proof.
  unfold update_hook_configurations_v2.
  destruct (where_clause hooks_scope _ _) as [w|] eqn:Hw; simpl; [| done].
  destruct (as_text p1) as [script|]; simpl; [| done].
  destruct (as_boolean p2) as [enabled|]; simpl; [| done].
  pose proof (hooks_where _ _ _ _ _ Hw) as Hwh.
  destruct (List.filter w (hook_configurations_v2 st)) as [|h0 hs] eqn:Hhit.
  { intros [= <- <-]. apply updated_in_place_nothing. }
  destruct script as [script|]; [| done].
  rewrite <- Hhit. clear h0 hs Hhit.
  set (assign := λ h : Hook, Build_Hook _ _ _ _ _ _ _ _ _ _ _ _ _).
  intros [= <- <-].
  assert (∀ h, hook_frame h (assign h)) as Hframe by (by repeat split).
  split; [| split; [| split]]; simpl.
  - generalize (hook_configurations_v2 st). intros l.
    induction l as [|h l IH]; simpl; constructor; [| done].
    destruct (w h); [apply Hframe | apply hook_frame_refl].
  - by destruct st.
  - intros i h h' Hh Hh' Hne.
    rewrite list_lookup_fmap, Hh in Hh'. simpl in Hh'. injection Hh' as <-.
    destruct (w h) eqn:Hwhh; [| done].
    destruct (Hwh h Hwhh) as [? ?]. done.
  - intros row Hrow. apply list_elem_of_fmap in Hrow as (h & -> & Hh).
    apply elem_of_bfilter in Hh as [Hin Hwhh]. split.
    + apply list_elem_of_fmap. exists h. by rewrite Hwhh.
    + eauto.
Qed.

(** C7.  PUT /api/hooks/:id leaves, of every row of
    [hook_configurations_v2], the [id], [name], [category], [hook_type],
    [team_id], [version], [created_by], [created_at], [project_id] and
    [scope] as they were: only [script_content], [enabled] and
    [updated_at] can differ, and only in a row that has the id of the
    request and the team of the caller.  No row is added or removed, no
    other table changes, and the row a 200 carries is a row of the table
    after the update, framed against a row of the table before it. *)
Theorem hook_update_in_place st user id body now :
  let answer := put_api_hooks st user id body now in
  Forall2 hook_frame (hook_configurations_v2 st)
          (hook_configurations_v2 answer.2) ∧
  answer.2 = set_hook_configurations_v2 (hook_configurations_v2 answer.2) st ∧
  (∀ i h h',
     hook_configurations_v2 st !! i = Some h →
     hook_configurations_v2 answer.2 !! i = Some h' →
     h' ≠ h →
     h_version h' = h_version h ∧
     pg_uuid id = Some (h_id h) ∧ h_team_id h = ru_team_id user ∧
     h_updated_at h' = Some now) ∧
  (∀ row, answer.1 = OK row →
     row ∈ hook_configurations_v2 answer.2 ∧
     ∃ h, h ∈ hook_configurations_v2 st ∧ hook_frame h row).
Proof.
  intros answer. subst answer. unfold put_api_hooks.
  destruct (update_hook_configurations_v2 _ _ _) as [[rows st']|] eqn:Hup.
  - apply update_hook_configurations_v2_Some in Hup as (Hf & Hst & Hch & Hrows).
    assert (∀ i h h',
              hook_configurations_v2 st !! i = Some h →
              hook_configurations_v2 st' !! i = Some h' →
              h' ≠ h →
              h_version h' = h_version h ∧
              pg_uuid id = Some (h_id h) ∧ h_team_id h = ru_team_id user ∧
              h_updated_at h' = Some now) as Hch'.
    { intros i h h' Hh Hh' Hne. split; [| by eapply Hch].
      eapply Forall2_lookup_lr in Hf; [| exact Hh | exact Hh'].
      apply Hf. }
    destruct rows as [|row rows]; simpl.
    + split; [done |]. split; [done |]. split; [done |]. done.
    + split; [done |]. split; [done |]. split; [done |].
      intros row' [= <-]. apply Hrows. left.
  - simpl. destruct (updated_in_place_nothing st id (ru_team_id user) now)
      as (Hf & Hst & Hch & _).
    split; [done |]. split; [done |]. split; [| done].
    intros i h h' Hh Hh' Hne. congruence.
Qed.

End Hooks.

(** ** The knowledge bridge *)

Section Links.
Import SQL Bridge.

Lemma find_snoc_first {A} (f : A → bool) (l : list A) (x : A) :
  existsb f l = false → f x = true → List.find f (l ++ [x]) = Some x.
Proof.
  induction l as [|a l IH]; simpl; intros Hl Hx.
  - by rewrite Hx.
  - apply orb_false_iff in Hl as [-> Hl]. by apply IH.
Qed.

Lemma existsb_find_Some {A} (f : A → bool) (l : list A) :
  existsb f l = true → is_Some (List.find f l).
Proof.
  induction l as [|a l IH]; simpl; [done |].
  destruct (f a); [by eexists | exact IH].
Qed.

(** [link] answers with a row whenever the three texts fit their columns,
    the project and the user exist, and the id drawn is not taken. *)
Lemma link_answers st id now project_id knowledge_type knowledge_id scope created_by :
  is_Some (varchar 50 knowledge_type) →
  is_Some (varchar 255 knowledge_id) →
  is_Some (varchar 50 (with_default "project" scope)) →
  existsb (λ l, String.eqb (kl_id l) id) (project_knowledge_links st) = false →
  existsb (λ x, String.eqb (p_id x) project_id) (projects st) = true →
  existsb (λ x, String.eqb (u_id x) created_by) (users st) = true →
  is_Some (link st id now project_id knowledge_type knowledge_id scope created_by).1.
Proof.
  intros [t Ht] [k Hk] [s Hs] Hid Hp Hu.
  unfold link, insert_project_knowledge_links.
  rewrite Ht, Hk, Hs. simpl.
  destruct (existsb (same_link (Some project_id) t k) (project_knowledge_links st))
    eqn:Hdup; simpl.
  - by apply existsb_find_Some.
  - rewrite Hid, Hp, Hu. simpl. by eexists.
Qed.

(** C8.  When [link] answers with a row, linking the same project,
    knowledge type and knowledge id again (with any scope the column
    takes, by any user, at any time) answers with that same row and
    leaves the store as the first call left it: no second row, no
    error. *)
Theorem link_idempotent st id now project_id knowledge_type knowledge_id
    scope created_by row st1 id' now' scope' created_by' :
  link st id now project_id knowledge_type knowledge_id scope created_by
    = (Some row, st1) →
  is_Some (varchar 50 (with_default "project" scope')) →
  link st1 id' now' project_id knowledge_type knowledge_id scope' created_by'
    = (Some row, st1).
Proof.
  unfold link, insert_project_knowledge_links.
  intros Hfirst [s' Hs']. rewrite Hs'. simpl.
  destruct (varchar 50 knowledge_type) as [t|]; [| done].
  destruct (varchar 255 knowledge_id) as [k|]; [| done].
  destruct (varchar 50 (with_default "project" scope)) as [s|]; [| done].
  simpl in Hfirst.
  destruct (existsb (same_link (Some project_id) t k) (project_knowledge_links st))
    eqn:Hdup.
  - injection Hfirst as Hfind <-. rewrite Hdup. by rewrite Hfind.
  - destruct (existsb (λ l, String.eqb (kl_id l) id) (project_knowledge_links st));
      [done |].
    destruct (negb (existsb _ (projects st))); [done |].
    destruct (negb (existsb _ (users st))); [done |].
    injection Hfirst as <- <-.
    unfold set_project_knowledge_links. cbn [project_knowledge_links].
    assert (same_link (Some project_id) t k
              {| kl_id := id; kl_project_id := Some project_id;
                 kl_knowledge_type := t; kl_knowledge_id := k;
                 kl_scope := Some s; kl_created_at := Some now;
                 kl_created_by := Some created_by |} = true) as Hsame.
    { unfold same_link. simpl. by rewrite !String.eqb_refl. }
    rewrite existsb_app. cbn [existsb]. rewrite Hsame, orb_true_r.
    by rewrite find_snoc_first.
Qed.

End Links.

(** ** Names that the joined query cannot resolve *)

Section Ambiguity.
Context `{PgEngine}.
Import SQL V2.

Lemma where_clause_unresolved {R} (sch : schema R) ps cs :
  Exists (λ c, resolve sch (cond_column c) = None) cs →
  where_clause sch ps cs = None.
Proof.
  intros Hex. unfold where_clause.
  rewrite (mapM_None_2 (prepare sch ps) cs); [done |].
  eapply Exists_impl; [exact Hex |]. intros c Hc. unfold prepare. by rewrite Hc.
Qed.

Lemma elem_of_push c column op v qb :
  c ∈ whereConditions (push column op v qb) ↔
  c ∈ whereConditions qb ∨ c = Cond (col column) op (paramIndex qb).
Proof. unfold push. simpl. rewrite elem_of_app, list_elem_of_singleton. done. Qed.

Lemma elem_of_if_truthy_old c v column op qb :
  c ∈ whereConditions qb →
  c ∈ whereConditions (if_truthy v (λ s, push column op (PText s)) qb).
Proof.
  intros Hc. unfold if_truthy. destruct v as [s|]; [| done].
  destruct (String.eqb s ""); [done |]. apply elem_of_push. by left.
Qed.

Lemma elem_of_if_truthy_new s column op qb :
  s ≠ "" →
  Cond (col column) op (paramIndex qb) ∈
    whereConditions (if_truthy (Some s) (λ s, push column op (PText s)) qb).
Proof.
  intros Hs. unfold if_truthy. apply String.eqb_neq in Hs. rewrite Hs.
  apply elem_of_push. by right.
Qed.

(** X20.  [users] and [evidence_repository_v2] both have a [team_id] and a
    [created_at]: in the query that joins them the unqualified names are
    ambiguous.  The search composes them for the visibility [team], which
    is the default, and for either date filter, and the store then refuses
    the first query: the handler answers 500. *)
Lemma search_ambiguous st user query :
  with_default "team" (query !! "visibility") = "team" ∨
  (∃ s, query !! "from_date" = Some s ∧ s ≠ "") ∨
  (∃ s, query !! "to_date" = Some s ∧ s ≠ "") →
  get_api_evidence_search st user query = InternalServerError.
Proof.
  intros Hcase. unfold get_api_evidence_search, select_evidence_page.
  rewrite where_clause_unresolved; [done |].
  apply Exists_exists. unfold search_conditions.
  destruct Hcase as [Hteam | [(s & Hs & Hne) | (s & Hs & Hne)]].
  - exists (Cond (col "team_id") CmpEq 1). split; [| done].
    rewrite Hteam. simpl.
    do 4 apply elem_of_if_truthy_old. apply elem_of_push. by right.
  - eexists. split.
    + apply elem_of_if_truthy_old. rewrite Hs. by apply elem_of_if_truthy_new.
    + done.
  - eexists. split.
    + rewrite Hs. by apply elem_of_if_truthy_new.
    + done.
Qed.

End Ambiguity.

(** * The installation at work *)

Section At_work.
Import SQL V2 Scenario.
Existing Instance Sample.engine.

(** A membership among explicit rows, by cases. *)
Ltac elem_cases H :=
  repeat (apply elem_of_cons in H as [H | H]);
  [.. | by apply elem_of_nil in H].

(** A row found in the list an expression evaluates to. *)
Ltac elem_found := vm_compute; repeat constructor.

Example parseInt_plain : JS.parseInt "100" = Some 100.
Proof. reflexivity. Qed.

Example parseInt_prefix : JS.parseInt "  12abc" = Some 12.
Proof. reflexivity. Qed.

Example parseInt_hex : JS.parseInt "0x1F" = Some 31.
Proof. reflexivity. Qed.

Example parseInt_negative : JS.parseInt "-7" = Some (-7).
Proof. reflexivity. Qed.

Example parseInt_nan : JS.parseInt "abc" = None.
Proof. reflexivity. Qed.

Example parseInt_empty : JS.parseInt "" = None.
Proof. reflexivity. Qed.

Example parseInt_rounds :
  JS.parseInt "9007199254740993" = Some 9007199254740992.
Proof. vm_compute. reflexivity. Qed.

Example authMiddleware_alice : authMiddleware store alice_id = OK alice.
Proof. vm_compute. reflexivity. Qed.

Example authMiddleware_carol : authMiddleware store carol_id = OK carol.
Proof. vm_compute. reflexivity. Qed.

Example authMiddleware_stranger :
  authMiddleware store fresh_id = Unauthorized.
Proof. vm_compute. reflexivity. Qed.

Example search_private_alice :
  search_rows (get_api_evidence_search store alice private_query) =
  [joined evidence3 "alice"; joined evidence1 "alice"].
Proof. vm_compute. reflexivity. Qed.

Example search_default_alice :
  get_api_evidence_search store alice ∅ = InternalServerError.
Proof. vm_compute. reflexivity. Qed.

(** C1, counterexample.  Alice's team belongs to Acme; her search with
    visibility [organization] returns bob's row, whose team belongs to
    Globex. *)
Lemma search_organization_crosses_organizations :
  ¬ (∀ row,
       row ∈ search_rows (get_api_evidence_search store alice organization_query) →
       shares_organization store alice (er_evidence row) = true).
Proof.
  intros Hall.
  assert (joined evidence2 "bob" ∈
            search_rows (get_api_evidence_search store alice organization_query))
    as Hin by elem_found.
  apply Hall in Hin. vm_compute in Hin. discriminate.
Qed.

(** C1, witness. *)
Lemma search_organization_is_public_witness :
  organization_query !! "visibility" = Some "organization" ∧
  get_api_evidence_search store alice organization_query =
    get_api_evidence_search store bob organization_query.
Proof.
  assert (organization_query !! "visibility" = Some "organization") as Hq
    by reflexivity.
  split; [exact Hq |].
  exact (proj2 (proj2 (search_organization_is_public store alice bob
                         organization_query Hq))).
Defined.

(** C2, counterexample.  Alice is in the first team; her search with the
    visibility [everyone], which is no visibility the schema names,
    returns bob's row of the second team. *)
Lemma search_unknown_visibility_not_team :
  ¬ (∀ row,
       row ∈ search_rows (get_api_evidence_search store alice everyone_query) →
       team_predicate alice (er_evidence row) = true).
Proof.
  intros Hall.
  assert (joined evidence2 "bob" ∈
            search_rows (get_api_evidence_search store alice everyone_query))
    as Hin by elem_found.
  apply Hall in Hin. vm_compute in Hin. discriminate.
Qed.

(** C2, witness. *)
Lemma search_unknown_visibility_is_public_witness :
  everyone_query !! "visibility" = Some "everyone" ∧
  "everyone" ≠ "private" ∧ "everyone" ≠ "team" ∧
  get_api_evidence_search store alice everyone_query =
    get_api_evidence_search store alice (<["visibility" := "public"]> everyone_query).
Proof.
  assert (everyone_query !! "visibility" = Some "everyone") as Hq by reflexivity.
  assert ("everyone" ≠ "private") as Hp by discriminate.
  assert ("everyone" ≠ "team") as Ht by discriminate.
  split; [exact Hq |]. split; [exact Hp |]. split; [exact Ht |].
  exact (proj1 (proj2 (search_unknown_visibility_is_public store alice bob
                         everyone_query "everyone" Hq Hp Ht))).
Defined.

(** C3, counterexample.  Alice asks for the metrics of a team that is not
    hers: the answer holds a row that her answer without any filter does
    not hold.  And among 101 rows of hers, her private search for the
    category [api] returns the oldest row, which the page of her private
    search without filter does not reach. *)
Lemma filters_can_widen :
  ¬ (metrics_rows (get_api_metrics_compliance store alice other_team_query) ⊆
     metrics_rows (get_api_metrics_compliance store alice ∅)) ∧
  ¬ (search_rows (get_api_evidence_search (crowded 101) alice private_api_query) ⊆
     search_rows (get_api_evidence_search (crowded 101) alice private_query)).
Proof.
  split.
  - intros Hsub.
    assert (metric "api" 1 1 ∈
              metrics_rows (get_api_metrics_compliance store alice other_team_query))
      as Hin by elem_found.
    apply Hsub in Hin. vm_compute in Hin.
    elem_cases Hin. discriminate.
  - intros Hsub.
    assert (joined (evidence_row (crowd_id 0) (Some alice_id) (Some team1_id)
                      "api" 0) "alice" ∈
              search_rows (get_api_evidence_search (crowded 101) alice
                             private_api_query))
      as Hin by elem_found.
    apply Hsub in Hin. vm_compute in Hin.
    elem_cases Hin; discriminate.
Qed.

(** C3, witness: the second team's metrics from the 25th second of 1970
    on, against its metrics without dates.  The date leaves the category
    [web], whose row is of the 30th second, and takes away the category
    [api], whose row is of the 20th. *)
Lemma filters_only_narrow_witness :
  other_team_recent_query !! "from_date" = Some "1970-01-01 00:00:25" ∧
  pg_timestamp "1970-01-01 00:00:25" = Some 25 ∧
  metrics_rows (get_api_metrics_compliance store alice other_team_recent_query)
    = [metric "web" 1 1] ∧
  metrics_rows (get_api_metrics_compliance store alice
                  (team_only other_team_recent_query))
    = [metric "api" 1 1; metric "web" 1 1] ∧
  ∃ m0, m0 ∈ metrics_rows
               (get_api_metrics_compliance store alice
                  (team_only other_team_recent_query)) ∧
        task_category m0 = Some "web" ∧
        (1 ≤ total_verifications m0)%nat ∧ (1 ≤ unique_users m0)%nat.
Proof.
  assert (metric "web" 1 1 ∈
            metrics_rows
              (get_api_metrics_compliance store alice other_team_recent_query))
    as Hin by elem_found.
  split; [reflexivity |]. split; [vm_compute; reflexivity |].
  split; [vm_compute; reflexivity |]. split; [vm_compute; reflexivity |].
  exact (proj1 (proj2 (proj2 (proj2
           (filters_only_narrow store alice other_team_recent_query))))
           (metric "web" 1 1) Hin).
Defined.

(** C4, counterexample.  Alice's private search returns the row she
    submitted in the second team; her team search does not return it.  And
    page by page the order fails at any link: bob's private search for one
    row returns his row, his public search for one row returns a newer
    row. *)
Lemma visibility_chain_broken :
  ¬ (search_rows (get_api_evidence_search store alice private_query) ⊆
     search_rows (get_api_evidence_search store alice team_query)) ∧
  ¬ (search_rows (get_api_evidence_search store bob private_first_query) ⊆
     search_rows (get_api_evidence_search store bob public_first_query)).
Proof.
  split.
  - intros Hsub.
    assert (joined evidence3 "alice" ∈
              search_rows (get_api_evidence_search store alice private_query))
      as Hin by elem_found.
    apply Hsub in Hin. vm_compute in Hin. by apply elem_of_nil in Hin.
  - intros Hsub.
    assert (joined evidence2 "bob" ∈
              search_rows (get_api_evidence_search store bob private_first_query))
      as Hin by elem_found.
    apply Hsub in Hin. vm_compute in Hin.
    elem_cases Hin. discriminate.
Qed.

(** C4, witness: every row of bob's carries bob's team. *)
Lemma visibility_chain_witness :
  (∀ e, e ∈ evidence_repository_v2 store →
        private_predicate bob e = true → team_predicate bob e = true) ∧
  matching store (search_conditions bob (<["visibility" := "private"]> ∅)) ⊆
  matching store (search_conditions bob (<["visibility" := "team"]> ∅)).
Proof.
  assert (∀ e, e ∈ evidence_repository_v2 store →
               private_predicate bob e = true → team_predicate bob e = true)
    as Hteam.
  { intros e He. change (evidence_repository_v2 store)
      with [evidence1; evidence2; evidence3] in He.
    elem_cases He; subst e; vm_compute; congruence. }
  split; [exact Hteam |].
  exact (proj1 (proj2 (proj2 (proj2 (visibility_chain store bob ∅)))) Hteam).
Defined.


(** C6, counterexample.  The store holds 101 rows and the request asks
    for 101: the answer holds 101. *)
Lemma search_limit_not_capped :
  ¬ (length (search_rows (get_api_evidence_search (crowded 101) alice
                            large_page_query)) ≤ 100)%nat.
Proof. vm_compute. lia. Qed.

(** C6, witness: the same store, no limit named. *)
Lemma search_page_within_limit_witness :
  ∃ p, get_api_evidence_search (crowded 101) alice public_query = OK p ∧
       public_query !! "limit" = None ∧
       (length (evidence p) ≤ 100)%nat.
Proof.
  assert (∃ p, get_api_evidence_search (crowded 101) alice public_query = OK p)
    as [p Hp] by (eexists; vm_compute; reflexivity).
  assert (public_query !! "limit" = None) as Hl by reflexivity.
  exists p. split; [exact Hp |]. split; [exact Hl |].
  exact (proj2 (proj1 (proj2 (proj2 (proj2
           (search_page_within_limit (crowded 101) alice public_query p Hp))))
           Hl)).
Defined.

(** C7, witness: alice's patch names a new version and a new name
    beside the script and the flag; the row changes and keeps its
    version. *)
Lemma hook_update_in_place_witness :
  ∃ h',
    hook_configurations_v2 (put_api_hooks store alice hook1_id hook_patch 50).2
      !! 0%nat = Some h' ∧
    h' ≠ hook1 ∧
    h_script_content h' = "exit 11" ∧
    h_version h' = h_version hook1.
Proof.
  assert (∃ h',
            hook_configurations_v2
              (put_api_hooks store alice hook1_id hook_patch 50).2 !! 0%nat
            = Some h' ∧ h' ≠ hook1 ∧ h_script_content h' = "exit 11")
    as (h' & Hh' & Hne & Hscript).
  { eexists. split; [vm_compute; reflexivity |]. split; [| reflexivity].
    discriminate. }
  exists h'. split; [exact Hh' |]. split; [exact Hne |]. split; [exact Hscript |].
  exact (proj1 (proj1 (proj2 (proj2
           (hook_update_in_place store alice hook1_id hook_patch 50)))
           0%nat hook1 h' eq_refl Hh' Hne)).
Defined.

(** C8, witness: alice links a standard to the project; bob links it
    again, with another scope. *)
Lemma link_idempotent_witness :
  ∃ row st1,
    Bridge.link store fresh_id 40 project1_id
      "standard" "std-42" None alice_id = (Some row, st1) ∧
    is_Some (varchar 50 (with_default "project" (Some "global"))) ∧
    Bridge.link st1 another_fresh_id 41 project1_id
      "standard" "std-42" (Some "global") bob_id = (Some row, st1) ∧
    length (project_knowledge_links st1) = 1%nat.
Proof.
  assert (∃ row st1,
            Bridge.link store fresh_id 40 project1_id
              "standard" "std-42" None alice_id = (Some row, st1) ∧
            length (project_knowledge_links st1) = 1%nat)
    as (row & st1 & Hfirst & Hlen).
  { eexists _, _. split; [vm_compute; reflexivity | reflexivity]. }
  assert (is_Some (varchar 50 (with_default "project" (Some "global")))) as Hscope
    by (eexists; reflexivity).
  exists row, st1. split; [exact Hfirst |]. split; [exact Hscope |].
  split; [| exact Hlen].
  exact (link_idempotent store fresh_id 40 _ _ _ None alice_id row st1
           another_fresh_id 41 (Some "global") bob_id Hfirst Hscope).
Defined.



(** C10, witness: both rows of the second team report failures, and
    their categories carry 0.87. *)
Lemma metrics_pass_rate_constant_witness :
  Forall (λ e, e_evidence_type e = Some "verification_failed")
    (evidence_repository_v2 store) ∧
  metric "api" 1 1 ∈
    metrics_rows (get_api_metrics_compliance store alice other_team_query) ∧
  pass_rate (metric "api" 1 1) = {| numeric_digits := 87; numeric_scale := 2 |}.
Proof.
  assert (metric "api" 1 1 ∈
            metrics_rows (get_api_metrics_compliance store alice other_team_query))
    as Hin by elem_found.
  split; [by repeat constructor |]. split; [exact Hin |].
  exact (metrics_pass_rate_constant store alice other_team_query _ Hin).
Defined.

End At_work.

(** * Properties of the other routes *)

(** ** Joins *)

Lemma bfilter_all {A} (f : A → bool) (l : list A) :
  (∀ x, x ∈ l → f x = true) → List.filter f l = l.
Proof.
  induction l as [|a l IH]; intros Hall; simpl; [done |].
  rewrite (Hall a) by left. f_equal. apply IH. intros x Hx. apply Hall. by right.
Qed.

Section Joins.
Import SQL.

Lemma left_join_cons {A B} (on : A → B → bool) a ra rb :
  left_join on (a :: ra) rb =
  match List.filter (on a) rb with
  | [] => [(a, None)]
  | bs => map (λ b, (a, Some b)) bs
  end ++ left_join on ra rb.
Proof. reflexivity. Qed.

(** The rows a left row contributes to the join all carry it. *)
Lemma left_join_block {A B} (on : A → B → bool) (a : A) (rb : list B) r :
  r ∈ match List.filter (on a) rb with
      | [] => [(a, None)]
      | bs => map (λ b, (a, Some b)) bs
      end →
  r.1 = a ∧ match r.2 with
            | Some b => b ∈ rb ∧ on a b = true
            | None => ∀ b, b ∈ rb → on a b = false
            end.
Proof.
  destruct (List.filter (on a) rb) as [|b0 bs] eqn:Hf.
  - intros ->%list_elem_of_singleton. split; [done |]. simpl.
    intros b Hb. destruct (on a b) eqn:Hab; [| done].
    assert (b ∈ List.filter (on a) rb) as Hin by (by apply elem_of_bfilter).
    rewrite Hf in Hin. by apply elem_of_nil in Hin.
  - intros (b & -> & Hb)%list_elem_of_fmap. split; [done |]. simpl.
    rewrite <- Hf in Hb. by apply elem_of_bfilter in Hb.
Qed.

Lemma left_join_block_nonempty {A B} (on : A → B → bool) (a : A) (rb : list B) :
  ∃ b k, match List.filter (on a) rb with
         | [] => [(a, None)]
         | bs => map (λ b, (a, Some b)) bs
         end = (a, b) :: k.
Proof. destruct (List.filter (on a) rb); simpl; eauto. Qed.

Lemma elem_of_left_join_inv {A B} (on : A → B → bool) ra rb (r : A * option B) :
  r ∈ left_join on ra rb →
  r.1 ∈ ra ∧ match r.2 with
             | Some b => b ∈ rb ∧ on r.1 b = true
             | None => ∀ b, b ∈ rb → on r.1 b = false
             end.
Proof.
  induction ra as [|a ra IH]; [by intros ?%elem_of_nil |].
  rewrite left_join_cons, elem_of_app. intros [Hr | Hr].
  - apply left_join_block in Hr as [Ha Hb]. rewrite Ha. split; [left | done].
  - destruct (IH Hr) as [? ?]. split; [by right | done].
Qed.

(** Every left row has a row in the join. *)
Lemma left_join_covers {A B} (on : A → B → bool) ra rb (a : A) :
  a ∈ ra → ∃ b, (a, b) ∈ left_join on ra rb.
Proof.
  induction ra as [|a' ra IH]; [by intros ?%elem_of_nil |].
  rewrite left_join_cons. intros [-> | Ha]%elem_of_cons.
  - destruct (left_join_block_nonempty on a' rb) as (b & k & ->).
    exists b. apply elem_of_app. left. left.
  - destruct (IH Ha) as [b Hb]. exists b. apply elem_of_app. by right.
Qed.

(** A clause that asks for [p] of the left row sees the same join when
    the left rows without [p] are taken away first. *)
Lemma bfilter_left_join_restrict {A B} (on : A → B → bool) (p : A → bool)
    (w : A * option B → bool) ra rb :
  (∀ r, w r = true → p r.1 = true) →
  List.filter w (left_join on (List.filter p ra) rb) =
  List.filter w (left_join on ra rb).
Proof.
  intros Hw. induction ra as [|a ra IH]; [done |].
  rewrite (left_join_cons on a ra), List.filter_app, <- IH.
  change (List.filter p (a :: ra))
    with (if p a then a :: List.filter p ra else List.filter p ra).
  destruct (p a) eqn:Hpa.
  - by rewrite left_join_cons, List.filter_app.
  - match goal with
    | |- context [List.filter w ?b ++ _] => rewrite (bfilter_none w b)
    end; [done |].
    intros r [Ha _]%left_join_block.
    destruct (w r) eqn:Hwr; [| done]. apply Hw in Hwr. congruence.
Qed.

(** The first row of the join under a clause on the left row is the
    first left row under it. *)
Lemma bfilter_left_join_head {A B} (on : A → B → bool) (p : A → bool)
    (w : A * option B → bool) ra rb :
  (∀ r, w r = p r.1) →
  head (List.filter w (left_join on ra rb)).*1 = head (List.filter p ra).
Proof.
  intros Hw. induction ra as [|a ra IH]; [done |].
  rewrite left_join_cons, List.filter_app.
  change (List.filter p (a :: ra))
    with (if p a then a :: List.filter p ra else List.filter p ra).
  destruct (p a) eqn:Hpa.
  - destruct (left_join_block_nonempty on a rb) as (b & k & ->).
    simpl. by rewrite Hw; simpl; rewrite Hpa.
  - match goal with
    | |- context [List.filter w ?b ++ _] => rewrite (bfilter_none w b)
    end; [done |].
    intros r [Ha _]%left_join_block. by rewrite Hw, Ha.
Qed.

(** The first row of the join under a clause on the left row, in full:
    the first left row under the clause with its first partner. *)
Lemma bfilter_left_join_first {A B} (on : A → B → bool) (p : A → bool)
    (w : A * option B → bool) ra rb r k :
  (∀ r, w r = p r.1) →
  List.filter w (left_join on ra rb) = r :: k →
  (∃ k', List.filter p ra = r.1 :: k') ∧ r.2 = head (List.filter (on r.1) rb).
Proof.
  intros Hw. induction ra as [|a ra IH]; [done |].
  rewrite left_join_cons, List.filter_app.
  change (List.filter p (a :: ra))
    with (if p a then a :: List.filter p ra else List.filter p ra).
  destruct (p a) eqn:Hpa.
  - match goal with
    | |- context [List.filter w ?b ++ _] => rewrite (bfilter_all w b)
    end.
    2:{ intros x [Ha _]%left_join_block. by rewrite Hw, Ha. }
    destruct (List.filter (on a) rb) as [|b0 bs] eqn:Hb; simpl;
      intros [= <- _]; simpl; rewrite Hb; eauto.
  - match goal with
    | |- context [List.filter w ?b ++ _] => rewrite (bfilter_none w b)
    end; [exact IH |].
    intros x [Ha _]%left_join_block. by rewrite Hw, Ha.
Qed.

End Joins.

(** ** The hooks of a team *)

Section Hook_reads.
Context `{PgEngine} `{PgCollation}.
Import SQL V2 HookReads.

Lemma version_desc_total a b : version_desc a b = true ∨ version_desc b a = true.
Proof. destruct a, b; simpl; auto. rewrite !Z.leb_le. lia. Qed.

Lemma name_then_version_desc_total a b :
  name_then_version_desc a b = true ∨ name_then_version_desc b a = true.
Proof.
  unfold name_then_version_desc.
  destruct (pg_text_le (h_name a) (h_name b)) eqn:Hab,
           (pg_text_le (h_name b) (h_name a)) eqn:Hba; simpl;
    auto using version_desc_total.
Qed.

#[local] Instance by_name_version_desc_total : Total by_name_version_desc.
Proof.
  intros a b. unfold by_name_version_desc.
  destruct (name_then_version_desc_total a.1 b.1) as [-> | ->]; simpl; auto.
Qed.

(** The WHERE clause of the list: the store always accepts it, and it
    keeps the hooks of the caller's team. *)
Lemma hooks_list_where team :
  ∃ w, where_clause hooks_users_scope [param_of_uuid team]
         [Cond (qcol "h" "team_id") CmpEq 1] = Some w ∧
       ∀ r, w r = in_team team r.1.
Proof.
  unfold where_clause, prepare, hooks_users_scope. simpl.
  destruct team as [t|]; simpl; eexists; (split; [reflexivity |]);
    intros r; simpl; rewrite andb_true_r; unfold in_team;
    by destruct (h_team_id r.1).
Qed.

(** The WHERE clause of the details: refused when the id is not a uuid,
    and otherwise the hooks of that id in the caller's team. *)
Lemma hooks_details_where id team :
  match pg_uuid id with
  | Some i =>
      ∃ w, where_clause hooks_users_scope [PText id; param_of_uuid team]
             [Cond (qcol "h" "id") CmpEq 1; Cond (qcol "h" "team_id") CmpEq 2]
           = Some w ∧
           ∀ r, w r = String.eqb (h_id r.1) i && in_team team r.1
  | None =>
      where_clause hooks_users_scope [PText id; param_of_uuid team]
        [Cond (qcol "h" "id") CmpEq 1; Cond (qcol "h" "team_id") CmpEq 2]
      = None
  end.
Proof.
  unfold where_clause, prepare, hooks_users_scope. simpl.
  destruct (pg_uuid id) as [i|]; simpl; [| done].
  destruct team as [t|]; simpl; eexists; (split; [reflexivity |]);
    intros r; simpl; rewrite andb_true_r; unfold in_team;
    by destruct (h_team_id r.1).
Qed.

(** X1.  GET /api/hooks always answers 200, and what it lists is the
    hooks of the caller's team: every row carries a hook of the table
    whose [team_id] is the caller's, every such hook has a row, and a
    [created_by_name] is the username of a user row with the id the hook
    has as [created_by].  The rows are in the order of their names and,
    within a name, of falling versions; [count] is their number; and the
    answer is the same when the hooks of all other teams are taken out of
    the table first.  A caller without a team gets an empty list. *)
Theorem hooks_list_team_scoped st user :
  ∃ p, get_api_hooks st user = OK p ∧
       count p = length (hooks p) ∧
       (∀ h, (∃ row, row ∈ hooks p ∧ hr_hook row = h) ↔
             h ∈ hook_configurations_v2 st ∧ h_team_id h = ru_team_id user ∧
             is_Some (ru_team_id user)) ∧
       (∀ row name, row ∈ hooks p → hr_created_by_name row = Some name →
          ∃ u, u ∈ users st ∧ h_created_by (hr_hook row) = Some (u_id u) ∧
               u_username u = name) ∧
       Sorted (λ a b, Is_true (name_then_version_desc (hr_hook a) (hr_hook b)))
              (hooks p) ∧
       get_api_hooks (only_hooks_of (ru_team_id user) st) user = OK p.
Proof.
  unfold get_api_hooks.
  destruct (hooks_list_where (ru_team_id user)) as (w & -> & Hw). simpl.
  eexists. split; [reflexivity |]. simpl.
  assert (∀ h, in_team (ru_team_id user) h = true ↔
               h_team_id h = ru_team_id user ∧ is_Some (ru_team_id user)) as Hteam.
  { intros h. unfold in_team.
    destruct (h_team_id h) as [a|], (ru_team_id user) as [b|]; simpl.
    - rewrite String.eqb_eq. split; [intros ->; eauto | by intros [[= ->] _]].
    - split; [done | by intros [? [? ?]]].
    - split; [done | by intros [? _]].
    - split; [done | by intros [_ [? ?]]]. }
  split; [done |]. split; [| split; [| split]].
  - intros h. rewrite <- Hteam. split.
    + intros (row & Hrow & <-).
      apply list_elem_of_fmap in Hrow as (r & -> & Hr).
      rewrite merge_sort_Permutation in Hr.
      apply elem_of_bfilter in Hr as [Hr Hwr]. rewrite Hw in Hwr.
      apply elem_of_left_join_inv in Hr as [Hr _]. done.
    + intros [Hh Hin].
      destruct (left_join_covers on_creator _ (users st) h Hh) as [b Hb].
      exists (select_hook_row (h, b)). split; [| done].
      apply list_elem_of_fmap. exists (h, b). split; [done |].
      rewrite merge_sort_Permutation. apply elem_of_bfilter.
      split; [done |]. by rewrite Hw.
  - intros row name Hrow Hname.
    apply list_elem_of_fmap in Hrow as ([h b] & -> & Hr).
    rewrite merge_sort_Permutation in Hr.
    apply elem_of_bfilter in Hr as [Hr _].
    apply elem_of_left_join_inv in Hr as [_ Hb]. simpl in *.
    destruct b as [u|]; [| done]. destruct Hb as [Hu Hon].
    exists u. split; [done |]. injection Hname as <-. split; [| done].
    unfold on_creator in Hon. destruct (h_created_by h) as [x|]; [| done].
    by apply String.eqb_eq in Hon as ->.
  - eapply Sorted_fmap; [| apply (Sorted_merge_sort by_name_version_desc)].
    intros x y Hxy. exact Hxy.
  - unfold only_hooks_of. simpl.
    rewrite bfilter_left_join_restrict; [done |].
    intros r Hr. by rewrite Hw in Hr.
Qed.

(** X2.  GET /api/hooks/:id answers 200 only with a hook of the table
    that has the id of the request and the team of the caller, 500 exactly
    when the store does not read the id as a uuid, and the same whether or
    not the table holds hooks of other teams: a hook of another team is
    answered like one that does not exist. *)
Theorem hook_details_team_scoped st user id :
  (∀ row, get_api_hooks_id st user id = OK row →
     hr_hook row ∈ hook_configurations_v2 st ∧
     pg_uuid id = Some (h_id (hr_hook row)) ∧
     h_team_id (hr_hook row) = ru_team_id user ∧ is_Some (ru_team_id user)) ∧
  (get_api_hooks_id st user id = InternalServerError ↔ pg_uuid id = None) ∧
  get_api_hooks_id (only_hooks_of (ru_team_id user) st) user id =
  get_api_hooks_id st user id.
Proof.
  unfold get_api_hooks_id.
  pose proof (hooks_details_where id (ru_team_id user)) as Hwhere.
  destruct (pg_uuid id) as [i|].
  2:{ rewrite Hwhere. simpl. done. }
  destruct Hwhere as (w & -> & Hw). simpl.
  split; [| split].
  - intros row Hrow.
    destruct (List.filter w _) as [|[h b] k] eqn:Hf; simpl in Hrow; [done |].
    injection Hrow as <-. simpl.
    assert ((h, b) ∈ List.filter w
              (left_join on_creator (hook_configurations_v2 st) (users st)))
      as Hin by (rewrite Hf; left).
    apply elem_of_bfilter in Hin as [Hin Hwr]. rewrite Hw in Hwr. simpl in Hwr.
    apply andb_true_iff in Hwr as [Hid Hteam].
    apply elem_of_left_join_inv in Hin as [Hin _]. split; [done |].
    apply String.eqb_eq in Hid as ->. split; [done |].
    unfold in_team in Hteam.
    destruct (h_team_id h) as [a|], (ru_team_id user) as [t|]; try done.
    apply String.eqb_eq in Hteam as ->. eauto.
  - split; [| done].
    by destruct (select_hook_row <$> List.filter w _).
  - unfold only_hooks_of. simpl.
    rewrite bfilter_left_join_restrict; [done |].
    intros r Hr. rewrite Hw in Hr. by apply andb_true_iff in Hr as [_ ?].
Qed.

Lemma bfilter_map_assign {A} (p q : A → bool) (assign : A → A) (l : list A) :
  (∀ a, q a = p a) → (∀ a, p (assign a) = p a) →
  List.filter p (map (λ a, if q a then assign a else a) l) =
  assign <$> List.filter q l.
Proof.
  intros Hq Ha. induction l as [|a l IH]; simpl; [done |].
  destruct (q a) eqn:Hqa.
  - rewrite Ha, <- Hq, Hqa. simpl. by rewrite IH.
  - by rewrite <- Hq, Hqa.
Qed.

(** X3.  When PUT /api/hooks/:id answers 200 with a row, GET
    /api/hooks/:id for the same id, asked by the same caller of the store
    the update left, answers 200 with that row: its [script_content] and
    [enabled] are the values of the request as the store read them, and
    its [updated_at] is the time of the update. *)
Theorem hook_update_then_details st user id body now row st' :
  put_api_hooks st user id body now = (OK row, st') →
  (∃ r, get_api_hooks_id st' user id = OK r ∧ hr_hook r = row) ∧
  as_text (param_of_js (body !! "script_content"))
    = Some (Some (h_script_content row)) ∧
  as_boolean (param_of_js (body !! "enabled")) = Some (h_enabled row) ∧
  h_updated_at row = Some now.
Proof.
  unfold put_api_hooks, update_hook_configurations_v2.
  destruct (where_clause hooks_scope _ _) as [w0|] eqn:Hw0; simpl; [| done].
  destruct (as_text _) as [script|]; simpl; [| done].
  destruct (as_boolean _) as [enabled|]; simpl; [| done].
  destruct (List.filter w0 (hook_configurations_v2 st)) as [|h0 hs] eqn:Hhit;
    [by intros [= <-] |].
  destruct script as [script|]; [| done].
  rewrite <- Hhit. set (assign := λ h : Hook, Build_Hook _ _ _ _ _ _ _ _ _ _ _ _ _).
  rewrite Hhit. simpl. intros [= <- <-]. split; [| done].
  revert Hw0. unfold where_clause, prepare, hooks_scope. simpl.
  pose proof (hooks_details_where id (ru_team_id user)) as Hwhere.
  destruct (pg_uuid id) as [i|]; simpl; [| done].
  destruct Hwhere as (w & Hwhere & Hw).
  intros Hw0.
  assert (∀ h, w0 h = String.eqb (h_id h) i && in_team (ru_team_id user) h) as Hq.
  { destruct (ru_team_id user) as [t|]; simpl in Hw0; injection Hw0 as <-;
      intros h; simpl; rewrite andb_true_r; unfold in_team;
      by destruct (h_team_id h). }
  unfold get_api_hooks_id. rewrite Hwhere. simpl.
  pose proof (bfilter_left_join_head on_creator
                (λ h, String.eqb (h_id h) i && in_team (ru_team_id user) h)
                w (map (λ h, if w0 h then assign h else h)
                     (hook_configurations_v2 st)) (users st) Hw) as Hhead.
  rewrite (bfilter_map_assign _ w0 assign) in Hhead by done.
  rewrite Hhit in Hhead. simpl in Hhead.
  destruct (List.filter w _) as [|[a b] k]; simpl in Hhead; [done |].
  injection Hhead as ->. simpl. eauto.
Qed.

(** X4.  PUT /api/hooks/:id with a body that has no [script_content]
    (or a null one) never answers 200 and changes nothing: the column is
    NOT NULL, so the answer is 500 when the update reaches a row, and 404
    when it reaches none. *)
Theorem hook_update_needs_script st user id body now :
  body !! "script_content" = None ∨ body !! "script_content" = Some JNull →
  (put_api_hooks st user id body now).2 = st ∧
  ((put_api_hooks st user id body now).1 = NotFound ∨
   (put_api_hooks st user id body now).1 = InternalServerError).
Proof.
  intros Hscript.
  assert (param_of_js (body !! "script_content") = PNull) as Hnull
    by (by destruct Hscript as [-> | ->]).
  unfold put_api_hooks, update_hook_configurations_v2. rewrite Hnull.
  destruct (where_clause hooks_scope _ _) as [w|]; simpl; [| auto].
  destruct (as_boolean _) as [enabled|]; simpl; [| auto].
  destruct (List.filter w (hook_configurations_v2 st)); simpl; auto.
Qed.

End Hook_reads.

(** ** The context of an evidence row *)

Section Context_reads.
Context `{PgEngine}.
Import SQL V2.

(** The WHERE clause of the context query: refused when the id is not a
    uuid, and otherwise the rows of that id in the caller's team. *)
Lemma context_where_cases id user :
  match pg_uuid id with
  | Some i =>
      ∃ w, where_clause evidence_users_scope
             [PText id; param_of_uuid (ru_team_id user)]
             [Cond (qcol "e" "id") CmpEq 1; Cond (qcol "e" "team_id") CmpEq 2]
           = Some w ∧
           ∀ r, w r = String.eqb (e_id r.1) i && team_predicate user r.1
  | None =>
      where_clause evidence_users_scope
        [PText id; param_of_uuid (ru_team_id user)]
        [Cond (qcol "e" "id") CmpEq 1; Cond (qcol "e" "team_id") CmpEq 2]
      = None
  end.
Proof.
  unfold where_clause, prepare, evidence_users_scope, evidence_scope. simpl.
  destruct (pg_uuid id) as [i|]; simpl; [| done].
  unfold team_predicate.
  destruct (ru_team_id user) as [t|]; simpl; eexists; (split; [reflexivity |]);
    intros r; simpl; rewrite andb_true_r; by destruct (e_team_id r.1).
Qed.

(** X5.  GET /api/evidence/:id/context answers 200 only with a row of
    [evidence_repository_v2] that has the id of the request and the team
    of the caller, together with the username and full name of the user
    row the evidence points at; it answers 500 exactly when the store does
    not read the id as a uuid; and it answers the same whether or not the
    table holds rows of other teams, so that a row of another team is
    answered like one that does not exist.  A caller without a team never
    gets a 200. *)
Theorem context_team_scoped st user id :
  (∀ row, get_api_evidence_context st user id = OK row →
     er_evidence row ∈ evidence_repository_v2 st ∧
     pg_uuid id = Some (e_id (er_evidence row)) ∧
     e_team_id (er_evidence row) = ru_team_id user ∧
     is_Some (ru_team_id user) ∧
     match er_username row with
     | Some name =>
         ∃ u, u ∈ users st ∧ e_user_id (er_evidence row) = Some (u_id u) ∧
              u_username u = name ∧ u_full_name u = er_full_name row
     | None => er_full_name row = None
     end) ∧
  (get_api_evidence_context st user id = InternalServerError ↔
   pg_uuid id = None) ∧
  get_api_evidence_context (only_evidence_of user st) user id =
  get_api_evidence_context st user id.
Proof.
  unfold get_api_evidence_context.
  pose proof (context_where_cases id user) as Hwhere.
  destruct (pg_uuid id) as [i|].
  2:{ rewrite Hwhere. simpl. done. }
  destruct Hwhere as (w & -> & Hw). simpl.
  split; [| split].
  - intros row Hrow.
    destruct (List.filter w _) as [|[e b] k] eqn:Hf; simpl in Hrow; [done |].
    injection Hrow as <-. simpl.
    assert ((e, b) ∈ List.filter w
              (left_join on_user (evidence_repository_v2 st) (users st)))
      as Hin by (rewrite Hf; left).
    apply elem_of_bfilter in Hin as [Hin Hwr]. rewrite Hw in Hwr. simpl in Hwr.
    apply andb_true_iff in Hwr as [Hid Hteam].
    apply elem_of_left_join_inv in Hin as [Hin Hb]. simpl in *.
    split; [done |].
    apply String.eqb_eq in Hid as ->. split; [done |].
    unfold team_predicate in Hteam.
    destruct (e_team_id e) as [a|], (ru_team_id user) as [t|]; try done.
    apply String.eqb_eq in Hteam as ->. split; [done |]. split; [eauto |].
    destruct b as [u|]; simpl; [| done]. destruct Hb as [Hu Hon].
    exists u. split; [done |]. split; [| done].
    unfold on_user in Hon. destruct (e_user_id e) as [x|]; [| done].
    by apply String.eqb_eq in Hon as ->.
  - split; [| done].
    by destruct (select_evidence_row <$> List.filter w _).
  - unfold only_evidence_of. simpl.
    rewrite bfilter_left_join_restrict; [done |].
    intros r Hr. rewrite Hw in Hr. by apply andb_true_iff in Hr as [_ ?].
Qed.

End Context_reads.

(** ** The order and the reach of a search page *)

Section Search_pages.
Context `{PgEngine}.
Import SQL V2.

Lemma created_desc_total a b : created_desc a b = true ∨ created_desc b a = true.
Proof. destruct a, b; simpl; auto. rewrite !Z.leb_le. lia. Qed.

Lemma created_desc_trans a b c :
  created_desc a b = true → created_desc b c = true → created_desc a c = true.
Proof. destruct a, b, c; simpl; try done. rewrite !Z.leb_le. lia. Qed.

#[local] Instance by_created_desc_total : Total by_created_desc.
Proof.
  intros a b. unfold by_created_desc.
  destruct (created_desc_total (e_created_at a.1) (e_created_at b.1))
    as [-> | ->]; simpl; auto.
Qed.

#[local] Instance by_created_desc_trans : Transitive by_created_desc.
Proof.
  intros a b c. unfold by_created_desc. rewrite !Is_true_true.
  apply created_desc_trans.
Qed.

Lemma StronglySorted_take_drop {A} (R : relation A) (l : list A) n m :
  StronglySorted R l → StronglySorted R (take n (drop m l)).
Proof.
  intros Hl. rewrite <- (take_drop m l) in Hl.
  apply StronglySorted_app_1_r in Hl.
  rewrite <- (take_drop n (drop m l)) in Hl.
  by apply StronglySorted_app_1_l in Hl.
Qed.

(** X6.  The rows of a page of GET /api/evidence/search are in the order
    of falling [created_at], rows without one first: each row is at least
    as new as every row after it. *)
Theorem search_page_newest_first st user query p :
  get_api_evidence_search st user query = OK p →
  StronglySorted
    (λ a b, Is_true (created_desc (e_created_at (er_evidence a))
                                  (e_created_at (er_evidence b))))
    (evidence p).
Proof.
  unfold get_api_evidence_search, select_evidence_page.
  destruct (where_clause evidence_users_scope _ _) as [wj|]; simpl; [| done].
  destruct (row_count (search_limit query)) as [l|]; simpl; [| done].
  destruct (row_count (search_offset query)) as [o|]; simpl; [| done].
  destruct (select_evidence_matching _ _); simpl; [| done].
  intros [= <-]. simpl.
  eapply StronglySorted_fmap;
    [| apply StronglySorted_take_drop,
         (StronglySorted_merge_sort by_created_desc)].
  intros x y Hxy. exact Hxy.
Qed.

(** Under the primary key of [users], a row of evidence has at most one
    partner. *)
Lemma on_user_at_most_one e us :
  NoDup (u_id <$> us) → (length (List.filter (on_user e) us) ≤ 1)%nat.
Proof.
  induction us as [|a us IH]; simpl; [lia |].
  intros [Hnotin Hnd]%NoDup_cons. destruct (on_user e a) eqn:Ha; [| auto].
  rewrite (bfilter_none (on_user e) us); [simpl; lia |].
  intros u Hu. destruct (on_user e u) eqn:Hou; [| done].
  exfalso. apply Hnotin. apply list_elem_of_fmap. exists u. split; [| done].
  unfold on_user in Ha, Hou. destruct (e_user_id e) as [x|]; [| done].
  apply String.eqb_eq in Ha, Hou. congruence.
Qed.

Lemma bfilter_left_join_length {A B} (on : A → B → bool) (p : A → bool)
    (w : A * option B → bool) ra rb :
  (∀ a, (length (List.filter (on a) rb) ≤ 1)%nat) →
  (∀ r, w r = p r.1) →
  length (List.filter w (left_join on ra rb)) = length (List.filter p ra).
Proof.
  intros Hone Hw. induction ra as [|a ra IH]; [done |].
  rewrite left_join_cons, List.filter_app, length_app, IH.
  change (List.filter p (a :: ra))
    with (if p a then a :: List.filter p ra else List.filter p ra).
  specialize (Hone a).
  destruct (List.filter (on a) rb) as [|b [|b' bs]]; simpl in *;
    [| | lia]; rewrite Hw; simpl; by destruct (p a).
Qed.

(** The WHERE clause of a private search with no filter, in the joined
    query and in the count. *)
Lemma private_search_where user query :
  query !! "visibility" = Some "private" →
  query !! "category" = None →
  query !! "user_id" = None →
  query !! "from_date" = None →
  query !! "to_date" = None →
  let qb := search_conditions user query in
  (∃ wj, where_clause evidence_users_scope (params qb) (whereConditions qb)
         = Some wj ∧ ∀ r, wj r = private_predicate user r.1) ∧
  (∃ we, where_clause evidence_scope (params qb) (whereConditions qb)
         = Some we ∧ ∀ e, we e = private_predicate user e).
Proof.
  intros Hv Hc Hu Hf Ht. unfold search_conditions.
  rewrite Hv, Hc, Hu, Hf, Ht. simpl.
  unfold where_clause, prepare, evidence_users_scope, evidence_scope. simpl.
  split; eexists; (split; [reflexivity |]); intros r; simpl;
    rewrite andb_true_r; unfold private_predicate.
  - by destruct (e_user_id r.1).
  - by destruct (e_user_id r).
Qed.

(** X7.  A row the authenticated submission has just created is on the
    first page of its author's private search: when the table of users
    has no two rows with one id, the request names the visibility
    [private], no filter and no offset, and the author had fewer rows
    than the limit of the page. *)
Theorem submit_then_private_search st user body id now row st' query l :
  post_api_evidence st user body id now = (Created row, st') →
  NoDup (u_id <$> users st) →
  query !! "visibility" = Some "private" →
  query !! "category" = None →
  query !! "user_id" = None →
  query !! "from_date" = None →
  query !! "to_date" = None →
  search_offset query = Some 0 →
  search_limit query = Some l →
  Z.of_nat (length (List.filter (private_predicate user)
                      (evidence_repository_v2 st))) < l < 2 ^ 63 →
  ∃ p r, get_api_evidence_search st' user query = OK p ∧
         r ∈ evidence p ∧ er_evidence r = row.
Proof.
  intros Hpost Hpk Hv Hc Hu Hf Ht Ho Hl [Hn Hmax].
  pose proof (post_api_evidence_cases st user body id now) as Hcases.
  rewrite Hpost in Hcases. destruct Hcases as (Hruser & _ & _ & _ & ->).
  assert (existsb (λ x, String.eqb (u_id x) (ru_id user)) (users st) = true)
    as Hfk.
  { unfold post_api_evidence in Hpost.
    destruct (negb _ || negb _ || negb _); [done |].
    destruct (insert_evidence_repository_v2 _ _ _ _) as [[row0 st0]|] eqn:Hins;
      [| done].
    apply insert_evidence_repository_v2_Some in Hins. tauto. }
  destruct (private_search_where user query Hv Hc Hu Hf Ht)
    as [(wj & Hwj & Hwjr) (we & Hwe & _)].
  unfold get_api_evidence_search, select_evidence_page, select_evidence_matching.
  rewrite Hwj, Hwe, Hl, Ho. simpl.
  assert ((0 <=? l) && (l <? 2 ^ 63) = true) as ->.
  { apply andb_true_iff. rewrite Z.leb_le, Z.ltb_lt. lia. }
  simpl. eexists.
  destruct (on_user_partner row (ru_id user) (users st) Hruser Hfk)
    as (u & k & Hpartner & _ & _).
  exists (select_evidence_row (row, Some u)). split; [reflexivity |]. simpl.
  split; [| done].
  apply list_elem_of_fmap. exists (row, Some u). split; [done |].
  change (Z.to_nat 0) with 0%nat. rewrite drop_0, take_ge.
  - rewrite merge_sort_Permutation. apply elem_of_bfilter. split.
    + rewrite left_join_snoc, Hpartner. apply elem_of_app. right. left.
    + rewrite Hwjr. simpl. unfold private_predicate.
      by rewrite Hruser, String.eqb_refl.
  - rewrite (Permutation_length (merge_sort_Permutation _ _)).
    rewrite (bfilter_left_join_length on_user (private_predicate user));
      [| intros; by apply on_user_at_most_one | done].
    rewrite List.filter_app, length_app. simpl.
    destruct (private_predicate user row); simpl; lia.
Qed.

End Search_pages.

(** ** The account the compliance metrics give *)

Section Metrics_account.
Context `{PgEngine}.
Import SQL V2.

#[local] Instance by_total_desc_total : Total by_total_desc.
Proof. intros a b. unfold by_total_desc. lia. Qed.

#[local] Instance by_total_desc_trans : Transitive by_total_desc.
Proof. intros a b c. unfold by_total_desc. lia. Qed.

Lemma bfilter_length_le {A} (f : A → bool) (l : list A) :
  (length (List.filter f l) ≤ length l)%nat.
Proof. apply sublist_length, bfilter_sublist. Qed.

Lemma omap_length_le {A B} (f : A → option B) (l : list A) :
  (length (omap f l) ≤ length l)%nat.
Proof. induction l as [|a l IH]; csimpl; [lia |]. destruct (f a); csimpl; lia. Qed.

Lemma remove_dups_length_le `{EqDecision A} (l : list A) :
  (length (remove_dups l) ≤ length l)%nat.
Proof.
  induction l as [|a l IH]; simpl; [lia |].
  destruct (decide_rel elem_of a l); simpl; lia.
Qed.

(** The groups of distinct keys share the rows out: their sizes add up to
    the number of rows that have one of the keys. *)
Lemma group_sizes_sum {A} `{EqDecision K} (f : A → K) (cs : list K)
    (rows : list A) :
  NoDup cs →
  sum_list_with
    (λ c, length (List.filter (λ e, bool_decide (f e = c)) rows)) cs =
  length (List.filter (λ e, bool_decide (f e ∈ cs)) rows).
Proof.
  induction 1 as [|c cs Hc _ IH]; simpl.
  - by rewrite bfilter_none.
  - rewrite IH. clear IH. induction rows as [|e rows IHr]; simpl; [done |].
    destruct (decide (f e = c)) as [Heq | Hne].
    + rewrite (bool_decide_eq_true_2 (f e = c)) by done.
      rewrite (bool_decide_eq_true_2 (f e ∈ c :: cs)) by (rewrite Heq; left).
      rewrite (bool_decide_eq_false_2 (f e ∈ cs)) by (by rewrite Heq).
      simpl. lia.
    + rewrite (bool_decide_eq_false_2 (f e = c)) by done.
      destruct (decide (f e ∈ cs)) as [Hin | Hnin].
      * rewrite (bool_decide_eq_true_2 (f e ∈ cs)) by done.
        rewrite (bool_decide_eq_true_2 (f e ∈ c :: cs)) by (by right).
        simpl. lia.
      * rewrite (bool_decide_eq_false_2 (f e ∈ cs)) by done.
        rewrite (bool_decide_eq_false_2 (f e ∈ c :: cs)); [done |].
        by intros [? | ?]%elem_of_cons.
Qed.

Lemma sum_list_with_map {A B} (f : B → nat) (g : A → B) (l : list A) :
  sum_list_with f (map g l) = sum_list_with (λ a, f (g a)) l.
Proof. induction l as [|a l IH]; simpl; [done | by rewrite IH]. Qed.

Lemma group_by_task_category_total rows :
  sum_list_with total_verifications (group_by_task_category rows) = length rows.
Proof.
  unfold group_by_task_category.
  rewrite sum_list_with_map. simpl.
  rewrite (group_sizes_sum e_task_category) by apply NoDup_remove_dups.
  f_equal. apply bfilter_all.
  intros e He. apply bool_decide_eq_true. rewrite elem_of_remove_dups.
  apply list_elem_of_fmap. eauto.
Qed.

(** X8.  The compliance metrics have one row for each category among the
    rows of [evidence_repository_v2] their WHERE clause keeps, in the
    order of falling totals; every row counts at least one verification
    and no more users than verifications; and the totals add up to the
    number of rows kept: each is counted once. *)
Theorem metrics_account st user query rows :
  get_api_metrics_compliance st user query = OK rows →
  NoDup (task_category <$> rows) ∧
  StronglySorted by_total_desc rows ∧
  (∀ m, m ∈ rows →
     (1 ≤ total_verifications m)%nat ∧
     (unique_users m ≤ total_verifications m)%nat) ∧
  (∀ c, c ∈ task_category <$> rows ↔
        c ∈ e_task_category <$> metrics_matching st (metrics_conditions user query)) ∧
  sum_list_with total_verifications rows =
  length (metrics_matching st (metrics_conditions user query)).
Proof.
  unfold get_api_metrics_compliance, metrics_matching.
  destruct (select_metrics_matching _ _) as [kept|]; simpl; [| done].
  intros [= <-].
  assert (task_category <$> group_by_task_category kept =
          remove_dups (e_task_category <$> kept)) as Hcats.
  { unfold group_by_task_category.
    generalize (remove_dups (e_task_category <$> kept)). intros cs.
    induction cs as [|c cs IH]; simpl; [done |]. f_equal. exact IH. }
  split; [| split; [| split; [| split]]].
  - rewrite merge_sort_Permutation, Hcats. apply NoDup_remove_dups.
  - apply (StronglySorted_merge_sort by_total_desc).
  - intros m Hm. rewrite merge_sort_Permutation in Hm.
    unfold group_by_task_category in Hm.
    apply list_elem_of_fmap in Hm as (c & -> & Hc). simpl.
    apply elem_of_remove_dups, list_elem_of_fmap in Hc as (e & -> & He).
    split.
    + assert (e ∈ List.filter
                (λ e0, bool_decide (e_task_category e0 = e_task_category e)) kept)
        as Hin by (apply elem_of_bfilter; split; [done | by apply bool_decide_eq_true]).
      destruct (List.filter _ kept); [by apply elem_of_nil in Hin | simpl; lia].
    + etrans; [apply remove_dups_length_le | apply omap_length_le].
  - intros c. rewrite merge_sort_Permutation, Hcats.
    apply elem_of_remove_dups.
  - rewrite merge_sort_Permutation. apply group_by_task_category_total.
Qed.

End Metrics_account.

(** ** Tokens, login and roles *)

Section Accounts_facts.
Context `{PgEngine} `{AuthEngine}.
Import SQL V2 Accounts.

Lemma substring_all s : String.substring 0 (String.length s) s = s.
Proof. induction s as [|c s IH]; simpl; [done | by rewrite IH]. Qed.

Lemma substring_split n s :
  s = String.substring 0 n s +:+ String.substring n (String.length s - n) s.
Proof.
  revert n. induction s as [|c s IH]; intros [|n]; simpl; try done.
  - by rewrite substring_all.
  - change (String c s =
            String c (String.substring 0 n s +:+
                      String.substring n (String.length s - n) s)).
    by rewrite <- IH.
Qed.

Lemma bearer_prefix header :
  String.prefix "Bearer " header = true →
  header =
  "Bearer " +:+ String.substring 7 (String.length header - 7)%nat header.
Proof.
  intros Hp%String.prefix_correct. simpl String.length in Hp.
  rewrite (substring_split 7 header) at 1. by rewrite Hp.
Qed.

Lemma bearer_token token :
  String.prefix "Bearer " ("Bearer " +:+ token) = true ∧
  String.substring 7 (String.length ("Bearer " +:+ token) - 7)%nat
    ("Bearer " +:+ token) = token.
Proof.
  split.
  - apply String.prefix_correct. simpl. by destruct token.
  - simpl. by rewrite Nat.sub_0_r, substring_all.
Qed.

(** The WHERE clause of [authMiddleware]: refused when the id is not a
    uuid, and otherwise the users of that id. *)
Lemma auth_where id :
  match pg_uuid id with
  | Some i =>
      ∃ w, where_clause users_teams_scope [PText id]
             [Cond (qcol "u" "id") CmpEq 1] = Some w ∧
           ∀ r, w r = String.eqb (u_id r.1) i
  | None =>
      where_clause users_teams_scope [PText id]
        [Cond (qcol "u" "id") CmpEq 1] = None
  end.
Proof.
  unfold where_clause, prepare, users_teams_scope. simpl.
  destruct (pg_uuid id) as [i|]; simpl; [| done].
  eexists. split; [reflexivity |]. intros r. simpl. by rewrite andb_true_r.
Qed.

(** The row the join of a user with the teams gives is the user with a
    team it points at. *)
Lemma users_teams_row st (w : User * option Team → bool) r k :
  List.filter w (left_join on_team (users st) (teams st)) = r :: k →
  r.1 ∈ users st ∧ w r = true ∧
  match r.2 with
  | Some t => t ∈ teams st ∧ u_team_id r.1 = Some (t_id t)
  | None => True
  end.
Proof.
  intros Hf.
  assert (r ∈ List.filter w (left_join on_team (users st) (teams st)))
    as Hin by (rewrite Hf; left).
  apply elem_of_bfilter in Hin as [Hin Hw].
  apply elem_of_left_join_inv in Hin as [Hu Ht]. split; [done |]. split; [done |].
  destruct r.2 as [t|]; [| done]. destruct Ht as [Ht Hon]. split; [done |].
  unfold on_team in Hon. destruct (u_team_id r.1) as [x|]; [| done].
  by apply String.eqb_eq in Hon as ->.
Qed.

Lemma authMiddleware_OK st id ru :
  V2.authMiddleware st id = OK ru →
  ∃ u, u ∈ users st ∧ pg_uuid id = Some (u_id u) ∧ is_user_row st u ru.
Proof.
  unfold V2.authMiddleware. pose proof (auth_where id) as Hwhere.
  destruct (pg_uuid id) as [i|]; [| by rewrite Hwhere].
  destruct Hwhere as (w & -> & Hw). simpl.
  destruct (List.filter w _) as [|r k] eqn:Hf; [done |].
  intros [= <-].
  apply users_teams_row in Hf as (Hu & Hwr & Ht). rewrite Hw in Hwr.
  apply String.eqb_eq in Hwr as <-.
  exists r.1. split; [done |]. split; [done |].
  unfold is_user_row. simpl. repeat (split; [done |]).
  destruct r.2 as [t|]; simpl; [| done]. destruct Ht as [Ht Hteam]. eauto.
Qed.

Lemma authMiddleware_answers st id :
  V2.authMiddleware st id = Unauthorized ∨ ∃ ru, V2.authMiddleware st id = OK ru.
Proof. unfold V2.authMiddleware. repeat case_match; eauto. Qed.

Lemma authMiddleware_Unauthorized st id u :
  V2.authMiddleware st id = Unauthorized →
  u ∈ users st → pg_uuid id ≠ Some (u_id u).
Proof.
  unfold V2.authMiddleware. pose proof (auth_where id) as Hwhere.
  intros Hauth Hu Hid. rewrite Hid in Hwhere.
  destruct Hwhere as (w & Hw & Hwr). rewrite Hw in Hauth. simpl in Hauth.
  destruct (left_join_covers on_team (users st) (teams st) u Hu) as [b Hb].
  assert ((u, b) ∈ List.filter w (left_join on_team (users st) (teams st)))
    as Hin.
  { apply elem_of_bfilter. split; [done |]. rewrite Hwr. simpl.
    apply String.eqb_refl. }
  destruct (List.filter w _); [by apply elem_of_nil in Hin | done].
Qed.

(** [authMiddleware] with a header, when it lets the request pass. *)
Lemma authMiddleware_header_OK st authorization clock ru :
  authMiddleware st authorization clock = OK ru →
  ∃ token id u,
    authorization = Some ("Bearer " +:+ token) ∧
    jwt_decoded_id token clock = Some id ∧
    pg_uuid id = Some (u_id u) ∧
    u ∈ users st ∧
    is_user_row st u ru.
Proof.
  unfold authMiddleware. destruct authorization as [header|]; [| done].
  destruct (String.prefix "Bearer " header) eqn:Hp; [| done].
  apply bearer_prefix in Hp.
  destruct (jwt_decoded_id _ clock) as [id|] eqn:Hid; [| done].
  intros (u & Hu & Huuid & Hrow)%authMiddleware_OK.
  exists (String.substring 7 (String.length header - 7) header), id, u.
  by rewrite <- Hp.
Qed.

(** X9.  [authMiddleware] lets a request pass exactly when its header
    has the form [Bearer <token>], the token verifies, and [users] has a
    row with the id of the token; [req.user] is then such a row, with the
    name and the organization of the team the row points at.  Every other
    request is answered 401. *)
Theorem authMiddleware_identity st authorization clock :
  match authMiddleware st authorization clock with
  | OK ru =>
      ∃ token id u,
        authorization = Some ("Bearer " +:+ token) ∧
        jwt_decoded_id token clock = Some id ∧
        pg_uuid id = Some (u_id u) ∧
        u ∈ users st ∧
        is_user_row st u ru
  | Unauthorized =>
      ∀ token id u,
        authorization = Some ("Bearer " +:+ token) →
        jwt_decoded_id token clock = Some id →
        u ∈ users st →
        pg_uuid id ≠ Some (u_id u)
  | _ => False
  end.
Proof.
  destruct (authMiddleware st authorization clock) as [ru| | | | |] eqn:Hauth.
  - by apply authMiddleware_header_OK.
  - revert Hauth. unfold authMiddleware. destruct authorization; [| done].
    destruct (String.prefix _ _); [| done].
    destruct (jwt_decoded_id _ _) as [id|]; [| done].
    by destruct (authMiddleware_answers st id) as [-> | [? ->]].
  - revert Hauth. unfold authMiddleware. destruct authorization; [| done].
    destruct (String.prefix _ _); [| done].
    destruct (jwt_decoded_id _ _) as [id|]; [| done].
    by destruct (authMiddleware_answers st id) as [-> | [? ->]].
  - intros token id u -> Hid Hu. revert Hauth. unfold authMiddleware.
    destruct (bearer_token token) as [-> ->]. rewrite Hid.
    intros Hauth. by eapply authMiddleware_Unauthorized.
  - revert Hauth. unfold authMiddleware. destruct authorization; [| done].
    destruct (String.prefix _ _); [| done].
    destruct (jwt_decoded_id _ _) as [id|]; [| done].
    by destruct (authMiddleware_answers st id) as [-> | [? ->]].
  - revert Hauth. unfold authMiddleware. destruct authorization; [| done].
    destruct (String.prefix _ _); [| done].
    destruct (jwt_decoded_id _ _) as [id|]; [| done].
    by destruct (authMiddleware_answers st id) as [-> | [? ->]].
Qed.

(** The WHERE clause of the login: the users of the name sent. *)
Lemma login_where v :
  v ≠ JNull →
  ∃ w, where_clause users_teams_scope [param_of_js (Some v)]
         [Cond (qcol "u" "username") CmpEq 1] = Some w ∧
       ∀ r, w r = String.eqb (u_username r.1) (pg_text v).
Proof.
  intros Hv. unfold where_clause, prepare, users_teams_scope. simpl.
  destruct v; try done; simpl; eexists; (split; [reflexivity |]);
    intros r; simpl; rewrite andb_true_r; by rewrite ?pg_text_str.
Qed.

Lemma truthy_Some v : truthy v = true → ∃ x, v = Some x ∧ x ≠ JNull.
Proof. destruct v as [[]|]; simpl; try done; eauto. Qed.

(** What a login that answers 200 has found and done. *)
Lemma login_OK st body now clock p st' :
  post_api_auth_login st body now clock = (OK p, st') →
  ∃ v pw u k,
    body !! "username" = Some v ∧ body !! "password" = Some pw ∧
    List.filter (λ x, String.eqb (u_username x) (pg_text v)) (users st) = u :: k ∧
    bcrypt_compare pw (u_password_hash u) = Some true ∧
    p = {| token := generateToken (u, head (List.filter (on_team u) (teams st))) clock;
           user := {| lu_id := u_id u;
                      lu_username := u_username u;
                      lu_email := u_email u;
                      lu_full_name := u_full_name u;
                      lu_role := u_role u;
                      lu_team_id := u_team_id u;
                      lu_team_name :=
                        t_name <$> head (List.filter (on_team u) (teams st)) |} |} ∧
    st' = set_users
            (map (λ x, if String.eqb (u_id x) (u_id u) then logged_in now x else x)
                 (users st)) st.
Proof.
  unfold post_api_auth_login.
  destruct (truthy (body !! "username")) eqn:Hu; simpl; [| done].
  destruct (truthy (body !! "password")) eqn:Hp; simpl; [| done].
  apply truthy_Some in Hu as (v & Hv & Hnull).
  apply truthy_Some in Hp as (pw & Hpw & _).
  rewrite Hv, Hpw. cbv zeta.
  destruct (login_where v Hnull) as (w & -> & Hw). simpl.
  destruct (List.filter w _) as [|r k] eqn:Hf; [done |].
  destruct (bcrypt_compare pw (u_password_hash r.1)) as [[]|] eqn:Hb; try done.
  intros [= <- <-].
  eapply (bfilter_left_join_first on_team
            (λ x, String.eqb (u_username x) (pg_text v))) in Hf as [[k' Hk] Ht];
    [| exact Hw].
  destruct r as [u t]. simpl in *. subst t.
  exists v, pw, u, k'. repeat (split; [done |]).
  f_equal. apply map_ext. intros x. by rewrite andb_true_r.
Qed.

(** X10.  POST /api/auth/login answers 200 only when [bcrypt] accepts the
    password of the request against the stored hash of a user row whose
    username is the one of the request; the user of the answer is that
    row; and the store then differs in the [last_login] of the rows with
    that id, and in nothing else.  Every other answer (400, 401, 500)
    leaves the store as it was. *)
Theorem login_effects st body now clock :
  match post_api_auth_login st body now clock with
  | (OK p, st') =>
      ∃ v pw u,
        body !! "username" = Some v ∧ body !! "password" = Some pw ∧
        u ∈ users st ∧ u_username u = pg_text v ∧
        bcrypt_compare pw (u_password_hash u) = Some true ∧
        lu_id (user p) = u_id u ∧
        lu_username (user p) = u_username u ∧
        lu_email (user p) = u_email u ∧
        lu_full_name (user p) = u_full_name u ∧
        lu_role (user p) = u_role u ∧
        lu_team_id (user p) = u_team_id u ∧
        st' = set_users
                (map (λ x, if String.eqb (u_id x) (u_id u)
                           then logged_in now x else x) (users st)) st
  | (Created _, _) | (NotFound, _) => False
  | (_, st') => st' = st
  end.
Proof.
  destruct (post_api_auth_login st body now clock) as [[p|p| | | |] st'] eqn:Hl.
  - apply login_OK in Hl as (v & pw & u & k & Hv & Hpw & Hf & Hb & -> & ->).
    exists v, pw, u. simpl.
    assert (u ∈ List.filter (λ x, String.eqb (u_username x) (pg_text v)) (users st))
      as Hin by (rewrite Hf; left).
    apply elem_of_bfilter in Hin as [Hin Hname]. apply String.eqb_eq in Hname.
    done.
  - revert Hl. unfold post_api_auth_login. repeat case_match; congruence.
  - revert Hl. unfold post_api_auth_login. repeat case_match; congruence.
  - revert Hl. unfold post_api_auth_login. repeat case_match; congruence.
  - revert Hl. unfold post_api_auth_login. repeat case_match; congruence.
  - revert Hl. unfold post_api_auth_login. repeat case_match; congruence.
Qed.

Lemma bfilter_key_unique {A} (key : A → string) (l : list A) (a : A) :
  NoDup (key <$> l) → a ∈ l →
  List.filter (λ x, String.eqb (key x) (key a)) l = [a].
Proof.
  induction l as [|b l IH]; [by intros _ ?%elem_of_nil |].
  simpl. intros [Hnotin Hnd]%NoDup_cons [-> | Ha]%elem_of_cons.
  - rewrite String.eqb_refl. f_equal. apply bfilter_none.
    intros x Hx. apply String.eqb_neq. intros Heq. apply Hnotin.
    rewrite <- Heq. apply list_elem_of_fmap. eauto.
  - destruct (String.eqb (key b) (key a)) eqn:Hba; [| by apply IH].
    apply String.eqb_eq in Hba. exfalso. apply Hnotin.
    rewrite Hba. apply list_elem_of_fmap. eauto.
Qed.

(** X11.  A login that answers 200 hands out a token with which GET
    /api/auth/me, asked within 24 hours of the store the login left,
    answers 200 with the user of the login answer: when no two rows of
    [users] have one id, and the store reads the id of the user back as
    the uuid it is. *)
Theorem login_then_me st body now clock p st' clock' :
  post_api_auth_login st body now clock = (OK p, st') →
  NoDup (u_id <$> users st) →
  pg_uuid (lu_id (user p)) = Some (lu_id (user p)) →
  clock' < clock + 86400 →
  ∃ me, get_api_auth_me st' (Some ("Bearer " +:+ token p)) clock' = OK me ∧
        ru_id me = lu_id (user p) ∧
        ru_username me = lu_username (user p) ∧
        ru_email me = lu_email (user p) ∧
        ru_full_name me = lu_full_name (user p) ∧
        ru_role me = lu_role (user p) ∧
        ru_team_id me = lu_team_id (user p) ∧
        ru_team_name me = lu_team_name (user p).
Proof.
  intros (v & pw & u & k & _ & _ & Hf & _ & -> & ->)%login_OK Hpk Hid Hclock.
  cbn [token user lu_id lu_username lu_email lu_full_name lu_role lu_team_id
       lu_team_name] in *.
  assert (u ∈ users st) as Hu.
  { assert (u ∈ List.filter (λ x, String.eqb (u_username x) (pg_text v)) (users st))
      as Hin by (rewrite Hf; left).
    by apply elem_of_bfilter in Hin as [? _]. }
  unfold get_api_auth_me, authMiddleware.
  destruct (bearer_token (generateToken (u, head (List.filter (on_team u) (teams st))) clock))
    as [-> ->].
  unfold generateToken. rewrite jwt_decoded_id_sign by done. simpl.
  unfold V2.authMiddleware. pose proof (auth_where (u_id u)) as Hwhere.
  rewrite Hid in Hwhere. destruct Hwhere as (w & -> & Hw). simpl.
  destruct (List.filter w _) as [|r rest] eqn:Hrows.
  - exfalso.
    pose proof (bfilter_left_join_head on_team
                  (λ x, String.eqb (u_id x) (u_id u)) w
                  (map (λ x, if String.eqb (u_id x) (u_id u)
                             then logged_in now x else x) (users st))
                  (teams st) Hw) as Hhead.
    rewrite Hrows in Hhead.
    rewrite (bfilter_map_assign _ (λ x, String.eqb (u_id x) (u_id u))
               (logged_in now)) in Hhead by done.
    by rewrite (bfilter_key_unique u_id) in Hhead.
  - eapply (bfilter_left_join_first on_team
              (λ x, String.eqb (u_id x) (u_id u))) in Hrows as [[k' Hk] Ht];
      [| exact Hw].
    simpl in Hk.
    rewrite (bfilter_map_assign _ (λ x, String.eqb (u_id x) (u_id u))
               (logged_in now)) in Hk by done.
    rewrite (bfilter_key_unique u_id) in Hk by done.
    injection Hk as Hr1 _.
    eexists. split; [reflexivity |]. simpl. rewrite <- Hr1. simpl.
    repeat (split; [done |]). rewrite Ht, <- Hr1. done.
Qed.

End Accounts_facts.

(** ** The role a raw query needs *)

Section Roles.
Context `{PgEngine} `{AuthEngine}.
Import SQL V2 Accounts.

Lemma requireRole_Next roles u :
  requireRole roles (Some u) = Next ↔ ∃ r, ru_role u = Some r ∧ r ∈ roles.
Proof.
  unfold requireRole. destruct (ru_role u) as [r|].
  - destruct (existsb (String.eqb r) roles) eqn:Hex.
    + split; [intros _ | done]. exists r. split; [done |].
      apply existsb_exists in Hex as (x & Hx & ->%String.eqb_eq).
      by apply list_elem_of_In.
    + split; [done |]. intros (? & [= <-] & Hin). exfalso.
      assert (existsb (String.eqb r) roles = true); [| congruence].
      apply existsb_exists. exists r. rewrite <- list_elem_of_In.
      by rewrite String.eqb_refl.
  - split; [done | by intros (? & ? & _)].
Qed.

(** X12.  POST /api/knowledge/query answers 200 only when the token of
    the request is that of a user row whose role is [admin] or [lead],
    and the rows it answers with are what the graph store returned for
    the [aql] and [bindVars] of the request.  For any other caller the
    answer is 403, or 401 when [authMiddleware] refuses the request, and
    does not depend on the graph store: no query is run. *)
Theorem raw_query_guard (g1 g2 : GraphStore) st authorization clock body :
  (∀ r, @post_api_knowledge_query _ _ g1 st authorization clock body
        = Answer (OK r) →
     ∃ token id u q,
       authorization = Some ("Bearer " +:+ token) ∧
       jwt_decoded_id token clock = Some id ∧
       pg_uuid id = Some (u_id u) ∧
       u ∈ users st ∧
       (u_role u = Some "admin" ∨ u_role u = Some "lead") ∧
       body !! "aql" = Some q ∧
       @aqlQuery g1 q (with_default (JObj []) (body !! "bindVars"))
         = Some (results r) ∧
       count r = length (results r)) ∧
  ((∀ u, authMiddleware st authorization clock = OK u →
         ru_role u ≠ Some "admin" ∧ ru_role u ≠ Some "lead") →
   @post_api_knowledge_query _ _ g1 st authorization clock body =
   @post_api_knowledge_query _ _ g2 st authorization clock body ∧
   (@post_api_knowledge_query _ _ g1 st authorization clock body = Forbidden ∨
    @post_api_knowledge_query _ _ g1 st authorization clock body
    = Answer Unauthorized)).
Proof.
  unfold post_api_knowledge_query.
  destruct (authMiddleware st authorization clock) as [ru| | | | |] eqn:Hauth.
  2-6: by (split; [done | intros _; auto]).
  destruct (requireRole ["admin"; "lead"] (Some ru)) eqn:Hrole.
  - apply requireRole_Next in Hrole as (role & Hrole & Hin).
    split.
    + intros r Hr. injection Hr as Hr.
      apply authMiddleware_header_OK in Hauth
        as (token & id & u & -> & Hid & Huuid & Hu & Hrow).
      destruct Hrow as (_ & _ & _ & _ & Hr5 & _).
      unfold knowledge_query in Hr.
      destruct (truthy (body !! "aql")) eqn:Haql; simpl in Hr; [| done].
      apply truthy_Some in Haql as (q & Hq & _). rewrite Hq in Hr. simpl in Hr.
      destruct (aqlQuery q _) as [rows|] eqn:Hrows; [| done].
      injection Hr as <-. exists token, id, u, q. simpl.
      repeat (split; [done |]). split; [| done].
      rewrite <- Hr5, Hrole.
      apply elem_of_cons in Hin as [-> | Hin]; [by left |].
      apply elem_of_cons in Hin as [-> | Hin]; [by right |].
      by apply elem_of_nil in Hin.
    + intros Hno. destruct (Hno ru eq_refl) as [Ha Hl]. exfalso.
      apply elem_of_cons in Hin as [-> | Hin]; [done |].
      apply elem_of_cons in Hin as [-> | Hin]; [done |].
      by apply elem_of_nil in Hin.
  - split; [done | auto].
  - split; [done | auto].
Qed.

End Roles.

(** ** The reads of the first API *)

Section Legacy_reads.
Context `{PgEngine}.
Import SQL.

#[local] Instance legacy_by_created_desc_total : Total LegacyRoutes.by_created_desc.
Proof.
  intros a b. unfold LegacyRoutes.by_created_desc.
  destruct (created_desc_total (le_created_at a) (le_created_at b))
    as [-> | ->]; simpl; auto.
Qed.

#[local] Instance legacy_by_created_desc_trans :
  Transitive LegacyRoutes.by_created_desc.
Proof.
  intros a b c. unfold LegacyRoutes.by_created_desc. rewrite !Is_true_true.
  apply created_desc_trans.
Qed.

(** What one filter of a request leaves of a selection, row by row, and
    when it fails. *)
Lemma narrow_elem_of {R} (sch : schema R) v column op (rs : option (list R)) row :
  row ∈ default [] (narrow sch v column op rs) →
  row ∈ default [] rs ∧
  ∀ s, v = Some s → s ≠ "" →
       ∃ c, condition sch column op (PText s) = Some c ∧ c row = true.
Proof.
  unfold narrow. destruct v as [s|]; [| by intros ?].
  destruct (String.eqb s "") eqn:Hs.
  { apply String.eqb_eq in Hs as ->. intros ?. split; [done |].
    by intros ? [= <-] ?. }
  destruct rs as [r|]; simpl; [| by intros ?%elem_of_nil].
  destruct (condition sch column op (PText s)) as [c|] eqn:Hcond; simpl;
    [| by intros ?%elem_of_nil].
  intros [Hin Hc]%elem_of_bfilter. split; [done |].
  intros ? [= <-] _. rewrite Hcond. eauto.
Qed.

Lemma narrow_None {R} (sch : schema R) v column op (rs : option (list R)) :
  narrow sch v column op rs = None ↔
  rs = None ∨ ∃ s, v = Some s ∧ s ≠ "" ∧ condition sch column op (PText s) = None.
Proof.
  unfold narrow. destruct v as [s|].
  2:{ split; [auto | intros [? | (? & [=] & _)]; done]. }
  destruct (String.eqb s "") eqn:Hs.
  { apply String.eqb_eq in Hs as ->.
    split; [auto | intros [? | (? & [= <-] & ? & _)]; done]. }
  apply String.eqb_neq in Hs. destruct rs as [r|]; simpl; [| split; auto].
  destruct (condition sch column op (PText s)) as [c|] eqn:Hc; simpl.
  - split; [done |]. intros [? | (? & [= <-] & _ & ?)]; congruence.
  - split; [| done]. intros _. right. eauto.
Qed.

(** The clause of the search is its five filters, one after the other. *)
Lemma legacy_select_search query (rows : list LegacyEvidence) :
  select LegacyRoutes.evidence_scope (LegacyRoutes.search_conditions query) rows =
  narrow LegacyRoutes.evidence_scope (query !! "to_date") "created_at" CmpLe
    (narrow LegacyRoutes.evidence_scope (query !! "from_date") "created_at" CmpGe
       (narrow LegacyRoutes.evidence_scope (query !! "project_id") "project_id" CmpEq
          (narrow LegacyRoutes.evidence_scope (query !! "type") "evidence_type" CmpEq
             (narrow LegacyRoutes.evidence_scope (query !! "category")
                "task_category" CmpEq (Some rows))))).
Proof.
  unfold LegacyRoutes.search_conditions.
  rewrite !select_if_truthy; auto using well_formed_filter, well_formed_empty.
  by rewrite select_nothing.
Qed.

(** X13.  A page GET /api/evidence/search of the first API answers 200
    with holds at most 100 rows of [evidence_repository], newest first,
    and [count] is the number of rows of the page, not of the rows that
    match; every row has the category, the type and the project the
    request names.  A request with a date the store cannot read as a
    timestamp is answered 500. *)
Theorem legacy_search_page st query :
  (∀ p, LegacyRoutes.get_api_evidence_search st query = OK p →
     LegacyRoutes.count p = length (LegacyRoutes.evidence p) ∧
     (LegacyRoutes.count p ≤ 100)%nat ∧
     StronglySorted
       (λ a b, Is_true (created_desc (le_created_at a) (le_created_at b)))
       (LegacyRoutes.evidence p) ∧
     ∀ row, row ∈ LegacyRoutes.evidence p →
       row ∈ evidence_repository st ∧
       (∀ s, query !! "category" = Some s → s ≠ "" → le_task_category row = s) ∧
       (∀ s, query !! "type" = Some s → s ≠ "" → le_evidence_type row = s) ∧
       (∀ s, query !! "project_id" = Some s → s ≠ "" →
             le_project_id row = Some s)) ∧
  (∀ s, query !! "from_date" = Some s ∨ query !! "to_date" = Some s →
        s ≠ "" → pg_timestamp s = None →
        LegacyRoutes.get_api_evidence_search st query = InternalServerError).
Proof.
  unfold LegacyRoutes.get_api_evidence_search.
  pose proof (legacy_select_search query (evidence_repository st)) as Hsel.
  unfold select in Hsel at 1.
  destruct (where_clause LegacyRoutes.evidence_scope _ _) as [w|]; simpl in *.
  - split.
    + intros p [= <-]. simpl. split; [done |].
      split; [rewrite length_take; lia |].
      split; [apply (StronglySorted_take_drop _ _ 100 0),
                (StronglySorted_merge_sort LegacyRoutes.by_created_desc) |].
      intros row Hrow.
      eapply elem_of_sublist in Hrow; [| apply sublist_take].
      rewrite merge_sort_Permutation in Hrow.
      change (row ∈ default [] (Some (List.filter w (evidence_repository st))))
        in Hrow.
      rewrite Hsel in Hrow.
      apply narrow_elem_of in Hrow as [Hrow _].
      apply narrow_elem_of in Hrow as [Hrow _].
      apply narrow_elem_of in Hrow as [Hrow Hproject].
      apply narrow_elem_of in Hrow as [Hrow Htype].
      apply narrow_elem_of in Hrow as [Hrow Hcategory].
      split; [done |]. split; [| split].
      * intros s Hs Hne. destruct (Hcategory s Hs Hne) as (c & Hc & Hcr).
        unfold condition in Hc. simpl in Hc. injection Hc as <-.
        by apply String.eqb_eq in Hcr.
      * intros s Hs Hne. destruct (Htype s Hs Hne) as (c & Hc & Hcr).
        unfold condition in Hc. simpl in Hc. injection Hc as <-.
        by apply String.eqb_eq in Hcr.
      * intros s Hs Hne. destruct (Hproject s Hs Hne) as (c & Hc & Hcr).
        unfold condition in Hc. simpl in Hc. injection Hc as <-.
        destruct (le_project_id row) as [x|]; simpl in Hcr; [| done].
        by apply String.eqb_eq in Hcr as ->.
    + intros s Hs Hne Hts. exfalso.
      symmetry in Hsel.
      assert (condition LegacyRoutes.evidence_scope "created_at" CmpGe (PText s)
              = None) as Hge by (unfold condition; simpl; by rewrite Hts).
      assert (condition LegacyRoutes.evidence_scope "created_at" CmpLe (PText s)
              = None) as Hle by (unfold condition; simpl; by rewrite Hts).
      destruct Hs as [Hs | Hs].
      * assert (narrow LegacyRoutes.evidence_scope (query !! "from_date")
                  "created_at" CmpGe
                  (narrow LegacyRoutes.evidence_scope (query !! "project_id")
                     "project_id" CmpEq
                     (narrow LegacyRoutes.evidence_scope (query !! "type")
                        "evidence_type" CmpEq
                        (narrow LegacyRoutes.evidence_scope (query !! "category")
                           "task_category" CmpEq
                           (Some (evidence_repository st))))) = None) as Hn
          by (apply narrow_None; right; eauto).
        rewrite Hn in Hsel. unfold narrow in Hsel.
        destruct (query !! "to_date") as [t|]; [destruct (String.eqb t "") |];
          done.
      * assert (narrow LegacyRoutes.evidence_scope (query !! "to_date")
                  "created_at" CmpLe
                  (narrow LegacyRoutes.evidence_scope (query !! "from_date")
                     "created_at" CmpGe
                     (narrow LegacyRoutes.evidence_scope (query !! "project_id")
                        "project_id" CmpEq
                        (narrow LegacyRoutes.evidence_scope (query !! "type")
                           "evidence_type" CmpEq
                           (narrow LegacyRoutes.evidence_scope
                              (query !! "category") "task_category" CmpEq
                              (Some (evidence_repository st)))))) = None) as Hn
          by (apply narrow_None; right; eauto).
        congruence.
  - split; done.
Qed.



End Legacy_reads.

(** ** The configuration routes of the first API *)

Section Legacy_settings.
Context `{PgEngine}.
Import SQL LegacyRoutes.

Lemma settings_id_where (p1 p2 : param) id :
  match pg_integer id with
  | Some i =>
      (∃ w, where_clause hooks_scope [p1; p2; PText id]
              [Cond (col "id") CmpEq 3] = Some w ∧
            ∀ h, w h = (hc_id h =? i)) ∧
      (∃ w, where_clause rules_scope [p1; p2; PText id]
              [Cond (col "id") CmpEq 3] = Some w ∧
            ∀ r, w r = (vr_id r =? i))
  | None =>
      where_clause hooks_scope [p1; p2; PText id]
        [Cond (col "id") CmpEq 3] = None ∧
      where_clause rules_scope [p1; p2; PText id]
        [Cond (col "id") CmpEq 3] = None
  end.
Proof.
  unfold where_clause, prepare, hooks_scope, rules_scope. simpl.
  destruct (pg_integer id) as [i|]; simpl; [| done].
  split; eexists; (split; [reflexivity |]); intros r; simpl;
    by rewrite andb_true_r.
Qed.

(** X15.  PUT /api/hooks/config/:id answers 400, and leaves the table as
    it is, exactly when [enabled] is not a JSON boolean or [config] is
    falsy.  Otherwise a row of [hook_configurations] either stays as it
    is or has the id of the request and changes in [enabled], [config]
    and [updated_at] only, which become the values of the request as the
    store reads them and the time of the update; no row is added or
    removed and the rules are not touched.  The row of a 200 is a row of
    the table after the update, and a 404 or a 500 leaves the table as it
    was. *)
Theorem hook_config_update cfg id body now :
  let answer := put_api_hooks_config cfg id body now in
  (answer.1 = BadRequest ↔
   is_boolean (body !! "enabled") = false ∨ truthy (body !! "config") = false) ∧
  verification_rules answer.2 = verification_rules cfg ∧
  Forall2
    (λ h h',
       h' = h ∨
       pg_integer id = Some (hc_id h) ∧
       as_boolean (param_of_js (body !! "enabled")) = Some (hc_enabled h') ∧
       as_jsonb (param_of_js (body !! "config")) = Some (Some (hc_config h')) ∧
       h' = {| hc_id := hc_id h;
               hc_name := hc_name h;
               hc_category := hc_category h;
               hc_description := hc_description h;
               hc_enabled := hc_enabled h';
               hc_config := hc_config h';
               hc_created_at := hc_created_at h;
               hc_updated_at := Some now |})
    (hook_configurations cfg) (hook_configurations answer.2) ∧
  (∀ row, answer.1 = OK row →
     row ∈ hook_configurations answer.2 ∧
     pg_integer id = Some (hc_id row) ∧
     hc_updated_at row = Some now) ∧
  (answer.1 = BadRequest ∨ answer.1 = NotFound ∨
   answer.1 = InternalServerError → answer.2 = cfg).
Proof.
  assert (Forall2
            (λ h h' : HookConfiguration,
               h' = h ∨
               pg_integer id = Some (hc_id h) ∧
               as_boolean (param_of_js (body !! "enabled")) = Some (hc_enabled h') ∧
               as_jsonb (param_of_js (body !! "config")) = Some (Some (hc_config h')) ∧
               h' = {| hc_id := hc_id h;
                       hc_name := hc_name h;
                       hc_category := hc_category h;
                       hc_description := hc_description h;
                       hc_enabled := hc_enabled h';
                       hc_config := hc_config h';
                       hc_created_at := hc_created_at h;
                       hc_updated_at := Some now |})
            (hook_configurations cfg) (hook_configurations cfg)) as Hsame.
  { apply Forall_Forall2_diag, Forall_forall. intros. by left. }
  intros answer. subst answer. unfold put_api_hooks_config.
  destruct (is_boolean (body !! "enabled")) eqn:Hb; simpl.
  2:{ split; [split; auto |]. done. }
  destruct (truthy (body !! "config")) eqn:Hc; simpl.
  2:{ split; [split; auto |]. done. }
  unfold update_hook_configurations.
  pose proof (settings_id_where (param_of_js (body !! "enabled"))
                (param_of_js (body !! "config")) id) as Hwhere.
  destruct (pg_integer id) as [i|].
  2:{ destruct Hwhere as [-> _]. simpl.
      split; [split; [done | by intros [? | ?]] |].
      split; [done |]. split; [done |]. split; done. }
  destruct Hwhere as [(w & -> & Hw) _]. simpl.
  destruct (as_boolean _) as [enabled|] eqn:Henabled; simpl.
  2:{ split; [split; [done | by intros [? | ?]] |].
      split; [done |]. split; [done |]. split; done. }
  destruct (as_jsonb _) as [config|] eqn:Hconfig; simpl.
  2:{ split; [split; [done | by intros [? | ?]] |].
      split; [done |]. split; [done |]. split; done. }
  destruct (List.filter w (hook_configurations cfg)) as [|h0 hs] eqn:Hhit.
  { simpl. split; [split; [done | by intros [? | ?]] |].
    split; [done |]. split; [done |]. split; done. }
  destruct config as [config|]; simpl.
  2:{ split; [split; [done | by intros [? | ?]] |].
      split; [done |]. split; [done |]. split; done. }
  split; [split; [done | by intros [? | ?]] |].
  split; [done |]. split; [| split].
  - clear Hhit Hsame. generalize (hook_configurations cfg). intros l.
    induction l as [|h l IH]; simpl; constructor; [| done].
    destruct (w h) eqn:Hwh; [| by left]. right.
    rewrite Hw in Hwh. apply Z.eqb_eq in Hwh as <-. done.
  - intros row [= <-].
    assert (h0 ∈ List.filter w (hook_configurations cfg)) as Hin
      by (rewrite Hhit; left).
    apply elem_of_bfilter in Hin as [Hin Hwh]. split; [| split; [| done]].
    + apply list_elem_of_fmap. exists h0. by rewrite Hwh.
    + simpl. rewrite Hw in Hwh. by apply Z.eqb_eq in Hwh as <-.
  - intros [? | [? | ?]]; done.
Qed.

Lemma rules_where category :
  ∃ w, where_clause rules_scope [PText category]
         [Cond (col "category") CmpEq 1] = Some w ∧
       ∀ r, w r = String.eqb (vr_category r) category.
Proof.
  unfold where_clause, prepare, rules_scope. simpl.
  eexists. split; [reflexivity |]. intros r. simpl. by rewrite andb_true_r.
Qed.

#[local] Instance by_priority_desc_total : Total by_priority_desc.
Proof.
  intros a b. unfold by_priority_desc.
  destruct (vr_priority a), (vr_priority b); simpl; auto.
  rewrite !Is_true_true, !Z.leb_le. lia.
Qed.

#[local] Instance by_priority_desc_trans : Transitive by_priority_desc.
Proof.
  intros a b c. unfold by_priority_desc.
  destruct (vr_priority a), (vr_priority b), (vr_priority c); simpl; try done.
  rewrite !Is_true_true, !Z.leb_le. lia.
Qed.

(** The rows of the list of rules. *)
Lemma rules_list cfg category :
  ∃ rows, get_api_rules cfg category = OK rows ∧
          rows ≡ₚ List.filter
                    (λ r, String.eqb (vr_category r) category &&
                          bool_decide (vr_enabled r = Some true))
                    (verification_rules cfg) ∧
          StronglySorted by_priority_desc rows.
Proof.
  unfold get_api_rules. destruct (rules_where category) as (w & -> & Hw). simpl.
  eexists. split; [reflexivity |]. split.
  - rewrite merge_sort_Permutation. erewrite bfilter_ext; [done |].
    intros r. rewrite Hw. by destruct (vr_enabled r) as [[]|].
  - apply (StronglySorted_merge_sort by_priority_desc).
Qed.

Lemma rules_list_elem_of cfg category rows r :
  rows ≡ₚ List.filter
            (λ r, String.eqb (vr_category r) category &&
                  bool_decide (vr_enabled r = Some true))
            (verification_rules cfg) →
  r ∈ rows ↔
  r ∈ verification_rules cfg ∧ vr_category r = category ∧
  vr_enabled r = Some true.
Proof.
  intros ->. rewrite elem_of_bfilter, andb_true_iff, String.eqb_eq.
  by rewrite bool_decide_eq_true.
Qed.

(** X16.  The rows GET /api/rules/:category answers 200 with are the
    rules of the category whose [enabled] is true (a rule whose [enabled]
    is NULL is left out like a disabled one), in the order of falling
    priority, rules without a priority first. *)
Theorem rules_of_category cfg category rows :
  get_api_rules cfg category = OK rows →
  (∀ r, r ∈ rows ↔
        r ∈ verification_rules cfg ∧ vr_category r = category ∧
        vr_enabled r = Some true) ∧
  StronglySorted by_priority_desc rows.
Proof.
  destruct (rules_list cfg category) as (rows' & -> & Hperm & Hsorted).
  intros [= <-]. split; [| done].
  intros r. by apply rules_list_elem_of.
Qed.


End Legacy_settings.

(** ** The search of the knowledge graph *)

Section Knowledge_search.
Context `{PgEngine} `{AuthEngine} `{GraphStore} `{JsEngine}.
Import KnowledgeSearch.

(** A loop that does not throw has a text for each of its names. *)
Lemma search_collections_Some q names (m m' : gmap string (list jsval)) :
  search_collections q m names = Some m' →
  ∃ texts, mapM js_string names = Some texts.
Proof.
  revert m. induction names as [|x names IH]; intros m; simpl.
  - by exists [].
  - unfold search_collection at 1.
    destruct (js_string x) as [name|]; simpl; [| done].
    destruct (String.eqb name "__proto__"); simpl;
      intros [texts ->]%IH; by eexists.
Qed.

(** A loop throws exactly when one of its names has no text. *)
Lemma search_collections_None q names (m : gmap string (list jsval)) :
  search_collections q m names = None ↔ ∃ x, x ∈ names ∧ js_string x = None.
Proof.
  revert m. induction names as [|x names IH]; intros m; simpl.
  - split; [done |]. by intros (? & ?%elem_of_nil & _).
  - unfold search_collection at 1.
    destruct (js_string x) as [name|] eqn:Hx; simpl.
    + assert (∀ m0, search_collections q m0 names = None ↔
                    ∃ y, y ∈ x :: names ∧ js_string y = None) as Hrest.
      { intros m0. rewrite IH. split.
        - intros (y & Hy & Hnone). exists y. split; [by right | done].
        - intros (y & Hy & Hnone).
          apply elem_of_cons in Hy as [-> | Hy]; [congruence |]. eauto. }
      destruct (String.eqb name "__proto__"); simpl; apply Hrest.
    + split; [| done]. intros _. exists x. split; [left | done].
Qed.

(** What the loop leaves under a name: the rows of its collection when
    the loop came by it, and what was there before otherwise. *)
Lemma search_collections_lookup q names texts (m m' : gmap string (list jsval)) name :
  mapM js_string names = Some texts →
  search_collections q m names = Some m' →
  m' !! name =
  if bool_decide (name ≠ "__proto__" ∧ name ∈ texts)
  then Some (default [] (aqlQuery (JStr (aql name)) (JObj [("query", q)])))
  else m !! name.
Proof.
  revert texts m. induction names as [|x names IH]; intros texts m; simpl.
  - intros [= <-] [= <-].
    rewrite bool_decide_eq_false_2; [done |]. intros [_ ?%elem_of_nil]. done.
  - unfold search_collection at 1.
    destruct (js_string x) as [text|]; simpl; [| done].
    destruct (mapM js_string names) as [rest|]; simpl; [| done].
    intros [= <-] Hloop.
    destruct (decide (name ≠ "__proto__" ∧ name ∈ rest)) as [[Hp Hin] | Hnot].
    + destruct (String.eqb text "__proto__"); simpl in Hloop;
        rewrite (IH rest _ eq_refl Hloop);
        (rewrite !bool_decide_eq_true_2; [done | | done]);
        (split; [done |]; by right).
    + destruct (decide (name = text)) as [-> | Hne].
      * destruct (String.eqb text "__proto__") eqn:Hproto; simpl in Hloop;
          rewrite (IH rest _ eq_refl Hloop), (bool_decide_eq_false_2 _ Hnot).
        -- apply String.eqb_eq in Hproto.
           rewrite bool_decide_eq_false_2; [done |]. by intros [? _].
        -- apply String.eqb_neq in Hproto.
           rewrite bool_decide_eq_true_2 by (split; [done | left]).
           by rewrite lookup_insert_eq.
      * assert (¬ (name ≠ "__proto__" ∧ name ∈ text :: rest)) as Hnot'.
        { intros [Hp Hin].
          apply elem_of_cons in Hin as [? | Hin]; [done |]. by apply Hnot. }
        destruct (String.eqb text "__proto__"); simpl in Hloop;
          rewrite (IH rest _ eq_refl Hloop), (bool_decide_eq_false_2 _ Hnot),
            (bool_decide_eq_false_2 _ Hnot'); [done |].
        by rewrite lookup_insert_ne.
Qed.

(** X18.  POST /api/knowledge/search, for a request [authMiddleware]
    lets pass, answers 400 exactly when the [query] of the body is falsy,
    and otherwise 500 exactly when its [collections] cannot be iterated
    or one of them has no text, as an object with a property [toString]
    has none; otherwise it answers 200, whatever the graph store does,
    and [results] has under the text of each collection of the request
    the rows the graph store returned for it, or no rows when the query
    of that collection failed, and nothing under any other name.  The
    name [__proto__] gets no entry. *)
Theorem knowledge_search_answers st authorization clock body :
  let collections :=
    with_default default_collections (body !! "collections") in
  match post_api_knowledge_search st authorization clock body with
  | OK a =>
      (∃ ru, Accounts.authMiddleware st authorization clock = OK ru) ∧
      body !! "query" = Some (query a) ∧
      truthy (body !! "query") = true ∧
      ∃ names texts,
        iterate collections = Some names ∧
        mapM js_string names = Some texts ∧
        ∀ name,
          results a !! name =
          if bool_decide (name ≠ "__proto__" ∧ name ∈ texts)
          then Some (default []
                       (aqlQuery (JStr (aql name)) (JObj [("query", query a)])))
          else None
  | BadRequest =>
      truthy (body !! "query") = false
  | InternalServerError =>
      truthy (body !! "query") = true ∧
      (iterate collections = None ∨
       ∃ names x, iterate collections = Some names ∧
                  x ∈ names ∧ js_string x = None)
  | Unauthorized =>
      ∀ ru, Accounts.authMiddleware st authorization clock ≠ OK ru
  | _ => False
  end.
Proof.
  intros collections. unfold post_api_knowledge_search.
  destruct (Accounts.authMiddleware st authorization clock) as [ru| | | | |];
    try done.
  unfold knowledge_search. fold collections.
  destruct (truthy (body !! "query")) eqn:Hq; simpl; [| done].
  destruct (body !! "query") as [q|]; [| done].
  destruct (iterate collections) as [names|]; [| by split; [| left]].
  destruct (search_collections q ∅ names) as [m|] eqn:Hloop.
  - split; [eauto |]. split; [done |]. split; [done |].
    destruct (search_collections_Some _ _ _ _ Hloop) as [texts Htexts].
    exists names, texts. split; [done |]. split; [done |]. intros name. simpl.
    by rewrite (search_collections_lookup _ _ _ _ _ name Htexts Hloop),
      lookup_empty.
  - split; [done |]. right.
    apply search_collections_None in Hloop as (x & Hx & Hnone).
    by exists names, x.
Qed.

End Knowledge_search.

(** ** The log of tool executions *)

Section Tool_executions.
Context `{PgEngine}.
Import SQL V2 Mcp.


End Tool_executions.

(** * The other routes at work *)

Section Routes_at_work.
Import SQL V2 Scenario Installation.
Existing Instance Sample.engine.
Existing Instance Bench.collation.
Existing Instance Bench.auth.
Existing Instance Bench.graph.
Existing Instance Bench.javascript.

Example hooks_of_alice :
  HookReads.get_api_hooks hooked alice =
  OK {| HookReads.hooks := [uploaded hook2 None; uploaded hook1 (Some "alice")];
        HookReads.count := 2 |}.
Proof. vm_compute. reflexivity. Qed.

Example hooks_of_carol :
  HookReads.get_api_hooks hooked carol =
  OK {| HookReads.hooks := []; HookReads.count := 0 |}.
Proof. vm_compute. reflexivity. Qed.

Example hook_of_another_team :
  HookReads.get_api_hooks_id hooked alice (h_id hook3) = NotFound ∧
  HookReads.get_api_hooks_id hooked bob (h_id hook3) =
  OK (uploaded hook3 (Some "bob")).
Proof. split; vm_compute; reflexivity. Qed.

Example context_of_another_team :
  get_api_evidence_context store alice (e_id evidence2) = NotFound ∧
  get_api_evidence_context store bob (e_id evidence2) =
  OK (joined evidence2 "bob").
Proof. split; vm_compute; reflexivity. Qed.

Example login_wrong_password :
  Accounts.post_api_auth_login accounts alice_wrong_login 50 1000 =
  (Unauthorized, accounts).
Proof. vm_compute. reflexivity. Qed.

Example raw_query_lead :
  Accounts.post_api_knowledge_query accounts (Some alice_token) 1000 raw_query =
  Accounts.Answer
    (OK {| Accounts.results := [JObj [("_key", JStr "zero-trust")]];
           Accounts.count := 1 |}).
Proof. vm_compute. reflexivity. Qed.

Example raw_query_developer :
  Accounts.post_api_knowledge_query accounts (Some bob_token) 1000 raw_query =
  Accounts.Forbidden.
Proof. vm_compute. reflexivity. Qed.

Example raw_query_no_token :
  Accounts.post_api_knowledge_query accounts None 1000 raw_query =
  Accounts.Answer Unauthorized.
Proof. vm_compute. reflexivity. Qed.

Example graph_search_degrades :
  ∃ a, KnowledgeSearch.post_api_knowledge_search accounts (Some bob_token) 1000
         graph_search = OK a ∧
       KnowledgeSearch.results a !! "agent_guidance"
         = Some [JObj [("_key", JStr "zero-trust")]] ∧
       KnowledgeSearch.results a !! "missing" = Some [] ∧
       KnowledgeSearch.results a !! "__proto__" = None.
Proof. eexists. split; [vm_compute; reflexivity |]. by vm_compute. Qed.

Example graph_search_of_an_object :
  KnowledgeSearch.post_api_knowledge_search accounts (Some bob_token) 1000
    graph_search_object = InternalServerError.
Proof. vm_compute. reflexivity. Qed.

Example config_update_needs_boolean :
  LegacyRoutes.put_api_hooks_config settings "2" config_patch_text 9 =
  (BadRequest, settings).
Proof. vm_compute. reflexivity. Qed.

Example rules_of_web :
  vr_id <$> match LegacyRoutes.get_api_rules settings "web" with
            | OK rows => rows
            | _ => []
            end = [2; 1].
Proof. vm_compute. reflexivity. Qed.

Example first_search_web :
  le_id <$> match LegacyRoutes.get_api_evidence_search reported web_query with
            | OK p => LegacyRoutes.evidence p
            | _ => []
            end = [2; 3; 1].
Proof. vm_compute. reflexivity. Qed.

Example first_search_bad_date :
  LegacyRoutes.get_api_evidence_search reported
    (<["from_date" := "soon"]> web_query) = InternalServerError.
Proof. vm_compute. reflexivity. Qed.

Example tool_execution_of_alice :
  ∃ row reg,
    Mcp.post_api_mcp_tool_execution store registry alice execution fresh_id 60
    = (OK row, reg) ∧ te_user_id row = Some alice_id.
Proof. do 2 eexists. split; vm_compute; reflexivity. Qed.

Lemma hook_update_then_details_witness :
  ∃ row st',
    put_api_hooks store alice hook1_id hook_patch 7 = (OK row, st') ∧
    ∃ r, HookReads.get_api_hooks_id st' alice hook1_id = OK r ∧
         HookReads.hr_hook r = row.
Proof.
  assert (∃ row st', put_api_hooks store alice hook1_id hook_patch 7
                     = (OK row, st')) as (row & st' & Hput)
    by (do 2 eexists; vm_compute; reflexivity).
  exists row, st'. split; [exact Hput |].
  exact (proj1 (hook_update_then_details store alice hook1_id hook_patch 7
                  row st' Hput)).
Defined.

Lemma search_page_newest_first_witness :
  ∃ p, get_api_evidence_search store alice private_query = OK p ∧
       StronglySorted
         (λ a b, Is_true (created_desc (e_created_at (er_evidence a))
                                       (e_created_at (er_evidence b))))
         (evidence p).
Proof.
  assert (∃ p, get_api_evidence_search store alice private_query = OK p)
    as [p Hp] by (eexists; vm_compute; reflexivity).
  exists p. split; [exact Hp |].
  exact (search_page_newest_first store alice private_query p Hp).
Defined.

Lemma submit_then_private_search_witness :
  ∃ row st' p r,
    post_api_evidence store alice report fresh_id 40 = (Created row, st') ∧
    get_api_evidence_search st' alice private_query = OK p ∧
    r ∈ evidence p ∧ er_evidence r = row.
Proof.
  assert (∃ row st', post_api_evidence store alice report fresh_id 40
                     = (Created row, st')) as (row & st' & Hpost)
    by (do 2 eexists; vm_compute; reflexivity).
  assert (NoDup (u_id <$> users store)) as Hpk
    by (apply (bool_decide_unpack _); vm_compute; exact I).
  assert (private_query !! "visibility" = Some "private") as Hv by reflexivity.
  assert (private_query !! "category" = None) as Hc by reflexivity.
  assert (private_query !! "user_id" = None) as Hu by reflexivity.
  assert (private_query !! "from_date" = None) as Hf by reflexivity.
  assert (private_query !! "to_date" = None) as Ht by reflexivity.
  assert (search_offset private_query = Some 0) as Ho by reflexivity.
  assert (search_limit private_query = Some 100) as Hl by reflexivity.
  assert (Z.of_nat (length (List.filter (private_predicate alice)
                              (evidence_repository_v2 store))) < 100 < 2 ^ 63)
    as Hn by (vm_compute; split; reflexivity).
  destruct (submit_then_private_search store alice report fresh_id 40 row st'
              private_query 100 Hpost Hpk Hv Hc Hu Hf Ht Ho Hl Hn)
    as (p & r & Hp & Hr & Hrow).
  exists row, st', p, r. done.
Defined.

Lemma metrics_account_witness :
  ∃ rows, get_api_metrics_compliance store bob ∅ = OK rows ∧
          sum_list_with total_verifications rows =
          length (metrics_matching store (metrics_conditions bob ∅)).
Proof.
  assert (∃ rows, get_api_metrics_compliance store bob ∅ = OK rows)
    as [rows Hrows] by (eexists; vm_compute; reflexivity).
  exists rows. split; [exact Hrows |].
  exact (proj2 (proj2 (proj2 (proj2 (metrics_account store bob ∅ rows Hrows))))).
Defined.

Lemma login_then_me_witness :
  ∃ p st' me,
    Accounts.post_api_auth_login accounts alice_login 50 1000 = (OK p, st') ∧
    Accounts.get_api_auth_me st'
      (Some ("Bearer " +:+ Accounts.token p)) 2000 = OK me ∧
    ru_id me = Accounts.lu_id (Accounts.user p).
Proof.
  assert (∃ p st', Accounts.post_api_auth_login accounts alice_login 50 1000
                   = (OK p, st')) as (p & st' & Hlogin)
    by (do 2 eexists; vm_compute; reflexivity).
  assert (NoDup (u_id <$> users accounts)) as Hpk
    by (apply (bool_decide_unpack _); vm_compute; exact I).
  assert (pg_uuid (Accounts.lu_id (Accounts.user p))
          = Some (Accounts.lu_id (Accounts.user p))) as Hid.
  { revert Hlogin. vm_compute. intros [= <- _]. reflexivity. }
  assert (2000 < 1000 + 86400) as Hclock by lia.
  destruct (login_then_me accounts alice_login 50 1000 p st' 2000
              Hlogin Hpk Hid Hclock) as (me & Hme & Hmeid & _).
  exists p, st', me. done.
Defined.


Lemma rules_of_category_witness :
  ∃ rows, LegacyRoutes.get_api_rules settings "web" = OK rows ∧
          (∀ r, r ∈ rows ↔
                r ∈ verification_rules settings ∧ vr_category r = "web" ∧
                vr_enabled r = Some true) ∧
          StronglySorted LegacyRoutes.by_priority_desc rows.
Proof.
  assert (∃ rows, LegacyRoutes.get_api_rules settings "web" = OK rows)
    as [rows Hrows] by (eexists; vm_compute; reflexivity).
  exists rows. split; [exact Hrows |].
  exact (rules_of_category settings "web" rows Hrows).
Defined.


Lemma hook_update_needs_script_witness :
  (put_api_hooks store alice hook1_id ∅ 7).2 = store ∧
  ((put_api_hooks store alice hook1_id ∅ 7).1 = NotFound ∨
   (put_api_hooks store alice hook1_id ∅ 7).1 = InternalServerError).
Proof.
  assert ((∅ : gmap string jsval) !! "script_content" = None) as Hnone
    by reflexivity.
  exact (hook_update_needs_script store alice hook1_id ∅ 7 (or_introl Hnone)).
Defined.

Lemma search_ambiguous_witness :
  get_api_evidence_search store alice ∅ = InternalServerError.
Proof.
  assert (with_default "team" ((∅ : gmap string string) !! "visibility") = "team")
    as Hteam by reflexivity.
  exact (search_ambiguous store alice ∅ (or_introl Hteam)).
Defined.


End Routes_at_work.
